(** * pi-review: the multi-stage review suite of [src/index.ts]

    A shallow embedding of the extension's stage-orchestration state
    machine: the closure variables of the default export become a record
    [Suite], the host calls ([ctx.ui.setStatus], [ctx.ui.notify],
    [pi.sendUserMessage]) become an ordered trace of [Effect]s, and every
    handler registered with [pi.on] / [pi.registerCommand] becomes a
    computation in a small state-and-trace monad.

    Conventions.
    - A JS string is a [string]: a sequence of code units, restricted to
      code units below 256 (one [ascii] each).
    - A JS number that the code uses as an integer (an index, a count, a
      timestamp) is a [Z].
    - The file system read by [loadPromptText] and the results of the
      awaited host calls are inputs of the handlers. *)

From Stdlib Require Import String Ascii ZArith List Lia Bool.
From stdpp Require Import gmap strings list pretty.

Local Open Scope string_scope.
Local Open Scope list_scope.
Local Open Scope stdpp_scope.
Local Open Scope Z_scope.

(* ===================================================================== *)
(** * JavaScript strings *)
(* ===================================================================== *)

Module JsString.

(** Line feed and carriage return, which have no literal spelling
    here. *)
Definition LF : ascii := ascii_of_nat 10.
Definition CR : ascii := ascii_of_nat 13.
Definition nl : string := String LF "".

(** [WhiteSpace] and [LineTerminator] of ECMAScript, among the code
    units below 256: TAB, LF, VT, FF, CR, SP and NBSP. *)
Definition isWhiteSpace (c : ascii) : bool :=
  let n := nat_of_ascii c in
  ((9 <=? n) && (n <=? 13) || (n =? 32) || (n =? 160))%nat.

(** [s.trimStart()] *)
Fixpoint trimStart (s : string) : string :=
  match s with
  | "" => ""
  | String c r => if isWhiteSpace c then trimStart r else s
  end.

(** [s.trimEnd()] *)
Fixpoint trimEnd (s : string) : string :=
  match s with
  | "" => ""
  | String c r =>
      match trimEnd r with
      | "" => if isWhiteSpace c then "" else String c ""
      | r' => String c r'
      end
  end.

(** [s.trim()] *)
Definition trim (s : string) : string := trimEnd (trimStart s).

(** Truthiness of a string: [!s] holds of the empty string only. *)
Definition isEmpty (s : string) : bool :=
  match s with "" => true | _ => false end.

(** [s.startsWith(p)] *)
Fixpoint startsWith (p s : string) : bool :=
  match p, s with
  | "", _ => true
  | String a p', String b s' => Ascii.eqb a b && startsWith p' s'
  | String _ _, "" => false
  end.

(** [s.substring(n)] *)
Fixpoint strDrop (n : nat) (s : string) : string :=
  match n, s with
  | O, _ => s
  | S n', String _ r => strDrop n' r
  | S _, "" => ""
  end.

(** [s.substring(0, n)] *)
Fixpoint strTake (n : nat) (s : string) : string :=
  match n, s with
  | S n', String c r => String c (strTake n' r)
  | _, _ => ""
  end.

(** [s.includes(p)] *)
Fixpoint includes (p s : string) : bool :=
  startsWith p s ||
  match s with
  | "" => false
  | String _ r => includes p r
  end.

(** [parts.join(sep)] *)
Definition join (sep : string) (parts : list string) : string :=
  String.concat sep parts.

(** [GetSubstitution] of ECMAScript for a string pattern (no captures):
    in the replacement text [$$] stands for a dollar sign, [$&] for the
    matched text, [$`] for the text before the match and [$'] for the
    text after it; [$] followed by anything else is copied as it is. *)
Fixpoint getSubstitution (matched before after tmpl : string) : string :=
  match tmpl with
  | "" => ""
  | String c rest =>
      if Ascii.eqb c "$" then
        match rest with
        | "" => String c ""
        | String d rest' =>
            if Ascii.eqb d "$" then
              String "$" (getSubstitution matched before after rest')
            else if Ascii.eqb d "&" then
              matched +:+ getSubstitution matched before after rest'
            else if Ascii.eqb d "`" then
              before +:+ getSubstitution matched before after rest'
            else if Ascii.eqb d "'" then
              after +:+ getSubstitution matched before after rest'
            else String c (getSubstitution matched before after rest)
        end
      else String c (getSubstitution matched before after rest)
  end.

(** The scan of [whole.replaceAll(search, repl)], resumed at position
    [length before] with [s] the text from there on. [skip] counts the
    code units of the current match still to be passed over. An empty
    [search] matches before every code unit and at the end. *)
Fixpoint replaceAllFrom (search repl : string) (before : string)
    (skip : nat) (s : string) : string :=
  match s with
  | "" =>
      match skip with
      | O =>
          if isEmpty search then getSubstitution search before "" repl
          else ""
      | S _ => ""
      end
  | String c r =>
      match skip with
      | S k =>
          replaceAllFrom search repl (before +:+ String c "") k r
      | O =>
          if startsWith search s then
            let after := strDrop (String.length search) s in
            let sub := getSubstitution search before after repl in
            if isEmpty search then
              sub +:+ String c
                (replaceAllFrom search repl (before +:+ String c "") O r)
            else
              sub +:+
                replaceAllFrom search repl (before +:+ String c "")
                  (String.length search - 1) r
          else
            String c
              (replaceAllFrom search repl (before +:+ String c "") O r)
      end
  end.

(** [s.replaceAll(search, repl)] with a string pattern. *)
Definition replaceAll (search repl s : string) : string :=
  replaceAllFrom search repl "" O s.

End JsString.

Import JsString.

(* ===================================================================== *)
(** * Targets, stages and prompt templates *)
(* ===================================================================== *)

(** [type ReviewTarget] *)
Inductive ReviewTarget : Type :=
| worktree
| staged
| pr (prNumber : Z)
| recent (baseSha : string).

Inductive StageKind : Type := review | synthesize.

(** [type ReviewSuiteStage]: both variants carry the same fields. *)
Record ReviewSuiteStage : Type := mkStage {
  kind : StageKind;
  id : string;
  promptName : string;
  label : string
}.

Definition STAGE_DONE_MARKER : string := "[[PI_REVIEW_STAGE_DONE]]".

Definition DEFAULT_SUITE_STAGES : list ReviewSuiteStage :=
  [ mkStage review "overall" "review-overall" "Overall";
    mkStage review "linus" "review-linus" "Linus";
    mkStage review "staff" "review-staff" "Staff";
    mkStage synthesize "synthesize" "review-synthesize" "Synthesis" ].

(** ** [stripFrontmatter]

    The regular expression of the source, which reads: start of text,
    [---], [\r?\n], a lazy run of any code units, [\r?\n---], an optional
    group [\r?\n], and a capture group holding any code units up to the
    end of the text; as a backtracking matcher in continuation-passing style: every piece
    takes the matcher of what follows it and the text still to match. *)
Module Frontmatter.

(** a literal piece *)
Definition lit {A} (l : string) (k : string -> option A) (s : string)
    : option A :=
  if startsWith l s then k (strDrop (String.length l) s) else None.

(** [\r?]: greedy, so the carriage return is tried first *)
Definition optCR {A} (k : string -> option A) (s : string) : option A :=
  match s with
  | String c r =>
      if Ascii.eqb c CR then
        match k r with
        | Some x => Some x
        | None => k s
        end
      else k s
  | "" => k s
  end.

(** the lazy run of any code units: the shortest run is tried first *)
Fixpoint lazyAny {A} (k : string -> option A) (s : string) : option A :=
  match k s with
  | Some x => Some x
  | None =>
      match s with
      | "" => None
      | String _ r => lazyAny k r
      end
  end.

(** [(?:\r?\n)?]: greedy optional group *)
Definition optNewline {A} (k : string -> option A) (s : string)
    : option A :=
  match optCR (lit nl k) s with
  | Some x => Some x
  | None => k s
  end.

(** the capture group and the end anchor: the capture is all that is
    left *)
Definition captureRest (s : string) : option string := Some s.

(** The first capture group of the match, if the text matches. *)
Definition matchFrontmatter (content : string) : option string :=
  lit "---" (optCR (lit nl
    (lazyAny (optCR (lit nl (lit "---"
      (optNewline captureRest))))))) content.

End Frontmatter.

Definition stripFrontmatter (content : string) : string :=
  match Frontmatter.matchFrontmatter content with
  | Some body => trim body
  | None => trim content
  end.

(** [renderVars]: [vars] lists the entries of the object in insertion
    order, as [Object.entries] yields them. *)
Definition renderVars (template : string) (vars : list (string * string))
    : string :=
  fold_left
    (fun out kv => replaceAll ("{{" +:+ fst kv +:+ "}}") (snd kv) out)
    vars template.

(** ** The prompt files

    [homedir] is [os.homedir()], [dirname] is [__dirname], and [files]
    maps the path of every readable file to its text. [pathJoin] is
    [path.join] on POSIX for segments that need no normalisation. *)
Record FileSystem : Type := mkFs {
  homedir : string;
  dirname : string;
  files : gmap string string
}.

Definition pathJoin (segments : list string) : string :=
  String.concat "/" segments.

Definition existsSync (fs : FileSystem) (path : string) : bool :=
  bool_decide (is_Some (files fs !! path)).

Definition readFileSync (fs : FileSystem) (path : string) : string :=
  default "" (files fs !! path).

Definition loadPromptText (fs : FileSystem) (promptName : string) : string :=
  let userPath :=
    pathJoin [homedir fs; ".pi"; "agent"; "prompts"; promptName +:+ ".md"] in
  if existsSync fs userPath then stripFrontmatter (readFileSync fs userPath)
  else
    let pkgPath := pathJoin [dirname fs; "prompts"; promptName +:+ ".md"] in
    if existsSync fs pkgPath then stripFrontmatter (readFileSync fs pkgPath)
    else "".

(** ** [buildScopePrompt] *)

(** One line of a template literal: the text and its [\n]. *)
Definition ln (s : string) : string := s +:+ nl.

(** The decimal rendering of a number in a template literal. *)
Definition numberToString (n : Z) : string := pretty n.

Definition scopeCommon : string :=
  ln "You are doing a high-signal code review." +:+ nl +:+
  ln "Review priorities (in order):" +:+
  ln "1) Correctness / logic errors" +:+
  ln "2) Security / auth / secrets" +:+
  ln "3) Error handling & observability (logs/metrics)" +:+
  ln "4) Data correctness (schemas/migrations/serialization)" +:+
  ln "5) Performance / concurrency / idempotency" +:+
  ln "6) Tests (missing/weak tests)" +:+ nl.

Definition buildScopePrompt (target : ReviewTarget) : string :=
  match target with
  | worktree =>
      scopeCommon +:+
      ln "Review my local working tree changes (staged + unstaged + untracked)." +:+ nl +:+
      ln "Process:" +:+
      ln "1) Establish scope:" +:+
      ln "   - git status --porcelain=v1" +:+
      ln "   - git diff --name-only" +:+
      ln "   - git diff --cached --name-only" +:+
      ln "   - git ls-files --others --exclude-standard" +:+
      ln "2) For each changed file, inspect patches:" +:+
      ln "   - git diff --patch -- <path>" +:+
      ln "   - git diff --cached --patch -- <path>" +:+
      ln "3) For untracked files, open and read content directly."
  | staged =>
      scopeCommon +:+
      ln "Review my staged changes only." +:+ nl +:+
      ln "Process:" +:+
      ln "1) Establish scope:" +:+
      ln "   - git status --porcelain=v1" +:+
      ln "   - git diff --cached --name-only" +:+
      ln "2) Inspect each staged file:" +:+
      ln "   - git diff --cached --patch -- <path>"
  | pr prNumber =>
      let n := numberToString prNumber in
      scopeCommon +:+
      ln ("Review GitHub PR #" +:+ n +:+ " in this repo.") +:+ nl +:+
      ln "Process (use gh CLI):" +:+
      ln ("1) gh pr view " +:+ n +:+
          " --json title,body,author,baseRefName,headRefName") +:+
      ln ("2) gh pr diff " +:+ n) +:+
      ln "If gh is unavailable or errors, say exactly what to run / paste instead."
  | recent baseSha =>
      scopeCommon +:+
      ln ("Review the commits from base commit " +:+ baseSha +:+
          " (inclusive) to HEAD.") +:+ nl +:+
      ln "Process:" +:+
      ln "1) Inspect the base commit itself:" +:+
      ln ("   - git show " +:+ baseSha) +:+
      ln "2) Try to review the full range (inclusive):" +:+
      ln ("   - git log --oneline --decorate " +:+ baseSha +:+ "^..HEAD") +:+
      ln ("   - git diff " +:+ baseSha +:+ "^..HEAD") +:+
      ln ("   If `" +:+ baseSha +:+ "^` fails (root commit), do:") +:+
      ln ("   - git log --oneline --decorate " +:+ baseSha +:+ "..HEAD") +:+
      ln ("   - git diff " +:+ baseSha +:+ "..HEAD")
  end.

(* ===================================================================== *)
(** * Conversation messages *)
(* ===================================================================== *)

(** One element of a message's [content] array. [partText] is the [text]
    field when it is a string; [PNull] is a [null] or [undefined] entry,
    which [p?.type] tolerates. *)
Inductive Part : Type :=
| PNull
| PObj (partType : string) (partText : option string).

(** The [content] of a message: an array of parts, or anything else (a
    plain string, say), for which [Array.isArray] is false. *)
Inductive Content : Type :=
| ContentParts (parts : list Part)
| ContentOther (raw : string).

Record Message : Type := mkMessage {
  role : string;
  content : Content;
  timestamp : Z
}.

Definition isTextPart (p : Part) : bool :=
  match p with
  | PObj t (Some _) => String.eqb t "text"
  | _ => false
  end.

Definition partTextOf (p : Part) : string :=
  match p with
  | PObj _ (Some t) => t
  | _ => ""
  end.

Definition getLastAssistantText (messages : list Message) : string :=
  let assistantMessages :=
    List.filter (fun m => String.eqb (role m) "assistant") messages in
  match last assistantMessages with
  | None => ""
  | Some lastMsg =>
      let parts :=
        match content lastMsg with
        | ContentParts ps => ps
        | ContentOther _ => []
        end in
      trim (join nl (map partTextOf (List.filter isTextPart parts)))
  end.

(* ===================================================================== *)
(** * The review suite *)
(* ===================================================================== *)

(** One entry of [suiteReports]. *)
Record Report : Type := mkReport {
  stageId : string;
  stageLabel : string;
  text : string
}.

(** The closure variables of the default export. *)
Record Suite : Type := mkSuite {
  suiteActive : bool;
  suiteTarget : option ReviewTarget;
  suiteStageIndex : Z;
  suiteReports : list Report;
  suiteFreshContext : bool;
  suiteBoundaryCount : Z;
  boundaryNeedsCapture : bool
}.

(** Their values when the extension is loaded. *)
Definition initialSuite : Suite :=
  {| suiteActive := false;
     suiteTarget := None;
     suiteStageIndex := 0;
     suiteReports := [];
     suiteFreshContext := true;
     suiteBoundaryCount := -1;
     boundaryNeedsCapture := false |}.

(** ** Host calls *)

Inductive Level : Type := Info | Warning | Error.

(** A call into the host: [ctx.ui.setStatus(key, value)] with [None] for
    [undefined], [ctx.ui.notify(message, level)] and
    [pi.sendUserMessage(prompt)]. *)
Inductive Effect : Type :=
| SetStatus (key : string) (value : option string)
| Notify (message : string) (level : Level)
| SendUserMessage (prompt : string).

(** The status surface of the host after a run of calls: one text per
    key, removed when the value is [undefined]. *)
Definition applyStatus (surface : gmap string string) (e : Effect)
    : gmap string string :=
  match e with
  | SetStatus key (Some value) => <[key := value]> surface
  | SetStatus key None => delete key surface
  | _ => surface
  end.

Definition statusAfter (surface : gmap string string) (trace : list Effect)
    : gmap string string :=
  fold_left applyStatus trace surface.

(** ** The handler monad: the suite variables are threaded through, the
    host calls are appended to a trace. *)
Module Handler.

Definition M (A : Type) : Type := Suite -> A * Suite * list Effect.

Definition ret {A} (a : A) : M A := fun s => (a, s, []).

Definition bind {A B} (m : M A) (f : A -> M B) : M B :=
  fun s =>
    let '(a, s1, t1) := m s in
    let '(b, s2, t2) := f a s1 in
    (b, s2, t1 ++ t2).

Definition get : M Suite := fun s => (s, s, []).
Definition modify (f : Suite -> Suite) : M unit := fun s => (tt, f s, []).
Definition emit (e : Effect) : M unit := fun s => (tt, s, [e]).

(** The suite variables and the calls left by a handler. *)
Definition stateOf {A} (r : A * Suite * list Effect) : Suite := snd (fst r).
Definition traceOf {A} (r : A * Suite * list Effect) : list Effect := snd r.
Definition valueOf {A} (r : A * Suite * list Effect) : A := fst (fst r).

End Handler.

Import Handler.

(** The monad operations under stdpp's notations [x ← m; k] and
    [m ;; k]. *)
#[global] Instance handler_ret : MRet M := @ret.
#[global] Instance handler_bind : MBind M := fun A B f m => bind m f.

(** Assignments to the suite variables. *)
Definition set_suiteActive (v : bool) (s : Suite) : Suite :=
  mkSuite v (suiteTarget s) (suiteStageIndex s) (suiteReports s)
    (suiteFreshContext s) (suiteBoundaryCount s) (boundaryNeedsCapture s).
Definition set_suiteTarget (v : option ReviewTarget) (s : Suite) : Suite :=
  mkSuite (suiteActive s) v (suiteStageIndex s) (suiteReports s)
    (suiteFreshContext s) (suiteBoundaryCount s) (boundaryNeedsCapture s).
Definition set_suiteStageIndex (v : Z) (s : Suite) : Suite :=
  mkSuite (suiteActive s) (suiteTarget s) v (suiteReports s)
    (suiteFreshContext s) (suiteBoundaryCount s) (boundaryNeedsCapture s).
Definition set_suiteReports (v : list Report) (s : Suite) : Suite :=
  mkSuite (suiteActive s) (suiteTarget s) (suiteStageIndex s) v
    (suiteFreshContext s) (suiteBoundaryCount s) (boundaryNeedsCapture s).
Definition set_suiteFreshContext (v : bool) (s : Suite) : Suite :=
  mkSuite (suiteActive s) (suiteTarget s) (suiteStageIndex s) (suiteReports s)
    v (suiteBoundaryCount s) (boundaryNeedsCapture s).
Definition set_suiteBoundaryCount (v : Z) (s : Suite) : Suite :=
  mkSuite (suiteActive s) (suiteTarget s) (suiteStageIndex s) (suiteReports s)
    (suiteFreshContext s) v (boundaryNeedsCapture s).
Definition set_boundaryNeedsCapture (v : bool) (s : Suite) : Suite :=
  mkSuite (suiteActive s) (suiteTarget s) (suiteStageIndex s) (suiteReports s)
    (suiteFreshContext s) (suiteBoundaryCount s) v.

Definition notify (message : string) (level : Level) : M unit :=
  emit (Notify message level).
Definition setStatus (key : string) (value : option string) : M unit :=
  emit (SetStatus key value).
Definition sendUserMessage (prompt : string) : M unit :=
  emit (SendUserMessage prompt).

(** [array[i] ?? null] for a numeric index. *)
Definition at_index {A} (l : list A) (i : Z) : option A :=
  if i <? 0 then None else l !! Z.to_nat i.

(** [array.slice(from)] and [array.slice(from, to)]: a negative bound
    counts from the end. *)
Definition relativeIndex (len i : Z) : Z :=
  if i <? 0 then Z.max (len + i) 0 else Z.min i len.

Definition slice {A} (l : list A) (from : Z) (to : option Z) : list A :=
  let len := Z.of_nat (length l) in
  let k := relativeIndex len from in
  let final := relativeIndex len (default len to) in
  List.firstn (Z.to_nat (final - k)) (List.skipn (Z.to_nat k) l).

Definition currentStageOf (s : Suite) : option ReviewSuiteStage :=
  at_index DEFAULT_SUITE_STAGES (suiteStageIndex s).

Definition currentStage : M (option ReviewSuiteStage) :=
  s ← get; ret (currentStageOf s).

Definition updateSuiteStatus : M unit :=
  s ← get;
  if negb (suiteActive s) then setStatus "pi-review" None
  else
    stage ← currentStage;
    let label := match stage with Some st => label st | None => "?" end in
    let progress :=
      numberToString (suiteStageIndex s + 1) +:+ "/" +:+
      numberToString (Z.of_nat (length DEFAULT_SUITE_STAGES)) in
    let fresh := if suiteFreshContext s then " | fresh" else "" in
    setStatus "pi-review"
      (Some ("Review suite: " +:+ label +:+ " (" +:+ progress +:+ ")" +:+ fresh)).

Definition endSuite (reason : string) : M unit :=
  modify (set_suiteActive false) ;;
  modify (set_suiteTarget None) ;;
  modify (set_suiteStageIndex 0) ;;
  modify (set_suiteReports []) ;;
  modify (set_suiteBoundaryCount (-1)) ;;
  modify (set_boundaryNeedsCapture false) ;;
  updateSuiteStatus ;;
  notify ("Review suite ended: " +:+ reason) Info.

(** The text put in place of [{{REPORTS}}]: one block for each report,
    the blocks joined by a line feed. *)
Definition reportBlock (r : Report) : string :=
  "## " +:+ stageLabel r +:+ nl +:+ nl +:+
  "```" +:+ nl +:+
  trim (text r) +:+
  nl +:+ "```" +:+ nl.

Definition reportsTextOf (reports : list Report) : string :=
  join nl (map reportBlock reports).

Definition buildStagePrompt (fs : FileSystem) (target : ReviewTarget)
    (stage : ReviewSuiteStage) : M string :=
  match kind stage with
  | synthesize =>
      s ← get;
      let reportsText := reportsTextOf (suiteReports s) in
      let tmpl := loadPromptText fs (promptName stage) in
      ret (renderVars tmpl [("REPORTS", reportsText)])
  | review =>
      let scope := trim (buildScopePrompt target) in
      let tmpl := loadPromptText fs (promptName stage) in
      ret (renderVars tmpl [("SCOPE", scope)])
  end.

Definition sendCurrentStagePrompt (fs : FileSystem) : M unit :=
  s ← get;
  match suiteTarget s with
  | None => endSuite "internal error: missing target"
  | Some target =>
      stage ← currentStage;
      match stage with
      | None => endSuite "done"
      | Some stage =>
          prompt ← buildStagePrompt fs target stage;
          if isEmpty (trim prompt) then
            endSuite ("missing prompt template: " +:+ promptName stage)
          else
            updateSuiteStatus ;;
            sendUserMessage prompt
      end
  end.

(** ** The [context] handler *)

Definition isUserMessage (m : option Message) : bool :=
  match m with
  | Some msg => String.eqb (role msg) "user"
  | None => false
  end.

(** The loop [for (let i = n - 1; i >= 0; i--)] that stops at the first
    [i] whose message has role [user]: the index it stops at, if any. *)
Fixpoint scanLastUser (messages : list Message) (n : nat) : option nat :=
  match n with
  | O => None
  | S i =>
      if isUserMessage (messages !! i) then Some i
      else scanLastUser messages i
  end.

(** The notice pushed between the two slices. *)
Definition freshEyesNotice (stage : ReviewSuiteStage) (now : Z) : Message :=
  {| role := "user";
     content :=
       ContentParts
         [PObj "text"
            (Some ("[Review suite stage " +:+ label stage +:+
                   ". Prior stage outputs are intentionally hidden. " +:+
                   "Review with fresh eyes.]"))];
     timestamp := now |}.

(** [eventMessages] is [event.messages] when it is an array and [None]
    otherwise; [now] is [Date.now()]. The result is the returned
    [{ messages }], or [None] when the handler returns nothing and the
    host keeps the messages as they are. *)
Definition onContext (now : Z) (eventMessages : option (list Message))
    : M (option (list Message)) :=
  s ← get;
  if negb (suiteActive s) || negb (suiteFreshContext s) then ret None
  else
    stage ← currentStage;
    match stage with
    | None => ret None
    | Some stage =>
        match kind stage with
        | synthesize => ret None
        | review =>
            if suiteStageIndex s =? 0 then ret None
            else
              match eventMessages with
              | None => ret None
              | Some [] => ret None
              | Some messages =>
                  (if boundaryNeedsCapture s then
                     match scanLastUser messages (length messages) with
                     | Some i => modify (set_suiteBoundaryCount (Z.of_nat i))
                     | None => ret tt
                     end ;;
                     modify (set_boundaryNeedsCapture false)
                   else ret tt) ;;
                  s' ← get;
                  if suiteBoundaryCount s' <? 0 then ret None
                  else
                    let lastUserIdx :=
                      match scanLastUser messages (length messages) with
                      | Some i => Z.of_nat i
                      | None => -1
                      end in
                    if lastUserIdx <? 0 then ret None
                    else if suiteBoundaryCount s' >=? lastUserIdx then ret None
                    else
                      let preSuite :=
                        slice messages 0 (Some (suiteBoundaryCount s')) in
                      let currentIterationMsgs :=
                        slice messages lastUserIdx None in
                      ret (Some (preSuite ++ [freshEyesNotice stage now]
                                   ++ currentIterationMsgs))
              end
        end
    end.

(** ** The [agent_end] handler: [eventMessages] is [event.messages], with
    [None] for a missing field, which [|| []] replaces by no messages. *)
Definition onAgentEnd (fs : FileSystem) (eventMessages : option (list Message))
    : M unit :=
  s ← get;
  if negb (suiteActive s) then ret tt
  else
    stage ← currentStage;
    match stage with
    | None => endSuite "done"
    | Some stage =>
        let text := getLastAssistantText (default [] eventMessages) in
        if isEmpty text then endSuite "aborted (no assistant output) "
        else
          match kind stage with
          | review =>
              let cleaned := trim (replaceAll STAGE_DONE_MARKER "" text) in
              modify (fun s =>
                set_suiteReports
                  (suiteReports s ++ [mkReport (id stage) (label stage) cleaned])
                  s)
          | synthesize => ret tt
          end ;;
          modify (fun s => set_suiteStageIndex (suiteStageIndex s + 1) s) ;;
          s' ← get;
          if suiteStageIndex s' >=? Z.of_nat (length DEFAULT_SUITE_STAGES)
          then endSuite "complete"
          else sendCurrentStagePrompt fs
    end.

(** ** The [input] handler *)

Inductive InputAction : Type := Continue.

Definition onInput (hasUI : bool) (source : string) : M InputAction :=
  if negb hasUI then ret Continue
  else
    s ← get;
    if suiteActive s && String.eqb source "interactive" then
      endSuite "user interrupted" ;;
      ret Continue
    else ret Continue.

(** ** The [/review] command

    The handler awaits three things before it looks at the suite
    variables: [ctx.isIdle()], the exit code of [git rev-parse] in
    [ensureGitRepo], and the target that [resolveTarget] brings back from
    the arguments or the picker ([None] when the user cancels). They are
    inputs here. *)
Record CommandHost : Type := mkCommandHost {
  isIdle : bool;
  gitExitCode : Z;
  resolvedTarget : option ReviewTarget
}.

Definition ensureGitRepo (exitCode : Z) (commandName : string) : M bool :=
  if negb (exitCode =? 0) then
    notify ("/" +:+ commandName +:+ ": not inside a git repository") Error ;;
    ret false
  else ret true.

Definition reviewCommand (fs : FileSystem) (host : CommandHost) : M unit :=
  if negb (isIdle host) then
    notify "Agent is busy; try again when idle" Warning
  else
    inRepo ← ensureGitRepo (gitExitCode host) "review";
    if negb inRepo then ret tt
    else
      match resolvedTarget host with
      | None => ret tt
      | Some target =>
          s ← get;
          if suiteActive s then
            notify
              "A review suite is already running. Type anything to interrupt it."
              Warning
          else
            modify (set_suiteActive true) ;;
            modify (set_suiteTarget (Some target)) ;;
            modify (set_suiteStageIndex 0) ;;
            modify (set_suiteReports []) ;;
            modify (set_suiteFreshContext true) ;;
            modify (set_suiteBoundaryCount (-1)) ;;
            modify (set_boundaryNeedsCapture true) ;;
            notify "Review started" Info ;;
            sendCurrentStagePrompt fs
      end.

(** ** The event loop: the host delivers one event at a time and every
    handler runs to its end before the next one starts. *)
Inductive Event : Type :=
| EvContext (now : Z) (messages : option (list Message))
| EvAgentEnd (fs : FileSystem) (messages : option (list Message))
| EvInput (hasUI : bool) (source : string)
| EvReview (fs : FileSystem) (host : CommandHost).

Definition step (e : Event) (s : Suite) : Suite * list Effect :=
  match e with
  | EvContext now messages =>
      let r := onContext now messages s in (stateOf r, traceOf r)
  | EvAgentEnd fs messages =>
      let r := onAgentEnd fs messages s in (stateOf r, traceOf r)
  | EvInput hasUI source =>
      let r := onInput hasUI source s in (stateOf r, traceOf r)
  | EvReview fs host =>
      let r := reviewCommand fs host s in (stateOf r, traceOf r)
  end.

(** The suite after a list of events, with all the host calls made. *)
Fixpoint run (events : list Event) (s : Suite) : Suite * list Effect :=
  match events with
  | [] => (s, [])
  | e :: rest =>
      let '(s1, t1) := step e s in
      let '(s2, t2) := run rest s1 in
      (s2, t1 ++ t2)
  end.

(** The values the suite variables can take while the extension runs. *)
Inductive reachable : Suite -> Prop :=
| reachable_initial : reachable initialSuite
| reachable_step (e : Event) (s : Suite) :
    reachable s -> reachable (fst (step e s)).

(* ===================================================================== *)
(** * The packaged prompt files *)
(* ===================================================================== *)

(** The files of the package's [prompts/] directory, line by line. *)
Definition dq : string := String (ascii_of_nat 34) "".

Definition fileOfLines (lines : list string) : string :=
  String.concat "" (map ln lines).

(** [prompts/review-overall.md] *)
Definition packagedOverall : string :=
  fileOfLines
    [ "---";
      "description: Overall high-signal code review (review-only)";
      "---";
      "{{SCOPE}}";
      "";
      "Hard rules:";
      "- Review only. Do NOT edit files.";
      "- If you spot an issue, propose a fix in prose or small patch snippets, but don't apply it.";
      "";
      "Focus:";
      "- Correctness, edge cases, invariants";
      "- Error handling, observability";
      "- Performance/concurrency risks";
      "- Tests that de-risk regressions";
      "";
      "Output a single Markdown review with sections:";
      "### Summary";
      "### Risk assessment (Low/Medium/High + why)";
      "### Blockers (must-fix)";
      "### Major issues (should-fix)";
      "### Minor issues (optional)";
      "### Tests (what's missing + targeted suggestions)";
      "### Suggested next commands";
      "";
      "End your response with:";
      "[[PI_REVIEW_STAGE_DONE]]" ].

(** [prompts/review-linus.md] *)
Definition packagedLinus : string :=
  fileOfLines
    [ "---";
      "description: Linus-style blunt kernel-maintainer review (review-only)";
      "---";
      "{{SCOPE}}";
      "";
      "Adopt a Linus Torvalds / kernel maintainer lens:";
      "- Be blunt and ruthlessly high-signal.";
      "- Demand simplicity and minimal diff. Reject cleverness, unnecessary abstractions, and magic.";
      "- Be strict about naming, invariants, APIs, and failure modes.";
      ("- Ask " +:+ dq +:+ "what breaks?" +:+ dq +:+ " for every change.");
      "- Cite exact files/functions and propose concrete fixes.";
      "";
      "Hard rules:";
      "- Review only. Do NOT edit files.";
      "";
      "Output sections:";
      "### Summary";
      "### Risk assessment (Low/Medium/High + why)";
      "### Blockers (must-fix)";
      "### Major issues (should-fix)";
      "### Minor issues (optional)";
      "### Tests (what's missing + targeted suggestions)";
      "### Suggested next commands";
      "";
      "End your response with:";
      "[[PI_REVIEW_STAGE_DONE]]" ].

(** [prompts/review-staff.md] *)
Definition packagedStaff : string :=
  fileOfLines
    [ "---";
      "description: Staff engineer (FAANG) risk-focused review (review-only)";
      "---";
      "{{SCOPE}}";
      "";
      "Adopt a Staff Engineer lens (FAANG-style):";
      "- Focus on operational risk, rollouts, backwards compatibility, and long-term maintainability.";
      "- Demand observability (logs/metrics/traces), clear failure modes, and safe defaults.";
      "- Call out concurrency/idempotency pitfalls.";
      "- Require tests that de-risk edge cases.";
      "";
      "Hard rules:";
      "- Review only. Do NOT edit files.";
      "";
      "Output sections:";
      "### Summary";
      "### Risk assessment (Low/Medium/High + why)";
      "### Blockers (must-fix)";
      "### Major issues (should-fix)";
      "### Minor issues (optional)";
      "### Tests (what's missing + targeted suggestions)";
      "### Suggested next commands";
      "";
      "End your response with:";
      "[[PI_REVIEW_STAGE_DONE]]" ].

(** [prompts/review-synthesize.md] *)
Definition packagedSynthesize : string :=
  fileOfLines
    [ "---";
      "description: Synthesize multiple review passes into a final report";
      "---";
      "You are synthesizing multiple independent review passes into ONE final, high-signal review.";
      "";
      "Rules:";
      "- Deduplicate aggressively.";
      "- If reviewers disagree, call it out and pick a recommendation.";
      "- Prioritize by severity and likelihood.";
      "- Be concrete: reference files/functions when present.";
      "";
      "Inputs:";
      "{{REPORTS}}";
      "";
      "Output a single Markdown review with sections:";
      "### Final summary";
      "### Risk assessment (Low/Medium/High + why)";
      "### Top issues (ranked)";
      "### Detailed findings";
      "### Tests";
      "### Suggested next commands" ].

(* ===================================================================== *)
(** * Vocabulary of the properties *)
(* ===================================================================== *)

(** ** What a handler leaves behind *)

(** The suite variables after [endSuite]: all of them are assigned but
    [suiteFreshContext]. *)
Definition endedSuite (s : Suite) : Suite :=
  mkSuite false None 0 [] (suiteFreshContext s) (-1) false.

(** The host calls of [endSuite]. *)
Definition endTrace (reason : string) : list Effect :=
  [ SetStatus "pi-review" None;
    Notify ("Review suite ended: " +:+ reason) Info ].

(** The prompt [buildStagePrompt] compiles and the call
    [updateSuiteStatus] makes, as functions of the suite variables. *)
Definition stagePromptOf (fs : FileSystem) (s : Suite)
    (target : ReviewTarget) (stage : ReviewSuiteStage) : string :=
  valueOf (buildStagePrompt fs target stage s).

Definition statusCallOf (s : Suite) : list Effect :=
  traceOf (updateSuiteStatus s).

(** The prompt of a stage as a function of what it is compiled from. *)
Definition compiledPrompt (fs : FileSystem) (reports : list Report)
    (target : ReviewTarget) (stage : ReviewSuiteStage) : string :=
  match kind stage with
  | synthesize =>
      renderVars (loadPromptText fs (promptName stage))
        [("REPORTS", reportsTextOf reports)]
  | review =>
      renderVars (loadPromptText fs (promptName stage))
        [("SCOPE", trim (buildScopePrompt target))]
  end.

(** The prompt messages among the host calls. *)
Definition sentPrompts (trace : list Effect) : list string :=
  omap (fun e => match e with SendUserMessage p => Some p | _ => None end)
    trace.

(** The suite a start leaves before the first prompt is compiled. *)
Definition armedSuite (target : ReviewTarget) : Suite :=
  mkSuite true (Some target) 0 [] true (-1) true.

(** The report stored for [stage] when the turn's text is [txt]. *)
Definition reportOf (stage : ReviewSuiteStage) (txt : string) : Report :=
  mkReport (id stage) (label stage)
    (trim (replaceAll STAGE_DONE_MARKER "" txt)).

(** The suite with the report of a finished stage stored and the index
    moved on. *)
Definition advanced (s : Suite) (stage : ReviewSuiteStage) (txt : string)
    : Suite :=
  set_suiteStageIndex (suiteStageIndex s + 1)
    match kind stage with
    | review =>
        set_suiteReports
          (suiteReports s ++
             [mkReport (id stage) (label stage)
                (trim (replaceAll STAGE_DONE_MARKER "" txt))]) s
    | synthesize => s
    end.

(** A run comes to its end in the handler of [e]: it was active before,
    or the handler started it, and it is not active afterwards. *)
Definition endsDuring (e : Event) (s : Suite) : Prop :=
  (suiteActive s = true \/ In (Notify "Review started" Info) (snd (step e s)))
  /\ suiteActive (fst (step e s)) = false.

(** ** Completed turns *)

(** A text made of white space only; the empty text is one. *)
Definition isBlank (s : string) : bool :=
  forallb isWhiteSpace (list_ascii_of_string s).

(** The last message of role [assistant] and the text of a message's text
    parts before trimming, the two halves of [getLastAssistantText]. *)
Definition lastAssistant (messages : list Message) : option Message :=
  last (List.filter (fun m => String.eqb (role m) "assistant") messages).

Definition rawTextOf (m : Message) : string :=
  join nl
    (map partTextOf
       (List.filter isTextPart
          match content m with
          | ContentParts ps => ps
          | ContentOther _ => []
          end)).

(** ** Removing a marker, said by positions

    The reading of "the text with every occurrence of the marker
    removed" that does not mention a scan: a code unit of the text stays
    exactly when it lies inside no occurrence of the marker. *)
Definition occursAt (search s : string) (i : nat) : bool :=
  startsWith search (strDrop i s).

Definition insideOccurrence (search s : string) (k : nat) : bool :=
  existsb
    (fun i => occursAt search s i && (k <? i + String.length search)%nat)
    (seq 0 (S k)).

Definition keepOutside (search s : string) (from : nat) (l : list ascii)
    : list ascii :=
  map snd
    (List.filter (fun p => negb (insideOccurrence search s (fst p)))
       (combine (seq from (length l)) l)).

Definition withoutOccurrences (search s : string) : string :=
  string_of_list_ascii (keepOutside search s 0 (list_ascii_of_string s)).

(** No proper suffix of [m] starts [m] again, so two occurrences of [m]
    never overlap. *)
Definition unbordered (m : string) : bool :=
  forallb (fun d => negb (startsWith (strDrop d m) m))
    (seq 1 (String.length m - 1)).

(** ** Replacement texts *)

(** The code units that [getSubstitution] looks at: the dollar sign, and
    what may follow it in a pattern. *)
Definition isDollar (c : ascii) : bool := Ascii.eqb c "$".

Definition startsPattern (c : ascii) : bool :=
  Ascii.eqb c "$" || Ascii.eqb c "&" || Ascii.eqb c "`" || Ascii.eqb c "'".

(** A text without dollar sign, and a text whose first code unit
    completes no pattern. *)
Definition noDollar (s : string) : bool :=
  forallb (fun c => negb (isDollar c)) (list_ascii_of_string s).

Definition plainStart (s : string) : bool :=
  match s with
  | "" => true
  | String c _ => negb (startsPattern c)
  end.

(** [needle] occurs in [s]. *)
Definition occursIn (needle s : string) : Prop :=
  exists pre post, s = pre +:+ needle +:+ post.

(** ** The shape of the suite between two handlers *)

Definition reportHeading (r : Report) : string * string :=
  (stageId r, stageLabel r).

Definition stageHeading (st : ReviewSuiteStage) : string * string :=
  (id st, label st).

Definition reviewStages : list ReviewSuiteStage :=
  List.filter (fun st => match kind st with review => true | _ => false end)
    DEFAULT_SUITE_STAGES.

Record SuiteInv (s : Suite) : Prop := mkSuiteInv {
  inv_fresh : suiteFreshContext s = true;
  inv_idle : suiteActive s = false -> s = initialSuite;
  inv_target : suiteActive s = true -> is_Some (suiteTarget s);
  inv_index : 0 <= suiteStageIndex s <= 3;
  inv_reports :
    map reportHeading (suiteReports s) =
    map stageHeading (take (Z.to_nat (suiteStageIndex s)) reviewStages)
}.

(** An active run on [target] at stage [k] holding [reports]. *)
Definition atStage (target : ReviewTarget) (k : Z) (reports : list Report)
    (s : Suite) : Prop :=
  suiteActive s = true /\
  suiteTarget s = Some target /\
  suiteStageIndex s = k /\
  suiteReports s = reports /\
  suiteFreshContext s = true.

Definition isContextEvent (e : Event) : bool :=
  match e with
  | EvContext _ _ => true
  | _ => false
  end.

(* ===================================================================== *)
(** * Sample deployments, conversations and runs *)
(* ===================================================================== *)

(** A deployment with the packaged prompts and no user override. *)
Definition packagedFs : FileSystem :=
  {| homedir := "/home/dev";
     dirname := "/opt/pi-review";
     files :=
       list_to_map
         [ ("/opt/pi-review/prompts/review-overall.md", packagedOverall);
           ("/opt/pi-review/prompts/review-linus.md", packagedLinus);
           ("/opt/pi-review/prompts/review-staff.md", packagedStaff);
           ("/opt/pi-review/prompts/review-synthesize.md", packagedSynthesize) ] |}.

(** A deployment that lost its [review-linus] template. *)
Definition noLinusFs : FileSystem :=
  {| homedir := "/home/dev";
     dirname := "/opt/pi-review";
     files :=
       list_to_map
         [ ("/opt/pi-review/prompts/review-overall.md", packagedOverall);
           ("/opt/pi-review/prompts/review-staff.md", packagedStaff);
           ("/opt/pi-review/prompts/review-synthesize.md", packagedSynthesize) ] |}.

(** A user who replaced the synthesis template by one without the
    placeholder. *)
Definition overrideFs : FileSystem :=
  {| homedir := "/home/dev";
     dirname := "/opt/pi-review";
     files :=
       <["/home/dev/.pi/agent/prompts/review-synthesize.md" :=
           "Merge the three reviews above into one."]> (files packagedFs) |}.

Definition userTurn (t : string) (stamp : Z) : Message :=
  mkMessage "user" (ContentParts [PObj "text" (Some t)]) stamp.

Definition assistantTurn (t : string) (stamp : Z) : Message :=
  mkMessage "assistant" (ContentParts [PObj "text" (Some t)]) stamp.

(** [/review staged] typed into an idle session inside a repository. *)
Definition stagedHost : CommandHost :=
  {| isIdle := true; gitExitCode := 0; resolvedTarget := Some staged |}.

(** The suite right after that command on the packaged deployment. *)
Definition startedSuite : Suite :=
  fst (step (EvReview packagedFs stagedHost) initialSuite).

(** Three completed turns after a start, each with some text. *)
Definition threeTurns (fs : FileSystem) : list Event :=
  [ EvReview fs stagedHost;
    EvAgentEnd fs (Some [assistantTurn "The diff is fine." 11]);
    EvAgentEnd fs (Some [assistantTurn "Too clever by half." 12]);
    EvAgentEnd fs (Some [assistantTurn "Add a rollout plan." 13]) ].

(** ** The conversation of the redaction example

    [U0], [A0] come before the suite; [U1], [U2], [U3] are the prompts of
    the stages 0, 1 and 2 and [A1], [A2] the answers to the first two.
    Only the roles matter to the filter, so the texts are kept short. *)
Definition U0 : Message := userTurn "What changed in this branch?" 100.
Definition A0 : Message := assistantTurn "Two files changed." 101.
Definition U1 : Message := userTurn "(prompt of stage 0)" 102.
Definition A1 : Message := assistantTurn "Overall: looks fine." 103.
Definition U2 : Message := userTurn "(prompt of stage 1)" 104.
Definition A2 : Message := assistantTurn "Linus: too clever." 105.
Definition U3 : Message := userTurn "(prompt of stage 2)" 106.

(** The run up to the stage-2 prompt: the command, the turn of stage 0
    (its context event, then its end), the turn of stage 1. *)
Definition redactionRun : list Event :=
  [ EvReview packagedFs stagedHost;
    EvContext 1000 (Some [U0; A0; U1]);
    EvAgentEnd packagedFs (Some [U0; A0; U1; A1]);
    EvContext 2000 (Some [U0; A0; U1; A1; U2]);
    EvAgentEnd packagedFs (Some [U0; A0; U1; A1; U2; A2]) ].

Definition staffStage : ReviewSuiteStage :=
  mkStage review "staff" "review-staff" "Staff".

(* ===================================================================== *)
(** * The arguments of the command *)
(* ===================================================================== *)

(** [clampInt]: [Math.max] and [Math.min] on integers. *)
Definition clampInt (value min max : Z) : Z :=
  Z.max min (Z.min max value).

(** [type ParsedTarget]: a review target, or the request to pick a base
    commit among the last [limit] ones. *)
Inductive ParsedTarget : Type :=
| Parsed (target : ReviewTarget)
| recentPicker (limit : Z).

(** ** The pieces of the regular expressions *)
Module Regex.

(** [\d] and [\w]; [\s] is [isWhiteSpace]. *)
Definition isDigit (c : ascii) : bool :=
let n := nat_of_ascii c in ((48 <=? n) && (n <=? 57))%nat.

Definition isWordChar (c : ascii) : bool :=
let n := nat_of_ascii c in
((48 <=? n) && (n <=? 57) || (65 <=? n) && (n <=? 90) ||
 (97 <=? n) && (n <=? 122) || (n =? 95))%nat.

(** The canonical form of a code unit under the flag [i], as far as a
  comparison with an ASCII letter can tell: the letters [a] to [z]
  become [A] to [Z]. *)
Definition canonicalize (c : ascii) : ascii :=
let n := nat_of_ascii c in
if ((97 <=? n) && (n <=? 122))%nat then ascii_of_nat (n - 32) else c.

Fixpoint canonical (s : string) : string :=
match s with
| "" => ""
| String c r => String (canonicalize c) (canonical r)
end.

(** [/^word$/i] and [/^word/i] for a literal [word]. *)
Definition isWord (word s : string) : bool :=
String.eqb (canonical word) (canonical s).

Definition startsWithWord (word s : string) : bool :=
startsWith (canonical word) (canonical s).

(** A greedy run of code units of one class: the run and what follows
  it. *)
Fixpoint span (f : ascii -> bool) (s : string) : string * string :=
match s with
| "" => ("", "")
| String c r =>
    if f c then let '(run, rest) := span f r in (String c run, rest)
    else ("", s)
end.

(** [\b] after a word character: the text that follows does not go on
  with one. *)
Definition atWordEnd (rest : string) : bool :=
match rest with
| "" => true
| String c _ => negb (isWordChar c)
end.

End Regex.

Import Regex.

(** [Number(digits)] for a run of decimal digits. The value is exact up
    to [2^53]; beyond it JavaScript rounds to the nearest double. *)
Definition digitValue (c : ascii) : Z := Z.of_nat (nat_of_ascii c) - 48.

Definition numberOfDigits (digits : string) : Z :=
  fold_left (fun acc c => 10 * acc + digitValue c)
    (list_ascii_of_string digits) 0.

Definition MAX_SAFE_INTEGER : Z := 2 ^ 53 - 1.

(** A text of decimal digits only. *)
Definition allDigits (s : string) : bool :=
  forallb isDigit (list_ascii_of_string s).

(** [args.match(/^recent(?:\s+(\d+))?$/i)]: [None] when the text does
    not match, else the capture, which is [None] when the optional group
    took no part. The classes [\s] and [\d] share no code unit, so the
    greedy runs are the only way to match. *)
Definition matchRecent (args : string) : option (option string) :=
  if startsWithWord "recent" args then
    let rest := strDrop 6 args in
    if isEmpty rest then Some None
    else
      let '(spaces, rest1) := span isWhiteSpace rest in
      let '(digits, rest2) := span isDigit rest1 in
      if negb (isEmpty spaces) && negb (isEmpty digits) && isEmpty rest2
      then Some (Some digits)
      else None
  else None.

(** [args.match(/^(?:#)?(\d+)$/)]: the capture, if the text matches. *)
Definition matchPr (args : string) : option string :=
  let body :=
    match args with
    | String c r => if Ascii.eqb c "#" then r else args
    | "" => args
    end in
  let '(digits, rest) := span isDigit body in
  if negb (isEmpty digits) && isEmpty rest then Some digits else None.

Definition parseArgs (argsRaw : string) : option ParsedTarget :=
  let args := trim argsRaw in
  if isEmpty args then None
  else if isWord "staged" args || isWord "stage" args then
    Some (Parsed staged)
  else if isWord "worktree" args || isWord "wt" args
          || isWord "working-tree" args then
    Some (Parsed worktree)
  else
    match matchRecent args with
    | Some capture =>
        let n :=
          match capture with
          | Some digits => numberOfDigits digits
          | None => 50
          end in
        Some (recentPicker (clampInt n 10 200))
    | None =>
        match matchPr args with
        | Some digits => Some (Parsed (pr (numberOfDigits digits)))
        | None => None
        end
    end.

(** [String(args || "").trim().replace(/^(suite|multi)\b\s*/i, "")], the
    first thing the command does with its arguments. *)
Definition cleanArgs (args : string) : string :=
  let s := trim args in
  if startsWithWord "suite" s || startsWithWord "multi" s then
    let rest := strDrop 5 s in
    if atWordEnd rest then trimStart rest else s
  else s.

(** [resolveTarget]. What the user does with the pickers is an input:
    [pickBaseCommit limit] is the commit chosen among the last [limit]
    ones, [None] when the user leaves the picker; [menu] is the outcome
    of the loop that asks what to review, [None] when the user cancels
    it. *)
Definition resolveTarget (hasUI : bool) (args : string)
    (pickBaseCommit : Z -> option string) (menu : option ReviewTarget)
    : option ReviewTarget :=
  match parseArgs args with
  | Some (recentPicker limit) =>
      if negb hasUI then Some worktree
      else
        match pickBaseCommit limit with
        | Some sha => if isEmpty sha then None else Some (recent sha)
        | None => None
        end
  | Some (Parsed target) => Some target
  | None => if negb hasUI then Some worktree else menu
  end.

(** The command as the user types it: what it awaits is computed from
    the arguments. *)
Definition reviewHandler (fs : FileSystem) (idle : bool) (exitCode : Z)
    (hasUI : bool) (args : string)
    (pickBaseCommit : Z -> option string) (menu : option ReviewTarget)
    : M unit :=
  reviewCommand fs
    {| isIdle := idle;
       gitExitCode := exitCode;
       resolvedTarget :=
         resolveTarget hasUI (cleanArgs args) pickBaseCommit menu |}.

(** ** Front matter *)

(** The line feed and three dashes that close a front matter block, and
    the two line ends that may follow the opening dashes. *)
Definition closingFence : string := nl +:+ "---".

Definition isLineEnd (eol : string) : bool :=
  String.eqb eol nl || String.eqb eol (String CR nl).

(** What must follow the lazy run of [stripFrontmatter]: the closing
    fence after an optional carriage return, the optional line end and
    the capture. *)
Definition afterMeta : string -> option string :=
  Frontmatter.optCR
    (Frontmatter.lit nl
       (Frontmatter.lit "---"
          (Frontmatter.optNewline Frontmatter.captureRest))).

(** ** The two halves of the [context] handler

    What the handler does to the boundary variables when it meets a
    conversation that is not empty, and the view it then returns for the
    boundary [boundary]. *)
Definition capturedSuite (messages : list Message) (s : Suite) : Suite :=
  if boundaryNeedsCapture s then
    set_boundaryNeedsCapture false
      match scanLastUser messages (length messages) with
      | Some i => set_suiteBoundaryCount (Z.of_nat i) s
      | None => s
      end
  else s.

Definition filteredView (now : Z) (stage : ReviewSuiteStage)
    (messages : list Message) (boundary : Z) : option (list Message) :=
  if boundary <? 0 then None
  else
    let lastUserIdx :=
      match scanLastUser messages (length messages) with
      | Some i => Z.of_nat i
      | None => -1
      end in
    if lastUserIdx <? 0 then None
    else if boundary >=? lastUserIdx then None
    else
      Some (slice messages 0 (Some boundary) ++
            [freshEyesNotice stage now] ++
            slice messages lastUserIdx None).

(** The status text that [updateSuiteStatus] would put on the host's
    surface for the suite variables [s]. *)
Definition shownStatus (s : Suite) : option string :=
  statusAfter ∅ (traceOf (updateSuiteStatus s)) !! "pi-review".

Definition isReviewEvent (e : Event) : bool :=
  match e with
  | EvReview _ _ => true
  | _ => false
  end.

(** ** The boundary variables between two handlers *)
Record BoundaryInv (s : Suite) : Prop := mkBoundaryInv {
  binv_low : -1 <= suiteBoundaryCount s;
  binv_pending :
    boundaryNeedsCapture s = true ->
    suiteActive s = true /\ suiteBoundaryCount s = -1;
  binv_captured :
    0 <= suiteBoundaryCount s ->
    suiteActive s = true /\ 1 <= suiteStageIndex s
}.

(* ===================================================================== *)
(** * The commit picker *)
(* ===================================================================== *)

(** What [pi.exec] brings back. *)
Record ExecResult : Type := mkExecResult {
  code : Z;
  stdout : string;
  stderr : string
}.

(** [type SelectItem]; the fields [value], [label] and [description]. *)
Record SelectItem : Type := mkSelectItem {
  itemValue : string;
  itemLabel : string;
  itemDescription : option string
}.

(** [s.split("\n")] *)
Fixpoint splitLines (s : string) : list string :=
  match s with
  | "" => [""]
  | String c r =>
      if Ascii.eqb c LF then "" :: splitLines r
      else
        match splitLines r with
        | piece :: pieces => String c piece :: pieces
        | [] => [String c ""]
        end
  end.

(** [s.split(/\s+/u)]: [piece] is the piece under way and [inGap] tells
    that the scan is inside a run of white space, whose first code unit
    closed the piece before it. *)
Fixpoint splitWhiteSpaceFrom (piece : string) (inGap : bool) (s : string)
    : list string :=
  match s with
  | "" => [piece]
  | String c r =>
      if isWhiteSpace c then
        if inGap then splitWhiteSpaceFrom piece true r
        else piece :: splitWhiteSpaceFrom "" true r
      else splitWhiteSpaceFrom (piece +:+ String c "") false r
  end.

Definition splitWhiteSpace (s : string) : list string :=
  splitWhiteSpaceFrom "" false s.

(** The lines of [git log] that are offered: trimmed, the empty ones
    left out. *)
Definition commitLines (out : string) : list string :=
  List.filter (fun l => negb (isEmpty l)) (map trim (splitLines out)).

Definition commitItem (line : string) : SelectItem :=
  match splitWhiteSpace line with
  | sha :: rest =>
      {| itemValue := sha;
         itemLabel := line;
         itemDescription :=
           let d := join " " rest in if isEmpty d then None else Some d |}
  | [] => {| itemValue := line; itemLabel := line; itemDescription := None |}
  end.

(** [pickBaseCommit]. [gitLog limit] is what [git log --oneline
    --decorate -n limit] brings back; [custom items] is the value the
    overlay resolves to: the value of the selected item, or [None] when
    the user leaves it. *)
Definition pickBaseCommit (gitLog : Z -> ExecResult)
    (custom : list SelectItem -> option string) (limit : Z)
    : M (option string) :=
  let log := gitLog limit in
  if negb (code log =? 0) then
    notify
      (trim ("Failed to run git log: " +:+
             (if isEmpty (stderr log) then stdout log else stderr log)))
      Error ;;
    ret None
  else
    let lines := commitLines (stdout log) in
    if (length lines =? 0)%nat then
      notify "No commits found." Warning ;;
      ret None
    else ret (custom (map commitItem lines)).

(** A text without white space. *)
Definition noWhiteSpace (s : string) : bool :=
  forallb (fun c => negb (isWhiteSpace c)) (list_ascii_of_string s).

(* ===================================================================== *)
(** * What each handler computes *)
(* ===================================================================== *)

Ltac unfold_monad := unfold mbind, handler_bind, bind, get, ret, modify, emit.

Lemma endSuite_run reason s :
  endSuite reason s = (tt, endedSuite s, endTrace reason).
Proof. reflexivity. Qed.

Lemma buildStagePrompt_run fs target stage s :
  buildStagePrompt fs target stage s = (stagePromptOf fs s target stage, s, []).
Proof.
  unfold stagePromptOf, buildStagePrompt.
  destruct (kind stage); reflexivity.
Qed.

Lemma updateSuiteStatus_run s :
  updateSuiteStatus s = (tt, s, statusCallOf s).
Proof.
  unfold statusCallOf, updateSuiteStatus. unfold_monad.
  destruct (suiteActive s); reflexivity.
Qed.

Lemma sendCurrentStagePrompt_run fs s :
  sendCurrentStagePrompt fs s =
  match suiteTarget s with
  | None => (tt, endedSuite s, endTrace "internal error: missing target")
  | Some target =>
      match currentStageOf s with
      | None => (tt, endedSuite s, endTrace "done")
      | Some stage =>
          let prompt := stagePromptOf fs s target stage in
          if isEmpty (trim prompt) then
            (tt, endedSuite s,
             endTrace ("missing prompt template: " +:+ promptName stage))
          else (tt, s, statusCallOf s ++ [SendUserMessage prompt])
      end
  end.
Proof.
  unfold sendCurrentStagePrompt. unfold_monad.
  destruct (suiteTarget s) as [target|]; [|reflexivity].
  unfold currentStage. unfold_monad.
  destruct (currentStageOf s) as [stage|]; [|reflexivity].
  rewrite buildStagePrompt_run. cbv zeta.
  destruct (isEmpty (trim (stagePromptOf fs s target stage))).
  - reflexivity.
  - rewrite updateSuiteStatus_run. reflexivity.
Qed.

Lemma onAgentEnd_run fs messages s :
  onAgentEnd fs messages s =
  if negb (suiteActive s) then (tt, s, [])
  else
    match currentStageOf s with
    | None => (tt, endedSuite s, endTrace "done")
    | Some stage =>
        let txt := getLastAssistantText (default [] messages) in
        if isEmpty txt then
          (tt, endedSuite s, endTrace "aborted (no assistant output) ")
        else if suiteStageIndex s + 1 >=? 4 then
          (tt, endedSuite s, endTrace "complete")
        else sendCurrentStagePrompt fs (advanced s stage txt)
    end.
Proof.
  unfold onAgentEnd. unfold_monad.
  destruct (suiteActive s); [|reflexivity]. cbn [negb].
  unfold currentStage. unfold_monad.
  destruct (currentStageOf s) as [stage|]; [|reflexivity].
  cbv zeta.
  destruct (isEmpty (getLastAssistantText (default [] messages))); [reflexivity|].
  unfold advanced.
  destruct (kind stage); cbn; change (Z.of_nat 4) with 4;
    (destruct (suiteStageIndex s + 1 >=? 4); [reflexivity|]);
    destruct (sendCurrentStagePrompt fs _) as [[[] s'] t]; reflexivity.
Qed.

Lemma onInput_run hasUI source s :
  onInput hasUI source s =
  if hasUI && suiteActive s && String.eqb source "interactive" then
    (Continue, endedSuite s, endTrace "user interrupted")
  else (Continue, s, []).
Proof.
  unfold onInput. destruct hasUI; [|reflexivity]. unfold_monad. cbn.
  destruct (suiteActive s && (source =? "interactive")%string); reflexivity.
Qed.

Lemma reviewCommand_run fs host s :
  reviewCommand fs host s =
  if negb (isIdle host) then
    (tt, s, [Notify "Agent is busy; try again when idle" Warning])
  else if negb (gitExitCode host =? 0) then
    (tt, s, [Notify "/review: not inside a git repository" Error])
  else
    match resolvedTarget host with
    | None => (tt, s, [])
    | Some target =>
        if suiteActive s then
          (tt, s,
           [Notify
              "A review suite is already running. Type anything to interrupt it."
              Warning])
        else
          let r := sendCurrentStagePrompt fs (armedSuite target) in
          (tt, stateOf r, Notify "Review started" Info :: traceOf r)
    end.
Proof.
  unfold reviewCommand. destruct (isIdle host); [|reflexivity]. cbn [negb].
  unfold ensureGitRepo. unfold_monad.
  destruct (gitExitCode host =? 0); [|reflexivity]. cbn.
  destruct (resolvedTarget host) as [target|]; [|reflexivity].
  destruct (suiteActive s); [reflexivity|].
  unfold armedSuite. cbn.
  destruct (sendCurrentStagePrompt fs _) as [[[] s'] t]. reflexivity.
Qed.

(* ===================================================================== *)
(** * The invariant of the suite *)
(* ===================================================================== *)

Lemma endedSuite_initial s :
  suiteFreshContext s = true -> endedSuite s = initialSuite.
Proof. unfold endedSuite, initialSuite. intros ->. reflexivity. Qed.

Lemma SuiteInv_initial : SuiteInv initialSuite.
Proof. split; cbn; try done; lia. Qed.

Lemma SuiteInv_ended s : suiteFreshContext s = true -> SuiteInv (endedSuite s).
Proof. intros H. rewrite endedSuite_initial by done. apply SuiteInv_initial. Qed.

(** [sendCurrentStagePrompt] either tears the suite down or leaves its
    variables alone. *)
Lemma sendCurrentStagePrompt_state fs s :
  stateOf (sendCurrentStagePrompt fs s) = endedSuite s \/
  stateOf (sendCurrentStagePrompt fs s) = s.
Proof.
  rewrite sendCurrentStagePrompt_run.
  destruct (suiteTarget s); [|by left].
  destruct (currentStageOf s); [|by left].
  cbv zeta. destruct (isEmpty _); [by left | by right].
Qed.

Lemma SuiteInv_send fs s :
  SuiteInv s -> SuiteInv (stateOf (sendCurrentStagePrompt fs s)).
Proof.
  intros Hs. destruct (sendCurrentStagePrompt_state fs s) as [-> | ->].
  - apply SuiteInv_ended, Hs.
  - exact Hs.
Qed.

(** The [context] handler makes no host call and assigns the two boundary
    variables only; it assigns nothing while no run is active. *)
Lemma onContext_frame now messages s :
  exists b p,
    stateOf (onContext now messages s) =
      set_boundaryNeedsCapture p (set_suiteBoundaryCount b s) /\
    traceOf (onContext now messages s) = [] /\
    (suiteActive s = false -> onContext now messages s = (None, s, [])).
Proof.
  destruct s as [a t i r f b p].
  assert (Hsame : mkSuite a t i r f b p =
                  set_boundaryNeedsCapture p
                    (set_suiteBoundaryCount b (mkSuite a t i r f b p)))
    by reflexivity.
  unfold onContext. unfold_monad. cbn [suiteActive suiteFreshContext].
  destruct a; cbn [negb orb].
  2:{ exists b, p. repeat split; done. }
  destruct f; cbn [negb orb].
  2:{ exists b, p. repeat split; done. }
  unfold currentStage. unfold_monad. cbn [stateOf traceOf fst snd].
  destruct (currentStageOf _) as [stage|].
  2:{ exists b, p. repeat split; done. }
  destruct (kind stage).
  2:{ exists b, p. repeat split; done. }
  cbn [suiteStageIndex]. destruct (i =? 0).
  { exists b, p. repeat split; done. }
  destruct messages as [[|m ms]|].
  2:{ cbn [boundaryNeedsCapture].
      destruct p.
      - destruct (scanLastUser (m :: ms) (length (m :: ms))) as [k|];
          cbn -[scanLastUser slice Z.of_nat "<?" ">=?"].
        + exists (Z.of_nat k), false.
          repeat match goal with
                 | |- context [if ?c then _ else _] => destruct c
                 end; repeat split; done.
        + exists b, false.
          repeat match goal with
                 | |- context [if ?c then _ else _] => destruct c
                 end; repeat split; done.
      - cbn -[scanLastUser slice Z.of_nat "<?" ">=?"].
        exists b, false.
        repeat match goal with
               | |- context [if ?c then _ else _] => destruct c
               end; repeat split; done. }
  all: exists b, p; repeat split; done.
Qed.

Lemma SuiteInv_frame s b p :
  SuiteInv s ->
  (suiteActive s = false -> b = suiteBoundaryCount s /\ p = boundaryNeedsCapture s) ->
  SuiteInv (set_boundaryNeedsCapture p (set_suiteBoundaryCount b s)).
Proof.
  intros [Hf Hi Ht Hx Hr] Hsame. destruct s as [a t i r f b0 p0]; cbn in *.
  split; cbn; try done.
  intros Ha. destruct (Hsame Ha) as [-> ->]. auto.
Qed.

Lemma SuiteInv_context now messages s :
  SuiteInv s -> SuiteInv (stateOf (onContext now messages s)).
Proof.
  intros Hs. destruct (onContext_frame now messages s) as (b & p & Hst & _ & Hidle).
  destruct (suiteActive s) eqn:Ha.
  - rewrite Hst. apply SuiteInv_frame; [done | congruence].
  - rewrite Hidle by done. exact Hs.
Qed.

(** A run that is active is at one of the four stages. *)
Lemma active_stage s :
  SuiteInv s ->
  exists stage, currentStageOf s = Some stage /\
    DEFAULT_SUITE_STAGES !! Z.to_nat (suiteStageIndex s) = Some stage.
Proof.
  intros [_ _ _ Hx _]. unfold currentStageOf, at_index.
  destruct (suiteStageIndex s <? 0) eqn:E; [lia|].
  assert (H : (Z.to_nat (suiteStageIndex s) < length DEFAULT_SUITE_STAGES)%nat)
    by (cbn; lia).
  apply lookup_lt_is_Some_2 in H as [stage Hst]. eauto.
Qed.

Lemma SuiteInv_advanced s stage txt :
  SuiteInv s -> suiteActive s = true ->
  currentStageOf s = Some stage -> suiteStageIndex s + 1 < 4 ->
  SuiteInv (advanced s stage txt).
Proof.
  intros [Hf Hi Ht Hx Hr] Ha Hst Hlt.
  destruct s as [a t i r f b p]; cbn in *. subst a f.
  unfold currentStageOf, at_index in Hst; cbn in Hst.
  assert (Hi3 : i = 0 \/ i = 1 \/ i = 2) by lia.
  destruct Hi3 as [-> | [-> | ->]]; cbn in Hst; injection Hst as <-;
    (split; cbn; [done | done | auto | .. ]); try lia;
    rewrite map_app, Hr; reflexivity.
Qed.

Lemma SuiteInv_agentEnd fs messages s :
  SuiteInv s -> SuiteInv (stateOf (onAgentEnd fs messages s)).
Proof.
  intros Hs. rewrite onAgentEnd_run.
  destruct (suiteActive s) eqn:Ha; cbn [negb]; [|exact Hs].
  destruct (active_stage s Hs) as (stage & Hst & _). rewrite Hst. cbv zeta.
  destruct (isEmpty _); [apply SuiteInv_ended, Hs|].
  destruct (suiteStageIndex s + 1 >=? 4) eqn:E; [apply SuiteInv_ended, Hs|].
  rewrite Z.geb_leb in E. apply Z.leb_gt in E.
  apply SuiteInv_send, SuiteInv_advanced; try done; lia.
Qed.

Lemma SuiteInv_input hasUI source s :
  SuiteInv s -> SuiteInv (stateOf (onInput hasUI source s)).
Proof.
  intros Hs. rewrite onInput_run.
  destruct (hasUI && suiteActive s && (source =? "interactive")%string);
    [apply SuiteInv_ended, Hs | exact Hs].
Qed.

Lemma SuiteInv_armed target : SuiteInv (armedSuite target).
Proof. split; cbn; try done; try lia; eauto. Qed.

Lemma SuiteInv_review fs host s :
  SuiteInv s -> SuiteInv (stateOf (reviewCommand fs host s)).
Proof.
  intros Hs. rewrite reviewCommand_run.
  destruct (negb (isIdle host)); [exact Hs|].
  destruct (negb (gitExitCode host =? 0)); [exact Hs|].
  destruct (resolvedTarget host) as [target|]; [|exact Hs].
  destruct (suiteActive s); [exact Hs|].
  apply SuiteInv_send, SuiteInv_armed.
Qed.

Lemma SuiteInv_step e s : SuiteInv s -> SuiteInv (fst (step e s)).
Proof.
  intros Hs. destruct e; cbn [step fst].
  - by apply SuiteInv_context.
  - by apply SuiteInv_agentEnd.
  - by apply SuiteInv_input.
  - by apply SuiteInv_review.
Qed.

Lemma reachable_inv s : reachable s -> SuiteInv s.
Proof.
  induction 1 as [|e s _ IH]; [apply SuiteInv_initial | by apply SuiteInv_step].
Qed.

Lemma reachable_run events s : reachable s -> reachable (fst (run events s)).
Proof.
  revert s. induction events as [|e rest IH]; intros s Hs; cbn; [done|].
  destruct (step e s) as [s1 t1] eqn:E1.
  specialize (IH s1). destruct (run rest s1) as [s2 t2]. cbn in *.
  apply IH. change s1 with (fst (s1, t1)). rewrite <- E1. by constructor.
Qed.

(* ===================================================================== *)
(** * Trimming *)
(* ===================================================================== *)

Section Trim.

Lemma trimStart_blank s : isBlank s = true -> trimStart s = "".
Proof.
  unfold isBlank. induction s as [|c r IH]; cbn; [done|].
  intros [Hc Hr]%andb_true_iff. rewrite Hc. auto.
Qed.

Lemma trim_blank s : isBlank s = true -> trim s = "".
Proof. intros H. unfold trim. by rewrite trimStart_blank. Qed.

(** What is left of [trimStart] starts with a code unit that is not
    white space. *)
Lemma trimStart_head s :
  trimStart s = "" \/
  exists c r, trimStart s = String c r /\ isWhiteSpace c = false.
Proof.
  induction s as [|c r IH]; cbn; [by left|].
  destruct (isWhiteSpace c) eqn:Hc; [exact IH|]. right. eauto.
Qed.

Lemma trimEnd_cons c r :
  trimEnd (String c r) =
  if isEmpty (trimEnd r) && isWhiteSpace c then ""
  else String c (trimEnd r).
Proof.
  cbn. destruct (trimEnd r); cbn; [|done]. by destruct (isWhiteSpace c).
Qed.

Lemma trimEnd_idem s : trimEnd (trimEnd s) = trimEnd s.
Proof.
  induction s as [|c r IH]; [done|].
  rewrite trimEnd_cons.
  destruct (isEmpty (trimEnd r) && isWhiteSpace c) eqn:E; [done|].
  rewrite trimEnd_cons, IH, E. done.
Qed.

(** A text that starts with a code unit that is not white space keeps
    it through [trim]. *)
Lemma trim_head c r :
  isWhiteSpace c = false -> trim (String c r) = String c (trimEnd r).
Proof.
  intros Hc. unfold trim. cbn [trimStart]. rewrite Hc, trimEnd_cons, Hc.
  by rewrite andb_false_r.
Qed.

Lemma trim_head_nonempty c r :
  isWhiteSpace c = false -> isEmpty (trim (String c r)) = false.
Proof. intros Hc. by rewrite trim_head. Qed.

(** The result of [trim] is empty or starts with a code unit that is
    not white space. *)
Lemma trim_shape s :
  trim s = "" \/ exists c r, trim s = String c r /\ isWhiteSpace c = false.
Proof.
  unfold trim. destruct (trimStart_head s) as [-> | (c & r & -> & Hc)];
    [by left|].
  right. exists c, (trimEnd r). rewrite trimEnd_cons, Hc, andb_false_r. done.
Qed.

Lemma trim_idem s : trim (trim s) = trim s.
Proof.
  unfold trim at 2 3. destruct (trimStart_head s) as [-> | (c & r & -> & Hc)];
    [done|].
  rewrite trimEnd_cons, Hc, andb_false_r. cbn [andb].
  rewrite trim_head by done. by rewrite trimEnd_idem.
Qed.

Lemma isEmpty_true s : isEmpty s = true <-> s = "".
Proof. destruct s; cbn; split; congruence. Qed.

Lemma isEmpty_false s : isEmpty s = false <-> s <> "".
Proof. destruct s; cbn; split; congruence. Qed.

End Trim.

(** The two halves of [getLastAssistantText]. *)
Lemma getLastAssistantText_split messages :
  getLastAssistantText messages =
  match lastAssistant messages with
  | None => ""
  | Some m => trim (rawTextOf m)
  end.
Proof. reflexivity. Qed.

Lemma getLastAssistantText_trimmed messages :
  trim (getLastAssistantText messages) = getLastAssistantText messages.
Proof.
  rewrite getLastAssistantText_split.
  destruct (lastAssistant messages); [apply trim_idem | done].
Qed.

Lemma blank_output messages :
  (forall m, lastAssistant messages = Some m -> isBlank (rawTextOf m) = true) ->
  getLastAssistantText messages = "".
Proof.
  intros H. rewrite getLastAssistantText_split.
  destruct (lastAssistant messages) as [m|]; [|done].
  apply trim_blank, H. done.
Qed.

(** ** Loading a template *)

Lemma stripFrontmatter_trimmed content :
  trim (stripFrontmatter content) = stripFrontmatter content.
Proof.
  unfold stripFrontmatter.
  destruct (Frontmatter.matchFrontmatter content); apply trim_idem.
Qed.

Lemma loadPromptText_trimmed fs name :
  trim (loadPromptText fs name) = loadPromptText fs name.
Proof.
  unfold loadPromptText.
  repeat (destruct (existsSync fs _); [apply stripFrontmatter_trimmed|]).
  done.
Qed.

(** Neither the user's file nor the packaged one: the template is the
    empty text. *)
Lemma loadPromptText_missing fs name :
  files fs !! pathJoin [homedir fs; ".pi"; "agent"; "prompts"; name +:+ ".md"]
    = None ->
  files fs !! pathJoin [dirname fs; "prompts"; name +:+ ".md"] = None ->
  loadPromptText fs name = "".
Proof.
  intros Hu Hp. unfold loadPromptText, existsSync.
  rewrite Hu, Hp.
  rewrite bool_decide_eq_false_2; [done|]. by intros [? ?].
Qed.

(* ===================================================================== *)
(** * Properties of the suite *)
(* ===================================================================== *)

Lemma reachable_started : reachable startedSuite.
Proof. exact (reachable_step _ _ reachable_initial). Qed.

Lemma reachable_fresh s : reachable s -> suiteFreshContext s = true.
Proof. intros H. apply reachable_inv, H. Qed.

Lemma reachable_ended s : reachable s -> endedSuite s = initialSuite.
Proof. intros H. by apply endedSuite_initial, reachable_fresh. Qed.

Lemma statusAfter_app surface t1 t2 :
  statusAfter surface (t1 ++ t2) = statusAfter (statusAfter surface t1) t2.
Proof. apply fold_left_app. Qed.

Lemma statusAfter_endTrace surface before reason :
  statusAfter surface (before ++ endTrace reason) !! "pi-review" = None.
Proof. rewrite statusAfter_app. cbn. apply lookup_delete_eq. Qed.

(** C3. While a run is active, a completed turn without text (no message
    of role assistant at all, or a last one whose text parts are empty or
    white space only) ends the run at whatever stage it is: the suite is
    inactive again, it holds no report, and the reason notified is the
    abort for want of assistant output. *)
Theorem empty_output_aborts_run fs messages s :
  reachable s ->
  suiteActive s = true ->
  (forall m, lastAssistant (default [] messages) = Some m ->
             isBlank (rawTextOf m) = true) ->
  onAgentEnd fs messages s =
    (tt, initialSuite,
     [ SetStatus "pi-review" None;
       Notify "Review suite ended: aborted (no assistant output) " Info ]) /\
  suiteActive (stateOf (onAgentEnd fs messages s)) = false /\
  suiteReports (stateOf (onAgentEnd fs messages s)) = [].
Proof.
  intros Hr Ha Hblank.
  assert (E : onAgentEnd fs messages s =
    (tt, initialSuite,
     [ SetStatus "pi-review" None;
       Notify "Review suite ended: aborted (no assistant output) " Info ])).
  { rewrite onAgentEnd_run, Ha. cbn [negb].
    destruct (active_stage s (reachable_inv s Hr)) as (stage & -> & _).
    cbv zeta. rewrite (blank_output _ Hblank). cbn [isEmpty].
    by rewrite reachable_ended. }
  rewrite E. done.
Qed.

Lemma empty_output_aborts_run_witness :
  onAgentEnd packagedFs
    (Some [userTurn "review this" 1; assistantTurn "   " 2]) startedSuite =
    (tt, initialSuite,
     [ SetStatus "pi-review" None;
       Notify "Review suite ended: aborted (no assistant output) " Info ]).
Proof.
  apply (empty_output_aborts_run packagedFs
           (Some [userTurn "review this" 1; assistantTurn "   " 2])
           startedSuite).
  - exact (reachable_step _ _ reachable_initial).
  - vm_compute. reflexivity.
  - intros m H. vm_compute in H. injection H as <-. vm_compute. reflexivity.
Defined.

(** C4, as the handler has it. An input event ends the run, with the
    reason [user interrupted], exactly when the session has a UI, a run is
    active and the source of the input is [interactive]; in every other
    case the handler assigns nothing and calls nothing. The input always
    goes on. *)
Theorem input_interrupts_active_run hasUI source s :
  reachable s ->
  valueOf (onInput hasUI source s) = Continue /\
  if hasUI && suiteActive s && String.eqb source "interactive" then
    stateOf (onInput hasUI source s) = initialSuite /\
    traceOf (onInput hasUI source s) =
      [ SetStatus "pi-review" None;
        Notify "Review suite ended: user interrupted" Info ]
  else
    stateOf (onInput hasUI source s) = s /\
    traceOf (onInput hasUI source s) = [].
Proof.
  intros Hr. rewrite onInput_run.
  destruct (hasUI && suiteActive s && (source =? "interactive")%string); cbn.
  - by rewrite reachable_ended.
  - done.
Qed.

Lemma input_interrupts_active_run_witness :
  stateOf (onInput true "interactive" startedSuite) = initialSuite /\
  traceOf (onInput true "interactive" startedSuite) =
    [ SetStatus "pi-review" None;
      Notify "Review suite ended: user interrupted" Info ].
Proof.
  exact (proj2 (input_interrupts_active_run true "interactive" startedSuite
                  (reachable_step _ _ reachable_initial))).
Defined.

(** C4 as the specification states it fails: in a session without a UI
    an input of source [interactive] leaves an active run as it is. *)
Lemma input_without_ui_keeps_run :
  suiteActive startedSuite = true /\
  onInput false "interactive" startedSuite = (Continue, startedSuite, []).
Proof. split; vm_compute; reflexivity. Qed.

(** C5. When the template of the current stage is empty after trimming,
    [sendCurrentStagePrompt] ends the run with the reason
    [missing prompt template: <name>] and sends no prompt. *)
Theorem missing_template_ends_run fs s target stage :
  suiteFreshContext s = true ->
  suiteTarget s = Some target ->
  currentStageOf s = Some stage ->
  trim (loadPromptText fs (promptName stage)) = "" ->
  sendCurrentStagePrompt fs s =
    (tt, initialSuite,
     [ SetStatus "pi-review" None;
       Notify ("Review suite ended: missing prompt template: " +:+
               promptName stage) Info ]) /\
  sentPrompts (traceOf (sendCurrentStagePrompt fs s)) = [].
Proof.
  intros Hf Ht Hst Hblank. rewrite loadPromptText_trimmed in Hblank.
  assert (E : sendCurrentStagePrompt fs s =
    (tt, initialSuite,
     [ SetStatus "pi-review" None;
       Notify ("Review suite ended: missing prompt template: " +:+
               promptName stage) Info ])).
  { rewrite sendCurrentStagePrompt_run, Ht, Hst. cbv zeta.
    assert (Hp : stagePromptOf fs s target stage = "").
    { unfold stagePromptOf, buildStagePrompt.
      destruct (kind stage); cbn; rewrite Hblank; reflexivity. }
    rewrite Hp. cbn. by rewrite endedSuite_initial. }
  rewrite E. done.
Qed.

Lemma missing_template_ends_run_witness :
  sendCurrentStagePrompt noLinusFs
    (advanced startedSuite (mkStage review "overall" "review-overall" "Overall")
       "looks fine") =
    (tt, initialSuite,
     [ SetStatus "pi-review" None;
       Notify "Review suite ended: missing prompt template: review-linus" Info ]).
Proof.
  apply (missing_template_ends_run noLinusFs
           (advanced startedSuite
              (mkStage review "overall" "review-overall" "Overall") "looks fine")
           staged (mkStage review "linus" "review-linus" "Linus")).
  - vm_compute. reflexivity.
  - vm_compute. reflexivity.
  - vm_compute. reflexivity.
  - vm_compute. reflexivity.
Defined.

(** C6. A [/review] typed while a run is active changes none of the suite
    variables, whatever the command awaited: it sends no prompt and
    leaves the status surface alone, and once the target is resolved its
    only call is the warning that a suite is already running. *)
Theorem second_start_rejected fs host s :
  suiteActive s = true ->
  stateOf (reviewCommand fs host s) = s /\
  sentPrompts (traceOf (reviewCommand fs host s)) = [] /\
  (forall surface,
     statusAfter surface (traceOf (reviewCommand fs host s)) = surface) /\
  (isIdle host = true -> gitExitCode host = 0 ->
   is_Some (resolvedTarget host) ->
   traceOf (reviewCommand fs host s) =
     [ Notify
         "A review suite is already running. Type anything to interrupt it."
         Warning ]).
Proof.
  intros Ha. rewrite reviewCommand_run, Ha.
  destruct (isIdle host); cbn [negb].
  2:{ repeat split; try done. }
  destruct (gitExitCode host =? 0) eqn:Hg; cbn [negb].
  2:{ repeat split; try done; intros _ Hz; rewrite Hz in Hg; done. }
  destruct (resolvedTarget host) as [target|].
  - repeat split; done.
  - repeat split; try done; intros _ _ [? ?]; done.
Qed.

Lemma second_start_rejected_witness :
  stateOf (reviewCommand packagedFs stagedHost startedSuite) = startedSuite /\
  traceOf (reviewCommand packagedFs stagedHost startedSuite) =
    [ Notify
        "A review suite is already running. Type anything to interrupt it."
        Warning ].
Proof.
  assert (Ha : suiteActive startedSuite = true) by (vm_compute; reflexivity).
  destruct (second_start_rejected packagedFs stagedHost startedSuite Ha)
    as (Hst & _ & _ & Htr).
  split; [exact Hst|].
  apply Htr; [reflexivity | reflexivity | eexists; reflexivity].
Defined.

Lemma step_teardown e s :
  suiteFreshContext s = true ->
  endsDuring e s ->
  exists before reason, snd (step e s) = before ++ endTrace reason.
Proof.
  intros Hf [Hwas Hoff]. destruct e as [now ms | fs ms | ui src | fs host];
    cbn [step fst snd] in *.
  - (* context: assigns the boundary only *)
    destruct (onContext_frame now ms s) as (b & p & Hst & Htr & _).
    rewrite Htr in Hwas. rewrite Hst in Hoff. cbn in *.
    destruct Hwas as [Ha | []]. congruence.
  - (* agent_end *)
    revert Hwas Hoff. rewrite onAgentEnd_run.
    destruct (suiteActive s) eqn:Ha; cbn [negb].
    2:{ cbn. intros [? | []]; congruence. }
    intros _.
    destruct (currentStageOf s) as [stage|]; [|by exists [], "done"].
    cbv zeta. destruct (isEmpty _);
      [by exists [], "aborted (no assistant output) "|].
    destruct (_ >=? 4); [by exists [], "complete"|].
    rewrite sendCurrentStagePrompt_run.
    destruct (suiteTarget _);
      [|by exists [], "internal error: missing target"].
    destruct (currentStageOf _) as [next|]; [|by exists [], "done"].
    cbv zeta. destruct (isEmpty _);
      [by eexists [], _|].
    cbn. unfold advanced. destruct (kind stage); cbn; congruence.
  - (* input *)
    revert Hwas Hoff. rewrite onInput_run.
    destruct (ui && suiteActive s && (src =? "interactive")%string);
      [by exists [], "user interrupted"|].
    cbn. intros [? | []]; congruence.
  - (* the command *)
    revert Hwas Hoff. rewrite reviewCommand_run.
    destruct (negb (isIdle host)); [cbn; intros [?|[?|[]]]; congruence|].
    destruct (negb (gitExitCode host =? 0));
      [cbn; intros [?|[?|[]]]; congruence|].
    destruct (resolvedTarget host) as [target|];
      [|cbn; intros [?|[]]; congruence].
    destruct (suiteActive s) eqn:Ha; [cbn; intros [?|[?|[]]]; congruence|].
    cbv zeta. cbn [stateOf traceOf fst snd]. intros _.
    rewrite sendCurrentStagePrompt_run. cbn [suiteTarget armedSuite].
    destruct (currentStageOf _) as [stage|];
      [|by exists [Notify "Review started" Info], "done"].
    cbv zeta. destruct (isEmpty _); [by eexists [_], _|].
    cbn. congruence.
Qed.

(** C7. [endSuite] puts every suite variable back to its initial value
    and clears the status; and whenever a run comes to its end in a
    handler (whether it was active before the event or was started by
    it), the suite is the initial one again, the last calls of the
    handler are those of [endSuite], and the status surface holds nothing
    for the extension. *)
Theorem termination_goes_through_teardown e s :
  reachable s ->
  (forall reason,
     endSuite reason s =
       (tt, initialSuite,
        [ SetStatus "pi-review" None;
          Notify ("Review suite ended: " +:+ reason) Info ])) /\
  (endsDuring e s ->
   fst (step e s) = initialSuite /\
   (exists before reason,
      snd (step e s) =
        before ++ traceOf (endSuite reason s)) /\
   (forall surface,
      statusAfter surface (snd (step e s)) !! "pi-review" = None)).
Proof.
  intros Hr. split.
  - intros reason. by rewrite endSuite_run, reachable_ended.
  - intros Hend.
    destruct (step_teardown e s (reachable_fresh s Hr) Hend)
      as (before & reason & Htr).
    split; [|split].
    + apply (reachable_inv _ (reachable_step e s Hr)), Hend.
    + by exists before, reason.
    + intros surface. rewrite Htr. apply statusAfter_endTrace.
Qed.

Lemma termination_goes_through_teardown_witness :
  fst (step (EvInput true "interactive") startedSuite) = initialSuite /\
  (forall surface,
     statusAfter surface (snd (step (EvInput true "interactive") startedSuite))
       !! "pi-review" = None).
Proof.
  assert (Hend : endsDuring (EvInput true "interactive") startedSuite).
  { split; [left|]; vm_compute; reflexivity. }
  destruct (termination_goes_through_teardown
              (EvInput true "interactive") startedSuite
              (reachable_step _ _ reachable_initial))
    as [_ Hstep].
  destruct (Hstep Hend) as (Hst & _ & Hsurf).
  split; [exact Hst | exact Hsurf].
Defined.

(** C8. Between two handlers the stage index lies between 0 and the
    length of the pipeline, an active run is at an index below that
    length (so it has a current stage), and the turn that would move the
    index to the length of the pipeline ends the run in the same
    handler. *)
Theorem stage_index_invariant s :
  reachable s ->
  0 <= suiteStageIndex s <= Z.of_nat (length DEFAULT_SUITE_STAGES) /\
  (suiteActive s = true ->
   suiteStageIndex s < Z.of_nat (length DEFAULT_SUITE_STAGES) /\
   is_Some (currentStageOf s)) /\
  (forall fs messages,
     suiteActive s = true ->
     suiteStageIndex s + 1 = Z.of_nat (length DEFAULT_SUITE_STAGES) ->
     getLastAssistantText (default [] messages) <> "" ->
     onAgentEnd fs messages s =
       (tt, initialSuite,
        [ SetStatus "pi-review" None;
          Notify "Review suite ended: complete" Info ])).
Proof.
  intros Hr. pose proof (reachable_inv s Hr) as Hinv.
  destruct (active_stage s Hinv) as (stage & Hst & _).
  pose proof (inv_index s Hinv) as Hx.
  change (Z.of_nat (length DEFAULT_SUITE_STAGES)) with 4.
  split; [lia|]. split.
  - intros _. split; [lia | by rewrite Hst].
  - intros fs messages Ha Hlast Htxt.
    rewrite onAgentEnd_run, Ha, Hst. cbn [negb]. cbv zeta.
    apply isEmpty_false in Htxt. rewrite Htxt.
    rewrite Hlast. cbn. by rewrite reachable_ended.
Qed.

Lemma stage_index_invariant_witness :
  let s := fst (run (threeTurns packagedFs) initialSuite) in
  suiteActive s = true /\
  suiteStageIndex s = 3 /\
  0 <= suiteStageIndex s <= Z.of_nat (length DEFAULT_SUITE_STAGES) /\
  suiteStageIndex s < Z.of_nat (length DEFAULT_SUITE_STAGES) /\
  currentStageOf s =
    Some (mkStage synthesize "synthesize" "review-synthesize" "Synthesis") /\
  onAgentEnd packagedFs (Some [assistantTurn "Final report." 14]) s =
    (tt, initialSuite,
     [ SetStatus "pi-review" None;
       Notify "Review suite ended: complete" Info ]).
Proof.
  intros s.
  destruct (stage_index_invariant s
              (reachable_run (threeTurns packagedFs) initialSuite
                 reachable_initial)) as (Hx & Ha & Hend).
  assert (Hactive : suiteActive s = true) by (vm_compute; reflexivity).
  assert (Hindex : suiteStageIndex s = 3) by (vm_compute; reflexivity).
  destruct (Ha Hactive) as [Hlt _].
  split; [exact Hactive|]. split; [exact Hindex|]. split; [exact Hx|].
  split; [exact Hlt|]. split; [vm_compute; reflexivity|].
  apply Hend; [exact Hactive | rewrite Hindex; reflexivity |].
  vm_compute. discriminate.
Defined.

(** C10. Between two handlers the reports are those of the review stages
    before the current index, in the order of the pipeline, with their
    ids and labels: [min(stageIndex, 3)] of them while a run is active,
    and never more than three. *)
Theorem reports_follow_pipeline s :
  reachable s ->
  (length (suiteReports s) <= 3)%nat /\
  (suiteActive s = true ->
   length (suiteReports s) = Z.to_nat (Z.min (suiteStageIndex s) 3) /\
   map reportHeading (suiteReports s) =
     map stageHeading
       (take (Z.to_nat (Z.min (suiteStageIndex s) 3)) reviewStages)).
Proof.
  intros Hr. destruct (reachable_inv s Hr) as [_ _ _ Hx Hrep].
  assert (Hlen : length (suiteReports s) = Z.to_nat (suiteStageIndex s)).
  { rewrite <- (length_map reportHeading), Hrep, length_map, length_take.
    cbn [length reviewStages List.filter DEFAULT_SUITE_STAGES kind]. lia. }
  rewrite Z.min_l by lia.
  split; [lia|]. intros _. split; [exact Hlen | exact Hrep].
Qed.

Lemma reports_follow_pipeline_witness :
  let s := fst (run (threeTurns packagedFs) initialSuite) in
  suiteActive s = true /\
  suiteStageIndex s = 3 /\
  (length (suiteReports s) <= 3)%nat /\
  length (suiteReports s) = 3%nat /\
  map reportHeading (suiteReports s) =
    [("overall", "Overall"); ("linus", "Linus"); ("staff", "Staff")] /\
  map text (suiteReports s) =
    ["The diff is fine."; "Too clever by half."; "Add a rollout plan."].
Proof.
  intros s.
  destruct (reports_follow_pipeline s
              (reachable_run (threeTurns packagedFs) initialSuite
                 reachable_initial)) as (Hmax & Hactive).
  assert (Ha : suiteActive s = true) by (vm_compute; reflexivity).
  assert (Hindex : suiteStageIndex s = 3) by (vm_compute; reflexivity).
  destruct (Hactive Ha) as [Hlen Hheads].
  rewrite Hindex in Hlen, Hheads.
  split; [exact Ha|]. split; [exact Hindex|]. split; [exact Hmax|].
  split; [exact Hlen|]. split; [exact Hheads|]. vm_compute. reflexivity.
Defined.

(* ===================================================================== *)
(** * [replaceAll] *)
(* ===================================================================== *)

Section StringBasics.

(** stdpp keeps [+:+] folded; these are its two equations. *)
Lemma append_nil_l s : "" +:+ s = s.
Proof. reflexivity. Qed.

Lemma append_cons c r s : String c r +:+ s = String c (r +:+ s).
Proof. reflexivity. Qed.

Lemma append_nil_r s : s +:+ "" = s.
Proof.
  induction s as [|c r IH]; [done | by rewrite append_cons, IH].
Qed.

Lemma append_assoc a b c : (a +:+ b) +:+ c = a +:+ (b +:+ c).
Proof.
  induction a as [|x r IH]; [done | by rewrite !append_cons, IH].
Qed.

Lemma length_append a b :
  String.length (a +:+ b) = (String.length a + String.length b)%nat.
Proof.
  induction a as [|x r IH]; [done | rewrite append_cons; cbn; by rewrite IH].
Qed.

Lemma strDrop_nil n : strDrop n "" = "".
Proof. by destruct n. Qed.

Lemma strDrop_add n k s : strDrop (n + k) s = strDrop k (strDrop n s).
Proof.
  revert s. induction n as [|n IH]; intros s; [done|].
  destruct s as [|c r]; cbn; [by rewrite strDrop_nil | apply IH].
Qed.

Lemma strTake_strDrop n s : strTake n s +:+ strDrop n s = s.
Proof.
  revert s. induction n as [|n IH]; intros [|c r]; cbn; try done.
  by rewrite append_cons, IH.
Qed.

Lemma strDrop_append a b : strDrop (String.length a) (a +:+ b) = b.
Proof. induction a as [|c r IH]; [done | exact IH]. Qed.

Lemma list_of_strDrop n s :
  list_ascii_of_string (strDrop n s) = drop n (list_ascii_of_string s).
Proof.
  revert s. induction n as [|n IH]; intros [|c r]; cbn; done.
Qed.

Lemma length_list_of_string s :
  length (list_ascii_of_string s) = String.length s.
Proof. induction s as [|c r IH]; cbn; [done | by rewrite IH]. Qed.

(** [startsWith p s] says that [s] is [p] followed by something. *)
Lemma startsWith_spec p s :
  startsWith p s = true <-> exists rest, s = p +:+ rest.
Proof.
  revert s. induction p as [|a p IH]; intros s; cbn.
  - split; [eauto | done].
  - destruct s as [|b s]; [split; [done | by intros [? ?]]|].
    rewrite andb_true_iff, IH. split.
    + intros [Hab%Ascii.eqb_eq [rest ->]]. subst. eauto.
    + intros [rest [= -> ->]]. split; [apply Ascii.eqb_refl | eauto].
Qed.

Lemma startsWith_append p rest : startsWith p (p +:+ rest) = true.
Proof. apply startsWith_spec. eauto. Qed.

Lemma startsWith_length p s :
  startsWith p s = true -> (String.length p <= String.length s)%nat.
Proof.
  intros [rest ->]%startsWith_spec. rewrite length_append. lia.
Qed.

(** If [m] starts [a +:+ rest] and [a] is no longer than [m], then [a]
    starts [m]. *)
Lemma startsWith_shorter m a rest :
  startsWith m (a +:+ rest) = true ->
  (String.length a <= String.length m)%nat ->
  startsWith a m = true.
Proof.
  revert m. induction a as [|x a IH]; intros m; [done|].
  destruct m as [|y m]; cbn; [lia|].
  intros [Hxy Hm]%andb_true_iff Hlen.
  rewrite Ascii.eqb_sym, Hxy. cbn. apply IH; [done | lia].
Qed.

Lemma strDrop_append_le d a b :
  (d <= String.length a)%nat -> strDrop d (a +:+ b) = strDrop d a +:+ b.
Proof.
  revert a. induction d as [|d IH]; intros a Hd; [done|].
  destruct a as [|c r]; cbn in *; [lia|]. apply IH. lia.
Qed.

Lemma length_strDrop d a :
  String.length (strDrop d a) = (String.length a - d)%nat.
Proof.
  revert a. induction d as [|d IH]; intros [|c r]; cbn; try done; lia.
Qed.

End StringBasics.

Section ReplaceAll.

Variables search repl : string.
Hypothesis search_nonempty : isEmpty search = false.

(** Passing over [k] code units of a match is resuming the scan after
    them. *)
Lemma replaceAllFrom_skip k s before :
  replaceAllFrom search repl before k s =
  if (k <=? String.length s)%nat then
    replaceAllFrom search repl (before +:+ strTake k s) O (strDrop k s)
  else "".
Proof.
  revert s before. induction k as [|k IH]; intros s before.
  - cbn [strTake strDrop Nat.leb]. by rewrite append_nil_r.
  - destruct s as [|c r]; [done|].
    cbn [replaceAllFrom strTake strDrop String.length Nat.leb].
    rewrite IH. by rewrite append_assoc.
Qed.

(** The scan, one match or one code unit at a time. *)
Lemma replaceAllFrom_cons before c r :
  replaceAllFrom search repl before O (String c r) =
  if startsWith search (String c r) then
    getSubstitution search before
      (strDrop (String.length search) (String c r)) repl +:+
    replaceAllFrom search repl
      (before +:+ strTake (String.length search) (String c r)) O
      (strDrop (String.length search) (String c r))
  else
    String c (replaceAllFrom search repl (before +:+ String c "") O r).
Proof.
  cbn [replaceAllFrom].
  destruct (startsWith search (String c r)) eqn:Hs; [|done].
  rewrite search_nonempty. rewrite replaceAllFrom_skip.
  apply startsWith_length in Hs.
  destruct search as [|a p]; [done|]. cbn [String.length] in *.
  replace (S (String.length p) - 1)%nat with (String.length p) by lia.
  cbn [strTake strDrop].
  destruct (Nat.leb_spec (String.length p) (String.length r)); [|lia].
  by rewrite append_assoc.
Qed.

Lemma replaceAllFrom_nil before :
  replaceAllFrom search repl before O "" = "".
Proof. cbn. by rewrite search_nonempty. Qed.

End ReplaceAll.

(** ** Removing the occurrences of a marker *)

Section Removal.

Variable m : string.
Hypothesis m_nonempty : isEmpty m = false.
Hypothesis m_unbordered : unbordered m = true.

Lemma marker_length : (1 <= String.length m)%nat.
Proof. destruct m; [done | cbn; lia]. Qed.

(** With nothing put in place of a match, what was scanned before does
    not matter. *)
Lemma remove_before before before' s :
  replaceAllFrom m "" before O s = replaceAllFrom m "" before' O s.
Proof.
  remember (String.length s) as n eqn:Hn.
  revert s Hn before before'.
  induction n as [n IH] using lt_wf_ind; intros s Hn before before'.
  destruct s as [|c r]; [by rewrite !replaceAllFrom_nil|].
  rewrite !replaceAllFrom_cons by done.
  destruct (startsWith m (String c r)) eqn:Hs.
  - cbn [getSubstitution append].
    apply (IH (String.length (strDrop (String.length m) (String c r))));
      [|done].
    rewrite length_strDrop. pose proof marker_length. cbn in *. lia.
  - f_equal. apply (IH (String.length r)); [cbn in Hn; lia | done].
Qed.

Lemma remove_cons c r :
  replaceAll m "" (String c r) =
  if startsWith m (String c r) then
    replaceAll m "" (strDrop (String.length m) (String c r))
  else String c (replaceAll m "" r).
Proof.
  unfold replaceAll. rewrite replaceAllFrom_cons by done.
  destruct (startsWith m (String c r)).
  - cbn [getSubstitution append]. apply remove_before.
  - f_equal. apply remove_before.
Qed.

(** Two occurrences of the marker do not overlap. *)
Lemma occurrences_apart w i j :
  occursAt m w i = true -> occursAt m w j = true ->
  (i < j)%nat -> (i + String.length m <= j)%nat.
Proof.
  unfold occursAt. intros Hi Hj Hij.
  destruct (Nat.le_gt_cases (i + String.length m) j) as [|Hlt]; [done|].
  exfalso. set (d := (j - i)%nat).
  replace j with (i + d)%nat in Hj by lia. rewrite strDrop_add in Hj.
  apply startsWith_spec in Hi as [rest Hi]. rewrite Hi in Hj.
  rewrite strDrop_append_le in Hj by lia.
  apply startsWith_shorter in Hj; [|rewrite length_strDrop; lia].
  unfold unbordered in m_unbordered.
  rewrite forallb_forall in m_unbordered.
  specialize (m_unbordered d). rewrite Hj in m_unbordered.
  assert (In d (seq 1 (String.length m - 1))) as Hin
    by (apply in_seq; lia).
  apply m_unbordered in Hin. done.
Qed.

Lemma insideOccurrence_true w k i :
  (i <= k)%nat -> occursAt m w i = true -> (k < i + String.length m)%nat ->
  insideOccurrence m w k = true.
Proof.
  intros Hik Hocc Hk. unfold insideOccurrence. apply existsb_exists.
  exists i. split; [apply in_seq; lia|].
  rewrite Hocc. cbn. by apply Nat.ltb_lt.
Qed.

Lemma insideOccurrence_false w k :
  (forall i, (i <= k)%nat -> occursAt m w i = true ->
             (i + String.length m <= k)%nat) ->
  insideOccurrence m w k = false.
Proof.
  intros H. unfold insideOccurrence.
  apply not_true_is_false. intros [i [Hin Hi]]%existsb_exists.
  apply in_seq in Hin. apply andb_true_iff in Hi as [Hocc Hlt].
  apply Nat.ltb_lt in Hlt.
  specialize (H i ltac:(lia) Hocc). lia.
Qed.

(** Positions that all lie inside an occurrence leave nothing. *)
Lemma keepOutside_inside w n from l :
  (n <= length l)%nat ->
  (forall k, (from <= k < from + n)%nat -> insideOccurrence m w k = true) ->
  keepOutside m w from l = keepOutside m w (from + n) (drop n l).
Proof.
  revert from l. induction n as [|n IH]; intros from l Hn Hin.
  - by rewrite Nat.add_0_r.
  - destruct l as [|c l]; [cbn in Hn; lia|].
    unfold keepOutside. cbn [length seq combine List.filter fst].
    rewrite Hin by lia. cbn [negb drop].
    replace (from + S n)%nat with (S from + n)%nat by lia.
    apply IH; [cbn in Hn; lia|]. intros k Hk. apply Hin. lia.
Qed.

(** The scan and the reading by positions agree on every suffix that
    starts outside the occurrences before it. *)
Lemma remove_suffix w n :
  forall t i,
    String.length t = n ->
    strDrop i w = t ->
    (forall j, (j < i)%nat -> occursAt m w j = true ->
               (j + String.length m <= i)%nat) ->
    list_ascii_of_string (replaceAll m "" t) =
    keepOutside m w i (list_ascii_of_string t).
Proof.
  induction n as [n IH] using lt_wf_ind. intros t i Hn Ht Hbefore.
  destruct t as [|c r];
    [unfold replaceAll; by rewrite replaceAllFrom_nil|].
  rewrite remove_cons.
  destruct (startsWith m (String c r)) eqn:Hs.
  - (* an occurrence starts here *)
    assert (Hocc : occursAt m w i = true) by (unfold occursAt; by rewrite Ht).
    pose proof (startsWith_length _ _ Hs) as Hlen.
    pose proof marker_length as Hm.
    rewrite (keepOutside_inside w (String.length m));
      [|by rewrite length_list_of_string|].
    2:{ intros k Hk. apply (insideOccurrence_true w k i); [lia|done|lia]. }
    rewrite <- list_of_strDrop.
    apply (IH (String.length (strDrop (String.length m) (String c r)))).
    + rewrite length_strDrop. lia.
    + done.
    + by rewrite <- Ht, <- strDrop_add.
    + intros j Hj Hoccj.
      destruct (Nat.lt_trichotomy j i) as [Hlt | [-> | Hgt]].
      * specialize (Hbefore j Hlt Hoccj). lia.
      * lia.
      * pose proof (occurrences_apart w i j Hocc Hoccj Hgt). lia.
  - (* no occurrence starts here: the code unit stays *)
    assert (Hout : insideOccurrence m w i = false).
    { apply insideOccurrence_false. intros j Hj Hoccj.
      destruct (decide (j = i)) as [-> | Hne].
      - unfold occursAt in Hoccj. rewrite Ht in Hoccj. congruence.
      - specialize (Hbefore j ltac:(lia) Hoccj). lia. }
    unfold keepOutside.
    cbn [list_ascii_of_string length seq combine List.filter fst].
    rewrite Hout. cbn [negb map snd]. f_equal.
    apply (IH (String.length r)).
    + cbn in Hn. lia.
    + done.
    + replace (S i) with (i + 1)%nat by lia.
      rewrite strDrop_add, Ht. done.
    + intros j Hj Hoccj.
      destruct (decide (j = i)) as [-> | Hne].
      * unfold occursAt in Hoccj. rewrite Ht in Hoccj. congruence.
      * specialize (Hbefore j ltac:(lia) Hoccj). lia.
Qed.

(** [replaceAll] with the empty replacement removes exactly the code
    units that lie inside an occurrence of the marker. *)
Lemma replaceAll_removes s :
  replaceAll m "" s = withoutOccurrences m s.
Proof.
  unfold withoutOccurrences.
  rewrite <- (remove_suffix s (String.length s) s 0%nat); try done.
  - by rewrite string_of_list_ascii_of_string.
  - intros j Hj. lia.
Qed.

(** A text without the marker is left as it is. *)
Lemma replaceAll_absent s :
  includes m s = false -> replaceAll m "" s = s.
Proof.
  induction s as [|c r IH]; [intros _; unfold replaceAll; cbn; by rewrite m_nonempty|].
  cbn [includes]. intros [Hs Hr]%orb_false_iff.
  rewrite remove_cons, Hs, IH; done.
Qed.

End Removal.

Lemma STAGE_DONE_MARKER_nonempty : isEmpty STAGE_DONE_MARKER = false.
Proof. reflexivity. Qed.

Lemma STAGE_DONE_MARKER_unbordered : unbordered STAGE_DONE_MARKER = true.
Proof. vm_compute. reflexivity. Qed.

(** A review stage is one of the first three of the pipeline. *)
Lemma review_stage_index s stage :
  currentStageOf s = Some stage -> kind stage = review ->
  0 <= suiteStageIndex s < 3.
Proof.
  unfold currentStageOf, at_index. destruct (suiteStageIndex s <? 0) eqn:E; [done|].
  apply Z.ltb_ge in E. intros Hst Hk.
  destruct (Z.to_nat (suiteStageIndex s)) as [|[|[|[|n]]]] eqn:En;
    cbn in Hst; try lia; try done.
  injection Hst as <-. done.
Qed.

Lemma advanced_review s stage txt :
  kind stage = review ->
  advanced s stage txt =
  set_suiteStageIndex (suiteStageIndex s + 1)
    (set_suiteReports
       (suiteReports s ++
          [mkReport (id stage) (label stage)
             (trim (replaceAll STAGE_DONE_MARKER "" txt))]) s).
Proof. unfold advanced. by intros ->. Qed.

(** C9. When a review stage completes with some assistant text, the
    handler stores a report whose text is that text without the code
    units that lie inside an occurrence of the marker, trimmed, and goes
    on to the next prompt; the report is there whenever the run is still
    active afterwards, and a text without the marker is stored as it
    is. *)
Theorem review_report_strips_marker fs messages s stage :
  suiteActive s = true ->
  currentStageOf s = Some stage ->
  kind stage = review ->
  getLastAssistantText (default [] messages) <> "" ->
  let txt := getLastAssistantText (default [] messages) in
  let stored :=
    mkReport (id stage) (label stage)
      (trim (withoutOccurrences STAGE_DONE_MARKER txt)) in
  onAgentEnd fs messages s =
    sendCurrentStagePrompt fs
      (set_suiteStageIndex (suiteStageIndex s + 1)
         (set_suiteReports (suiteReports s ++ [stored]) s)) /\
  (suiteActive (stateOf (onAgentEnd fs messages s)) = true ->
   suiteReports (stateOf (onAgentEnd fs messages s)) =
     suiteReports s ++ [stored]) /\
  (includes STAGE_DONE_MARKER txt = false -> text stored = txt).
Proof.
  intros Ha Hst Hk Htxt txt stored.
  pose proof (review_stage_index s stage Hst Hk) as Hx.
  assert (E : onAgentEnd fs messages s =
    sendCurrentStagePrompt fs
      (set_suiteStageIndex (suiteStageIndex s + 1)
         (set_suiteReports (suiteReports s ++ [stored]) s))).
  { rewrite onAgentEnd_run, Ha, Hst. cbn [negb]. cbv zeta.
    apply isEmpty_false in Htxt. rewrite Htxt.
    destruct (suiteStageIndex s + 1 >=? 4) eqn:E.
    { rewrite Z.geb_leb in E. apply Z.leb_le in E. lia. }
    rewrite advanced_review by done. unfold stored, txt.
    rewrite (replaceAll_removes STAGE_DONE_MARKER
               STAGE_DONE_MARKER_nonempty STAGE_DONE_MARKER_unbordered).
    done. }
  split; [exact E|]. split.
  - rewrite E. intros Hact.
    destruct (sendCurrentStagePrompt_state fs
                (set_suiteStageIndex (suiteStageIndex s + 1)
                   (set_suiteReports (suiteReports s ++ [stored]) s)))
      as [Hend | Hsame].
    + rewrite Hend in Hact. done.
    + rewrite Hsame. done.
  - intros Habsent. unfold stored. cbn [text].
    rewrite <- (replaceAll_removes STAGE_DONE_MARKER
                  STAGE_DONE_MARKER_nonempty STAGE_DONE_MARKER_unbordered).
    rewrite (replaceAll_absent STAGE_DONE_MARKER STAGE_DONE_MARKER_nonempty)
      by done.
    apply getLastAssistantText_trimmed.
Qed.

Lemma review_report_strips_marker_witness :
  suiteReports
    (stateOf
       (onAgentEnd packagedFs
          (Some [assistantTurn
                   "Fine. [[PI_REVIEW_STAGE_DONE]] Really. [[PI_REVIEW_STAGE_DONE]]"
                   7])
          startedSuite)) =
  [mkReport "overall" "Overall" "Fine.  Really."].
Proof.
  destruct (review_report_strips_marker packagedFs
              (Some [assistantTurn
                       "Fine. [[PI_REVIEW_STAGE_DONE]] Really. [[PI_REVIEW_STAGE_DONE]]"
                       7])
              startedSuite
              (mkStage review "overall" "review-overall" "Overall"))
    as (_ & Hstored & _).
  - vm_compute. reflexivity.
  - vm_compute. reflexivity.
  - reflexivity.
  - vm_compute. discriminate.
  - rewrite Hstored; vm_compute; reflexivity.
Defined.

(** The removal is one pass over the text: occurrences that only appear
    once others are gone are not looked for. *)
Example removal_is_one_pass :
  replaceAll STAGE_DONE_MARKER ""
    "[[PI_REVIEW_STAGE_DONE[[PI_REVIEW_STAGE_DONE]]]]" =
  "[[PI_REVIEW_STAGE_DONE]]".
Proof. vm_compute. reflexivity. Qed.

(* ===================================================================== *)
(** * From the start to the synthesis prompt *)
(* ===================================================================== *)

Section Runs.

Lemma run_cons_fst e rest s :
  fst (run (e :: rest) s) = fst (run rest (fst (step e s))).
Proof.
  cbn [run]. destruct (step e s) as [s1 t1]. cbn [fst].
  by destruct (run rest s1).
Qed.

Lemma run_cons_snd e rest s :
  snd (run (e :: rest) s) =
  snd (step e s) ++ snd (run rest (fst (step e s))).
Proof.
  cbn [run]. destruct (step e s) as [s1 t1]. cbn [fst snd].
  by destruct (run rest s1).
Qed.

Lemma run_app_fst l1 l2 s :
  fst (run (l1 ++ l2) s) = fst (run l2 (fst (run l1 s))).
Proof.
  revert s. induction l1 as [|e l1 IH]; intros s; [done|].
  rewrite <- app_comm_cons, !run_cons_fst. apply IH.
Qed.

Lemma run_app_snd l1 l2 s :
  snd (run (l1 ++ l2) s) =
  snd (run l1 s) ++ snd (run l2 (fst (run l1 s))).
Proof.
  revert s. induction l1 as [|e l1 IH]; intros s; [done|].
  rewrite <- app_comm_cons, !run_cons_snd, run_cons_fst, IH.
  by rewrite app_assoc.
Qed.

Lemma sentPrompts_app t1 t2 :
  sentPrompts (t1 ++ t2) = sentPrompts t1 ++ sentPrompts t2.
Proof. apply omap_app. Qed.

Lemma sentPrompts_notify message level t :
  sentPrompts (Notify message level :: t) = sentPrompts t.
Proof. reflexivity. Qed.

Lemma sentPrompts_status s : sentPrompts (statusCallOf s) = [].
Proof.
  unfold statusCallOf, updateSuiteStatus. unfold_monad.
  by destruct (suiteActive s).
Qed.

Lemma stagePromptOf_compiled fs s target stage :
  stagePromptOf fs s target stage =
  compiledPrompt fs (suiteReports s) target stage.
Proof.
  unfold stagePromptOf, compiledPrompt, buildStagePrompt.
  by destruct (kind stage).
Qed.

(** Context events keep the run where it is and send nothing. *)
Lemma atStage_context target k reports now ms s :
  atStage target k reports s ->
  atStage target k reports (fst (step (EvContext now ms) s)) /\
  snd (step (EvContext now ms) s) = [].
Proof.
  intros H. cbn [step fst snd].
  destruct (onContext_frame now ms s) as (b & p & -> & -> & _).
  split; [|done]. destruct s; exact H.
Qed.

Lemma atStage_contexts target k reports cs s :
  atStage target k reports s ->
  forallb isContextEvent cs = true ->
  atStage target k reports (fst (run cs s)) /\ snd (run cs s) = [].
Proof.
  revert s. induction cs as [|e cs IH]; intros s Hs Hall; [done|].
  cbn [forallb] in Hall. apply andb_true_iff in Hall as [He Hcs].
  destruct e as [now ms| | |]; try done.
  destruct (atStage_context target k reports now ms s Hs) as [H1 H2].
  destruct (IH _ H1 Hcs) as [H3 H4].
  rewrite run_cons_fst, run_cons_snd, H2, H4. done.
Qed.

End Runs.

(** ** Replacement texts *)

Section Substitution.

Variables matched before after : string.

Lemma getSubstitution_plain c r :
  isDollar c = false -> getSubstitution matched before after (String c r) = String c (getSubstitution matched before after r).
Proof. unfold isDollar. intros Hc. cbn [getSubstitution]. by rewrite Hc. Qed.

(** A piece without dollar sign is copied. *)
Lemma getSubstitution_literal lit rest :
  noDollar lit = true -> getSubstitution matched before after (lit +:+ rest) = lit +:+ getSubstitution matched before after rest.
Proof.
  unfold noDollar. induction lit as [|c r IH]; [done|].
  cbn [list_ascii_of_string forallb].
  intros [Hc Hr]%andb_true_iff. apply negb_true_iff in Hc.
  rewrite !append_cons, getSubstitution_plain by done. by rewrite IH.
Qed.

Lemma getSubstitution_last c :
  getSubstitution matched before after (String c "") = String c "".
Proof. cbn. by destruct (Ascii.eqb c "$"). Qed.

(** A dollar sign and the code unit after it. *)
Lemma getSubstitution_dollar c d r :
  Ascii.eqb c "$" = true ->
  getSubstitution matched before after (String c (String d r)) =
  if startsPattern d then
    if Ascii.eqb d "$" then
      String "$" (getSubstitution matched before after r)
    else if Ascii.eqb d "&" then
      matched +:+ getSubstitution matched before after r
    else if Ascii.eqb d "`" then
      before +:+ getSubstitution matched before after r
    else after +:+ getSubstitution matched before after r
  else String c (getSubstitution matched before after (String d r)).
Proof.
  intros Hc. unfold startsPattern.
  set (inner := getSubstitution matched before after (String d r)).
  cbn [getSubstitution]. rewrite Hc.
  destruct (Ascii.eqb d "$") eqn:Ed; [done|].
  destruct (Ascii.eqb d "&"); [done|].
  destruct (Ascii.eqb d "`"); [done|].
  destruct (Ascii.eqb d "'"); [done|].
  subst inner. cbn [getSubstitution orb]. by rewrite Ed.
Qed.

(** What follows a piece is substituted on its own when it starts no
    pattern with the end of the piece. *)
Lemma getSubstitution_app x rest :
  plainStart rest = true -> getSubstitution matched before after (x +:+ rest) = getSubstitution matched before after x +:+ getSubstitution matched before after rest.
Proof.
  intros Hrest. remember (String.length x) as n eqn:Hn. revert x Hn.
  induction n as [n IH] using lt_wf_ind. intros x Hn.
  destruct x as [|c r]; [done|].
  destruct (isDollar c) eqn:Hc.
  2:{ rewrite append_cons, !getSubstitution_plain by done.
      rewrite append_cons. f_equal.
      apply (IH (String.length r)); [cbn in Hn; lia | done]. }
  unfold isDollar in Hc.
  destruct r as [|d r'].
  - (* the piece ends with a dollar sign *)
    rewrite getSubstitution_last, !append_cons, !append_nil_l.
    destruct rest as [|e rest']; [by rewrite getSubstitution_last|].
    cbn [plainStart] in Hrest. apply negb_true_iff in Hrest.
    by rewrite getSubstitution_dollar, Hrest.
  - assert (IHr' : getSubstitution matched before after (r' +:+ rest) =
                   getSubstitution matched before after r' +:+
                   getSubstitution matched before after rest)
      by (apply (IH (String.length r')); [cbn in Hn; lia | done]).
    assert (IHr : getSubstitution matched before after (String d r' +:+ rest) =
                  getSubstitution matched before after (String d r') +:+
                  getSubstitution matched before after rest)
      by (apply (IH (String.length (String d r')));
          [cbn in Hn; cbn; lia | done]).
    rewrite !append_cons, !getSubstitution_dollar by done.
    rewrite append_cons in IHr.
    destruct (startsPattern d); [|by rewrite IHr, append_cons].
    destruct (Ascii.eqb d "$"); [by rewrite IHr', append_cons|].
    destruct (Ascii.eqb d "&"); [by rewrite IHr', append_assoc|].
    destruct (Ascii.eqb d "`"); [by rewrite IHr', append_assoc|].
    by rewrite IHr', append_assoc.
Qed.

End Substitution.

(** ** Occurrences *)

Section Occurs.

Lemma includes_occursIn needle s :
  includes needle s = true <-> occursIn needle s.
Proof.
  unfold occursIn. induction s as [|c r IH]; cbn [includes].
  - rewrite orb_false_r, startsWith_spec. split.
    + intros [rest H]. exists "", rest. done.
    + intros (pre & post & H). destruct pre; [eauto|done].
  - rewrite orb_true_iff, startsWith_spec, IH. split.
    + intros [[rest H] | (pre & post & H)].
      * exists "", rest. done.
      * exists (String c pre), post. by rewrite append_cons, H.
    + intros (pre & post & H). destruct pre as [|x pre].
      * left. eauto.
      * right. rewrite append_cons in H. injection H as -> ->. eauto.
Qed.

Lemma occursIn_here needle post : occursIn needle (needle +:+ post).
Proof. by exists "", post. Qed.

Lemma occursIn_append_r needle a s : occursIn needle s -> occursIn needle (a +:+ s).
Proof.
  intros (pre & post & ->). exists (a +:+ pre), post. by rewrite append_assoc.
Qed.

Lemma occursIn_append_l needle s b : occursIn needle s -> occursIn needle (s +:+ b).
Proof.
  intros (pre & post & ->). exists pre, (post +:+ b).
  by rewrite !append_assoc.
Qed.

End Occurs.

(** Where the pattern occurs, the replacement is put. *)
Lemma replaceAll_puts search repl s :
  isEmpty search = false ->
  includes search s = true ->
  exists before after out1 out2,
    replaceAll search repl s =
    out1 +:+ getSubstitution search before after repl +:+ out2.
Proof.
  intros Hne. unfold replaceAll. generalize "" as b.
  induction s as [|c r IH]; intros b Hin.
  - cbn in Hin. destruct search; done.
  - rewrite replaceAllFrom_cons by done. cbn [includes] in Hin.
    destruct (startsWith search (String c r)) eqn:Hs.
    + eexists b, _, "", _. reflexivity.
    + cbn [orb] in Hin.
      destruct (IH (b +:+ String c "") Hin) as (b' & a' & o1 & o2 & ->).
      exists b', a', (String c o1), o2. done.
Qed.

(** The result of [replaceAll] starts like the text, or like the
    replacement when the text starts with the pattern. *)
Lemma replaceAll_head search repl c r :
  isEmpty search = false ->
  exists rest,
    replaceAll search repl (String c r) =
    if startsWith search (String c r) then
      getSubstitution search ""
        (strDrop (String.length search) (String c r)) repl +:+ rest
    else String c rest.
Proof.
  intros Hne. unfold replaceAll. rewrite replaceAllFrom_cons by done.
  destruct (startsWith search (String c r)); eauto.
Qed.

Lemma renderVars_one template key value :
  renderVars template [(key, value)] =
  replaceAll ("{{" +:+ key +:+ "}}") value template.
Proof. reflexivity. Qed.

(** A template that is not empty, rendered with a value that starts with
    a code unit that is neither white space nor a dollar sign, is not
    blank. *)
Lemma rendered_not_blank template key c v :
  template <> "" -> trim template = template ->
  isWhiteSpace c = false -> isDollar c = false ->
  isEmpty (trim (renderVars template [(key, String c v)])) = false.
Proof.
  intros Hne Htrim Hws Hd. rewrite renderVars_one.
  destruct (trim_shape template) as [E | (a & r & E & Ha)];
    rewrite Htrim in E; [done|]. subst template.
  destruct (replaceAll_head ("{{" +:+ key +:+ "}}") (String c v) a r)
    as [rest ->]; [done|].
  destruct (startsWith _ (String a r)).
  - rewrite getSubstitution_plain by done. rewrite append_cons.
    by apply trim_head_nonempty.
  - by apply trim_head_nonempty.
Qed.

(** ** The scope and the reports *)

Lemma scope_head target :
  exists rest, trim (buildScopePrompt target) = String "Y" rest.
Proof.
  assert (Hc : exists tail, scopeCommon = String "Y" tail)
    by (eexists; vm_compute; reflexivity).
  destruct Hc as [tail Hc].
  assert (H : exists rest, buildScopePrompt target = String "Y" rest).
  { destruct target; unfold buildScopePrompt; rewrite Hc, append_cons; eauto. }
  destruct H as [rest ->]. rewrite trim_head by done. eauto.
Qed.

Lemma reportsTextOf_cons r rs :
  reportsTextOf (r :: rs) =
  reportBlock r +:+
  match rs with
  | [] => ""
  | _ => nl +:+ reportsTextOf rs
  end.
Proof.
  unfold reportsTextOf, join.
  destruct rs as [|r' rs]; cbn [map String.concat];
    [by rewrite append_nil_r | done].
Qed.

Lemma reportBlock_head r : exists rest, reportBlock r = String "#" rest.
Proof. unfold reportBlock. eexists. reflexivity. Qed.

Lemma reportsTextOf_head r rs :
  exists rest, reportsTextOf (r :: rs) = String "#" rest.
Proof.
  rewrite reportsTextOf_cons. destruct (reportBlock_head r) as [rest ->].
  rewrite append_cons. eauto.
Qed.

(** Every stage with a template compiles to a prompt that is not blank;
    the synthesis needs a report for that. *)
Lemma compiledPrompt_not_blank fs reports target stage :
  loadPromptText fs (promptName stage) <> "" ->
  (kind stage = synthesize -> reports <> []) ->
  isEmpty (trim (compiledPrompt fs reports target stage)) = false.
Proof.
  intros Hne Hrep. unfold compiledPrompt.
  pose proof (loadPromptText_trimmed fs (promptName stage)) as Htrim.
  destruct (kind stage).
  - destruct (scope_head target) as [rest ->].
    by apply rendered_not_blank.
  - destruct reports as [|r rs]; [by destruct Hrep|].
    destruct (reportsTextOf_head r rs) as [rest ->].
    by apply rendered_not_blank.
Qed.

(** The substituted reports show the label of each report, as long as no
    label holds a dollar sign. *)
Lemma reports_show_labels matched before after reports rep :
  Forall (fun r => noDollar (stageLabel r) = true) reports ->
  In rep reports ->
  occursIn (stageLabel rep)
    (getSubstitution matched before after (reportsTextOf reports)).
Proof.
  induction reports as [|r rs IH]; [done|].
  intros Hall Hin. apply Forall_cons in Hall as [Hr Hrs].
  rewrite reportsTextOf_cons. unfold reportBlock.
  rewrite !append_assoc.
  rewrite (getSubstitution_literal _ _ _ "## ") by done.
  rewrite (getSubstitution_literal _ _ _ (stageLabel r)) by done.
  destruct Hin as [<- | Hin].
  { apply occursIn_append_r, occursIn_here. }
  do 2 apply occursIn_append_r.
  rewrite (getSubstitution_literal _ _ _ nl) by done.
  rewrite (getSubstitution_literal _ _ _ nl) by done.
  rewrite (getSubstitution_literal _ _ _ "```") by done.
  rewrite (getSubstitution_literal _ _ _ nl) by done.
  do 4 apply occursIn_append_r.
  rewrite getSubstitution_app by done. apply occursIn_append_r.
  rewrite (getSubstitution_literal _ _ _ nl) by done.
  rewrite (getSubstitution_literal _ _ _ "```") by done.
  rewrite (getSubstitution_literal _ _ _ nl) by done.
  do 3 apply occursIn_append_r.
  destruct rs as [|r' rs]; [done|].
  rewrite (getSubstitution_literal _ _ _ nl) by done.
  apply occursIn_append_r, IH; done.
Qed.

(** ** One stage after the other *)

Lemma start_atStage fs host target s :
  suiteActive s = false ->
  isIdle host = true -> gitExitCode host = 0 ->
  resolvedTarget host = Some target ->
  loadPromptText fs "review-overall" <> "" ->
  atStage target 0 [] (fst (step (EvReview fs host) s)) /\
  sentPrompts (snd (step (EvReview fs host) s)) =
    [compiledPrompt fs [] target
       (mkStage review "overall" "review-overall" "Overall")].
Proof.
  intros Ha Hidle Hgit Htarget Htmpl. cbn [step fst snd].
  rewrite reviewCommand_run, Hidle, Hgit, Htarget, Ha. cbn [negb Z.eqb].
  cbv zeta. cbn [stateOf traceOf fst snd].
  rewrite sendCurrentStagePrompt_run. cbn [suiteTarget armedSuite].
  change (currentStageOf (armedSuite target))
    with (Some (mkStage review "overall" "review-overall" "Overall")).
  cbv beta iota zeta. rewrite stagePromptOf_compiled.
  cbn [suiteReports armedSuite].
  rewrite compiledPrompt_not_blank by done.
  unfold stateOf, traceOf. cbn [fst snd]. split; [done|].
  rewrite sentPrompts_notify, sentPrompts_app, sentPrompts_status. done.
Qed.

Lemma agentEnd_atStage fs messages target k reports s stage next :
  atStage target k reports s ->
  0 <= k ->
  DEFAULT_SUITE_STAGES !! Z.to_nat k = Some stage ->
  kind stage = review ->
  DEFAULT_SUITE_STAGES !! Z.to_nat (k + 1) = Some next ->
  getLastAssistantText (default [] messages) <> "" ->
  loadPromptText fs (promptName next) <> "" ->
  let reports' :=
    reports ++ [reportOf stage (getLastAssistantText (default [] messages))] in
  atStage target (k + 1) reports' (fst (step (EvAgentEnd fs messages) s)) /\
  sentPrompts (snd (step (EvAgentEnd fs messages) s)) =
    [compiledPrompt fs reports' target next].
Proof.
  intros (Ha & Ht & Hx & Hr & Hf) Hk Hstage Hkind Hnext Htxt Htmpl reports'.
  assert (Hcur : currentStageOf s = Some stage).
  { unfold currentStageOf, at_index. rewrite Hx.
    destruct (k <? 0) eqn:E; [lia | done]. }
  assert (Hlt : k + 1 < 4).
  { apply lookup_lt_Some in Hnext. cbn in Hnext. lia. }
  cbn [step fst snd]. rewrite onAgentEnd_run, Ha, Hcur. cbn [negb]. cbv zeta.
  apply isEmpty_false in Htxt. rewrite Htxt.
  destruct (suiteStageIndex s + 1 >=? 4) eqn:E.
  { rewrite Z.geb_leb in E. apply Z.leb_le in E. lia. }
  rewrite advanced_review by done. fold (reportOf stage
    (getLastAssistantText (default [] messages))).
  rewrite Hr, Hx. fold reports'.
  rewrite sendCurrentStagePrompt_run. destruct s as [a t i r f b p].
  cbn in Ha, Ht, Hx, Hr, Hf. subst.
  unfold set_suiteStageIndex, set_suiteReports.
  cbn [suiteTarget suiteActive suiteStageIndex suiteReports suiteFreshContext
       suiteBoundaryCount boundaryNeedsCapture].
  assert (Hcur' : forall b0 p0,
            currentStageOf (mkSuite true (Some target) (k + 1) reports' true b0 p0)
            = Some next).
  { intros. unfold currentStageOf, at_index. cbn [suiteStageIndex].
    destruct (k + 1 <? 0) eqn:E'; [lia | done]. }
  rewrite Hcur'. cbv beta iota zeta.
  rewrite stagePromptOf_compiled. cbn [suiteReports].
  rewrite compiledPrompt_not_blank; [| done |].
  2:{ intros _. unfold reports'. by destruct reports. }
  unfold stateOf, traceOf. cbn [fst snd]. split; [done|].
  rewrite sentPrompts_app, sentPrompts_status. done.
Qed.

(** C2, as the code has it. Take a run started from the initial suite on
    a file system where every stage has a template, let the agent
    complete three turns with some text each, with any number of context
    events around them: the run is active at stage index 3 with three
    reports, four prompts have been sent, the fourth is the synthesis
    template rendered with the three reports, and when that template
    holds the placeholder [{{REPORTS}}] the fourth prompt shows the label
    of each report. *)
Theorem three_reviews_then_synthesis
    fs host target m1 m2 m3 c0 c1 c2 c3 :
  isIdle host = true -> gitExitCode host = 0 ->
  resolvedTarget host = Some target ->
  (forall stage, In stage DEFAULT_SUITE_STAGES ->
                 loadPromptText fs (promptName stage) <> "") ->
  forallb isContextEvent (c0 ++ c1 ++ c2 ++ c3) = true ->
  getLastAssistantText (default [] m1) <> "" ->
  getLastAssistantText (default [] m2) <> "" ->
  getLastAssistantText (default [] m3) <> "" ->
  let r :=
    run (EvReview fs host :: c0 ++
         EvAgentEnd fs m1 :: c1 ++
         EvAgentEnd fs m2 :: c2 ++
         EvAgentEnd fs m3 :: c3) initialSuite in
  suiteActive (fst r) = true /\
  length (suiteReports (fst r)) = 3%nat /\
  suiteStageIndex (fst r) = 3 /\
  exists p1 p2 p3 p4,
    sentPrompts (snd r) = [p1; p2; p3; p4] /\
    p4 = renderVars (loadPromptText fs "review-synthesize")
           [("REPORTS", reportsTextOf (suiteReports (fst r)))] /\
    (includes "{{REPORTS}}" (loadPromptText fs "review-synthesize") = true ->
     forall rep, In rep (suiteReports (fst r)) ->
                 includes (stageLabel rep) p4 = true).
Proof.
  intros Hidle Hgit Htarget Htmpl Hctx Ht1 Ht2 Ht3 r.
  rewrite !forallb_app in Hctx.
  apply andb_true_iff in Hctx as [Hc0 Hctx].
  apply andb_true_iff in Hctx as [Hc1 Hctx].
  apply andb_true_iff in Hctx as [Hc2 Hc3].
  assert (Hin : forall n stage, DEFAULT_SUITE_STAGES !! n = Some stage ->
                                loadPromptText fs (promptName stage) <> "").
  { intros n stage H. apply Htmpl. apply list_elem_of_In.
    by apply list_elem_of_lookup_2 in H. }
  (* the start *)
  destruct (start_atStage fs host target initialSuite eq_refl Hidle Hgit
              Htarget (Hin 0%nat _ eq_refl)) as [A0 P0].
  destruct (atStage_contexts _ _ _ c0 _ A0 Hc0) as [A0' Q0].
  (* the three turns *)
  destruct (agentEnd_atStage fs m1 target 0 [] _ _ _ A0' ltac:(lia)
              eq_refl eq_refl eq_refl Ht1 (Hin 1%nat _ eq_refl)) as [A1 P1].
  destruct (atStage_contexts _ _ _ c1 _ A1 Hc1) as [A1' Q1].
  destruct (agentEnd_atStage fs m2 target 1 _ _ _ _ A1' ltac:(lia)
              eq_refl eq_refl eq_refl Ht2 (Hin 2%nat _ eq_refl)) as [A2 P2].
  destruct (atStage_contexts _ _ _ c2 _ A2 Hc2) as [A2' Q2].
  destruct (agentEnd_atStage fs m3 target 2 _ _ _ _ A2' ltac:(lia)
              eq_refl eq_refl eq_refl Ht3 (Hin 3%nat _ eq_refl)) as [A3 P3].
  destruct (atStage_contexts _ _ _ c3 _ A3 Hc3) as [A3' Q3].
  (* the run is the composition of these steps *)
  assert (Hfst : fst r = fst (run c3 (fst (step (EvAgentEnd fs m3)
            (fst (run c2 (fst (step (EvAgentEnd fs m2)
            (fst (run c1 (fst (step (EvAgentEnd fs m1)
            (fst (run c0 (fst (step (EvReview fs host) initialSuite)))))))))))))))).
  { unfold r.
    rewrite run_cons_fst, run_app_fst, run_cons_fst, run_app_fst,
      run_cons_fst, run_app_fst, run_cons_fst. done. }
  assert (Hsnd : sentPrompts (snd r) =
    [ compiledPrompt fs [] target
        (mkStage review "overall" "review-overall" "Overall");
      compiledPrompt fs
        [reportOf (mkStage review "overall" "review-overall" "Overall")
           (getLastAssistantText (default [] m1))]
        target (mkStage review "linus" "review-linus" "Linus");
      compiledPrompt fs
        [reportOf (mkStage review "overall" "review-overall" "Overall")
           (getLastAssistantText (default [] m1));
         reportOf (mkStage review "linus" "review-linus" "Linus")
           (getLastAssistantText (default [] m2))]
        target (mkStage review "staff" "review-staff" "Staff");
      compiledPrompt fs
        [reportOf (mkStage review "overall" "review-overall" "Overall")
           (getLastAssistantText (default [] m1));
         reportOf (mkStage review "linus" "review-linus" "Linus")
           (getLastAssistantText (default [] m2));
         reportOf (mkStage review "staff" "review-staff" "Staff")
           (getLastAssistantText (default [] m3))]
        target
        (mkStage synthesize "synthesize" "review-synthesize" "Synthesis") ]).
  { unfold r.
    rewrite run_cons_snd, run_app_snd, run_cons_snd, run_app_snd,
      run_cons_snd, run_app_snd, run_cons_snd.
    rewrite !sentPrompts_app, P0, Q0, P1, Q1, P2, Q2, P3, Q3. done. }
  rewrite Hfst, Hsnd. clear Hfst Hsnd.
  destruct A3' as (Ha & _ & Hx & Hr & _). rewrite Ha, Hx, Hr.
  repeat split; try done.
  eexists _, _, _, _. split; [reflexivity|]. split; [reflexivity|].
  intros Hph rep Hrep. apply includes_occursIn.
  unfold compiledPrompt. cbn [kind promptName]. rewrite renderVars_one.
  destruct (replaceAll_puts "{{REPORTS}}"
              (reportsTextOf
                 [reportOf (mkStage review "overall" "review-overall" "Overall")
                    (getLastAssistantText (default [] m1));
                  reportOf (mkStage review "linus" "review-linus" "Linus")
                    (getLastAssistantText (default [] m2));
                  reportOf (mkStage review "staff" "review-staff" "Staff")
                    (getLastAssistantText (default [] m3))])
              (loadPromptText fs "review-synthesize") eq_refl Hph)
    as (before & after & out1 & out2 & E).
  change ("{{" +:+ "REPORTS" +:+ "}}") with "{{REPORTS}}". rewrite E.
  apply occursIn_append_r, occursIn_append_l.
  apply reports_show_labels; [|done].
  repeat constructor.
Qed.

Lemma three_reviews_then_synthesis_witness :
  let r := run (EvReview packagedFs stagedHost ::
                [EvContext 1000 (Some [U0; A0; U1])] ++
                EvAgentEnd packagedFs (Some [U0; A0; U1; A1]) ::
                [EvContext 2000 (Some [U0; A0; U1; A1; U2])] ++
                EvAgentEnd packagedFs (Some [U0; A0; U1; A1; U2; A2]) ::
                [] ++
                EvAgentEnd packagedFs
                  (Some [assistantTurn "Add a rollout plan." 107]) :: [])
             initialSuite in
  suiteActive (fst r) = true /\
  length (suiteReports (fst r)) = 3%nat /\
  suiteStageIndex (fst r) = 3.
Proof.
  intros r.
  destruct (three_reviews_then_synthesis packagedFs stagedHost staged
              (Some [U0; A0; U1; A1]) (Some [U0; A0; U1; A1; U2; A2])
              (Some [assistantTurn "Add a rollout plan." 107])
              [EvContext 1000 (Some [U0; A0; U1])]
              [EvContext 2000 (Some [U0; A0; U1; A1; U2])] [] [])
    as (Ha & Hn & Hx & _).
  - reflexivity.
  - reflexivity.
  - reflexivity.
  - intros stage [<- | [<- | [<- | [<- | []]]]]; vm_compute; discriminate.
  - reflexivity.
  - vm_compute. discriminate.
  - vm_compute. discriminate.
  - vm_compute. discriminate.
  - split; [exact Ha | split; [exact Hn | exact Hx]].
Defined.

(** C2 as the specification states it fails on two file systems. Where the
    template of the second stage is missing, the first completed turn
    ends the run, and after three turns the suite holds no report at
    stage index 0. Where the user's synthesis template has no
    placeholder, the three reports are there but the fourth prompt is
    that template, which shows none of their labels. *)
Lemma three_turns_without_templates :
  (let r := run (threeTurns noLinusFs) initialSuite in
   length (suiteReports (fst r)) = 0%nat /\ suiteStageIndex (fst r) = 0) /\
  (let r := run (threeTurns overrideFs) initialSuite in
   length (suiteReports (fst r)) = 3%nat /\
   suiteStageIndex (fst r) = 3 /\
   last (sentPrompts (snd r)) =
     Some "Merge the three reviews above into one." /\
   includes "Overall" "Merge the three reviews above into one." = false).
Proof. vm_compute. repeat split; reflexivity. Qed.

(* ===================================================================== *)
(** * The redaction filter *)
(* ===================================================================== *)

(** At stage 0 the filter returns before it looks at the boundary, so it
    records nothing there. *)
Lemma context_skips_stage_zero now messages s :
  suiteStageIndex s = 0 -> onContext now messages s = (None, s, []).
Proof.
  intros Hx. destruct s as [a t i r f b p]. cbn in Hx. subst i.
  unfold onContext. unfold_monad. cbn [suiteActive suiteFreshContext].
  destruct a, f; reflexivity.
Qed.

(** Past stage 0, the invocation that records the boundary records the
    position of the last user turn it is given, which is the prompt of
    the stage under way, and hides nothing. *)
Lemma boundary_recorded_at_current_prompt now messages s stage k :
  suiteActive s = true -> suiteFreshContext s = true ->
  currentStageOf s = Some stage -> kind stage = review ->
  suiteStageIndex s <> 0 ->
  boundaryNeedsCapture s = true ->
  scanLastUser messages (length messages) = Some k ->
  onContext now (Some messages) s =
    (None,
     set_boundaryNeedsCapture false (set_suiteBoundaryCount (Z.of_nat k) s),
     []).
Proof.
  intros Ha Hf Hst Hk Hx Hp Hscan.
  destruct s as [a t i r f b p]. cbn in Ha, Hf, Hx, Hp. subst a f p.
  unfold onContext. unfold_monad. cbn [suiteActive suiteFreshContext negb orb].
  unfold currentStage. unfold_monad. rewrite Hst, Hk.
  cbn [suiteStageIndex]. destruct (Z.eqb_spec i 0) as [|_]; [done|].
  destruct messages as [|m ms]; [done|].
  cbn [boundaryNeedsCapture]. rewrite Hscan.
  cbn -[scanLastUser slice Z.of_nat "<?" ">=?"].
  destruct (Z.ltb_spec (Z.of_nat k) 0) as [|_]; [lia|].
  rewrite Z.geb_leb, Z.leb_refl. reflexivity.
Qed.

(** With the boundary at the last user turn before the suite, the filter
    keeps what precedes it, the notice and the current prompt. *)
Lemma redaction_from_suite_start target reports now :
  onContext now (Some [U0; A0; U1; A1; U2; A2; U3])
    (mkSuite true (Some target) 2 reports true 2 false) =
  (Some [U0; A0; freshEyesNotice staffStage now; U3],
   mkSuite true (Some target) 2 reports true 2 false, []).
Proof. reflexivity. Qed.

(** The invocation that records the boundary hides nothing: the
    boundary is the last user turn, and so is the current prompt. In the
    run of the example the second stage sees the answer of the first. *)
Lemma redaction_skips_second_stage :
  let s := fst (run (take 3 redactionRun) initialSuite) in
  suiteStageIndex s = 1 /\
  boundaryNeedsCapture s = true /\
  onContext 2000 (Some [U0; A0; U1; A1; U2]) s =
    (None,
     set_boundaryNeedsCapture false (set_suiteBoundaryCount 4 s), []).
Proof. vm_compute. repeat split; reflexivity. Qed.

(** C1, on the code. In the run of the example the boundary is recorded
    at the first context event past stage 0, where the last user turn is
    the prompt of stage 1 at position 4; at stage 2 the filter therefore
    keeps the prompt and the answer of stage 0 and drops only those of
    stage 1. *)
Theorem redaction_keeps_first_stage :
  let s := fst (run redactionRun initialSuite) in
  suiteActive s = true /\
  suiteStageIndex s = 2 /\
  suiteBoundaryCount s = 4 /\
  valueOf (onContext 3000 (Some [U0; A0; U1; A1; U2; A2; U3]) s) =
    Some [U0; A0; U1; A1; freshEyesNotice staffStage 3000; U3] /\
  valueOf (onContext 3000 (Some [U0; A0; U1; A1; U2; A2; U3]) s) <>
    Some [U0; A0; freshEyesNotice staffStage 3000; U3].
Proof. vm_compute. repeat split; try reflexivity. discriminate. Qed.

(* ===================================================================== *)
(** * More on trimming *)
(* ===================================================================== *)

Lemma isBlank_cons c r :
  isBlank (String c r) = isWhiteSpace c && isBlank r.
Proof. reflexivity. Qed.

Lemma isBlank_append a b : isBlank (a +:+ b) = isBlank a && isBlank b.
Proof.
  induction a as [|c r IH]; [done|].
  rewrite append_cons, !isBlank_cons, IH. by rewrite andb_assoc.
Qed.

Lemma trimEnd_blank s : isBlank s = true -> trimEnd s = "".
Proof.
  induction s as [|c r IH]; [done|].
  rewrite isBlank_cons. intros [Hc Hr]%andb_true_iff.
  rewrite trimEnd_cons, (IH Hr), Hc. done.
Qed.

Lemma trimEnd_empty_blank s : trimEnd s = "" -> isBlank s = true.
Proof.
  induction s as [|c r IH]; [done|].
  rewrite trimEnd_cons, isBlank_cons.
  destruct (isEmpty (trimEnd r)) eqn:E; [|done].
  apply isEmpty_true in E. rewrite (IH E).
  by destruct (isWhiteSpace c).
Qed.

Lemma trimStart_pad a s : isBlank a = true -> trimStart (a +:+ s) = trimStart s.
Proof.
  induction a as [|c r IH]; [done|].
  rewrite isBlank_cons, append_cons. intros [Hc Hr]%andb_true_iff.
  cbn [trimStart]. rewrite Hc. auto.
Qed.

(** What [trimEnd] does to a text is decided by its end. *)
Lemma trimEnd_append a x :
  trimEnd (a +:+ x) =
  if isEmpty (trimEnd x) then trimEnd a else a +:+ trimEnd x.
Proof.
  induction a as [|c r IH].
  - rewrite !append_nil_l. by destruct (trimEnd x).
  - rewrite append_cons, !trimEnd_cons, IH.
    destruct (isEmpty (trimEnd x)) eqn:E; [done|].
    rewrite append_cons.
    destruct (r +:+ trimEnd x) eqn:E2; [|done].
    destruct r; [|done]. rewrite append_nil_l in E2. by rewrite E2 in E.
Qed.

Lemma trimEnd_pad s b : isBlank b = true -> trimEnd (s +:+ b) = trimEnd s.
Proof. intros H. by rewrite trimEnd_append, trimEnd_blank. Qed.

(** The two halves of [trim] can be taken in either order. *)
Lemma trimStart_trimEnd s : trimStart (trimEnd s) = trimEnd (trimStart s).
Proof.
  induction s as [|c r IH]; [done|].
  rewrite trimEnd_cons. cbn [trimStart].
  destruct (isWhiteSpace c) eqn:Hc.
  - destruct (isEmpty (trimEnd r)) eqn:E; cbn [andb].
    + apply isEmpty_true in E. rewrite <- IH, E. done.
    + cbn [trimStart]. by rewrite Hc.
  - rewrite andb_false_r. cbn [trimStart]. rewrite Hc.
    by rewrite trimEnd_cons, Hc, andb_false_r.
Qed.

(** White space around a text does not change what [trim] gives. *)
Lemma trim_pad a s b :
  isBlank a = true -> isBlank b = true -> trim (a +:+ s +:+ b) = trim s.
Proof.
  intros Ha Hb. unfold trim.
  rewrite trimStart_pad by done.
  rewrite <- !trimStart_trimEnd. by rewrite trimEnd_pad.
Qed.

Lemma trim_empty_blank s : trim s = "" <-> isBlank s = true.
Proof.
  split; [|apply trim_blank].
  unfold trim. rewrite <- trimStart_trimEnd. intros H.
  destruct (trimStart_head (trimEnd s)) as [_ | (c & r & E & Hc)];
    [|by rewrite H in E].
  destruct (trim_shape s) as [E | (c & r & E & Hc)].
  - unfold trim in E. rewrite <- trimStart_trimEnd in E.
    clear H. revert E. generalize (trimEnd_empty_blank s).
    destruct (trimEnd s) as [|d t] eqn:Et; [auto|].
    intros _ Hts.
    (* the trimmed end is not empty, so its last code unit is no white
       space; a blank text has none *)
    assert (Hb : isBlank (String d t) = true).
    { clear Et. revert Hts. generalize (String d t). intros u.
      induction u as [|x u IH]; [done|]. cbn [trimStart].
      destruct (isWhiteSpace x) eqn:Hx; [|done].
      intros Hu. rewrite isBlank_cons, Hx. cbn. auto. }
    rewrite <- Et in Hb. apply trimEnd_blank in Hb.
    rewrite trimEnd_idem in Hb. congruence.
  - unfold trim in E. rewrite <- trimStart_trimEnd, H in E. done.
Qed.

(* ===================================================================== *)
(** * The arguments of the command *)
(* ===================================================================== *)

Lemma clampInt_bounds value min max :
  min <= max -> min <= clampInt value min max <= max.
Proof. unfold clampInt. lia. Qed.

(** X1. With bounds in order, [clampInt] brings any value into the
    range, does nothing more when applied again, and leaves a value as
    it is exactly when the value is in the range. *)
Theorem clampInt_range value min max :
  min <= max ->
  min <= clampInt value min max <= max /\
  clampInt (clampInt value min max) min max = clampInt value min max /\
  (clampInt value min max = value <-> min <= value <= max).
Proof. unfold clampInt. lia. Qed.

Lemma clampInt_range_witness :
  10 <= clampInt 1000 10 200 <= 200 /\ clampInt 1000 10 200 = 200.
Proof.
  destruct (clampInt_range 1000 10 200) as (H & _ & _); [lia|].
  split; [exact H | reflexivity].
Defined.

Section Digits.

Lemma numberOfDigits_from acc l :
  fold_left (fun a c => 10 * a + digitValue c) l acc =
  acc * 10 ^ Z.of_nat (length l) +
  fold_left (fun a c => 10 * a + digitValue c) l 0.
Proof.
  revert acc. induction l as [|c l IH]; intros acc.
  - cbn. lia.
  - cbn [fold_left length]. rewrite IH, (IH (10 * 0 + digitValue c)).
    rewrite Nat2Z.inj_succ, Z.pow_succ_r by lia. lia.
Qed.

Lemma numberOfDigits_cons c s :
  numberOfDigits (String c s) =
  digitValue c * 10 ^ Z.of_nat (String.length s) + numberOfDigits s.
Proof.
  unfold numberOfDigits. cbn [list_ascii_of_string fold_left].
  rewrite numberOfDigits_from, length_list_of_string. lia.
Qed.

Lemma digitValue_range c : isDigit c = true -> 0 <= digitValue c <= 9.
Proof.
  unfold isDigit, digitValue. intros [H1 H2]%andb_true_iff.
  apply Nat.leb_le in H1, H2. lia.
Qed.

Lemma numberOfDigits_nonneg s : allDigits s = true -> 0 <= numberOfDigits s.
Proof.
  unfold allDigits. induction s as [|c r IH]; [done|].
  cbn [list_ascii_of_string forallb]. intros [Hc Hr]%andb_true_iff.
  rewrite numberOfDigits_cons. pose proof (digitValue_range c Hc).
  specialize (IH Hr).
  assert (0 <= 10 ^ Z.of_nat (String.length r)) by (apply Z.pow_nonneg; lia).
  nia.
Qed.

(** A greedy run of digits holds digits only, and takes a text of
    digits whole. *)
Lemma span_run f s : forallb f (list_ascii_of_string (fst (span f s))) = true.
Proof.
  induction s as [|c r IH]; [done|]. cbn [span].
  destruct (f c) eqn:Hc; [|done].
  destruct (span f r) as [run rest]. cbn in *. by rewrite Hc.
Qed.

Lemma span_all f s :
  forallb f (list_ascii_of_string s) = true -> span f s = (s, "").
Proof.
  induction s as [|c r IH]; [done|]. cbn [list_ascii_of_string forallb].
  intros [Hc Hr]%andb_true_iff. cbn [span]. by rewrite Hc, (IH Hr).
Qed.

Lemma span_split f s : fst (span f s) +:+ snd (span f s) = s.
Proof.
  induction s as [|c r IH]; [done|]. cbn [span].
  destruct (f c); [|done].
  destruct (span f r) as [run rest]. cbn in *. by rewrite append_cons, IH.
Qed.

(** The decimal rendering of a number: digits only, and read back by
    [numberOfDigits]. *)
Lemma pretty_N_char_digit k :
  (k < 10)%N ->
  isDigit (pretty_N_char k) = true /\
  digitValue (pretty_N_char k) = Z.of_N k.
Proof.
  intros Hk.
  assert (k = 0 \/ k = 1 \/ k = 2 \/ k = 3 \/ k = 4 \/ k = 5 \/ k = 6 \/
          k = 7 \/ k = 8 \/ k = 9)%N as H by lia.
  repeat destruct H as [-> | H]; try subst k; split; reflexivity.
Qed.

Lemma pretty_N_go_digits x s :
  allDigits s = true ->
  allDigits (pretty_N_go x s) = true /\
  numberOfDigits (pretty_N_go x s) =
    Z.of_N x * 10 ^ Z.of_nat (String.length s) + numberOfDigits s.
Proof.
  revert s. induction (N.lt_wf_0 x) as [x _ IH]. intros s Hs.
  destruct (N.eq_dec x 0%N) as [-> | Hx].
  - rewrite pretty_N_go_0. split; [done | lia].
  - rewrite pretty_N_go_step by lia.
    destruct (pretty_N_char_digit (x `mod` 10)%N) as [Hd Hv].
    { apply N.mod_lt. lia. }
    destruct (IH (x `div` 10)%N) with
      (s := String (pretty_N_char (x `mod` 10)) s) as [H1 H2].
    + apply N.div_lt; lia.
    + unfold allDigits in *. cbn [list_ascii_of_string forallb].
      by rewrite Hd, Hs.
    + split; [exact H1|]. rewrite H2, numberOfDigits_cons, Hv.
      cbn [String.length]. rewrite Nat2Z.inj_succ, Z.pow_succ_r by lia.
      rewrite (N.div_mod x 10) at 3 by lia.
      rewrite N2Z.inj_add, N2Z.inj_mul. change (Z.of_N 10) with 10. lia.
Qed.

Lemma pretty_N_digits (x : N) :
  allDigits (pretty x) = true /\ numberOfDigits (pretty x) = Z.of_N x /\
  pretty x <> "".
Proof.
  unfold pretty, pretty_N. destruct (decide (x = 0%N)) as [-> | Hx].
  - repeat split; done.
  - destruct (pretty_N_go_digits x "" eq_refl) as [H1 H2].
    repeat split; [done | rewrite H2; cbn; lia |].
    intros E. rewrite E in H2. cbn in H2. lia.
Qed.

Lemma numberToString_digits n :
  0 <= n ->
  allDigits (numberToString n) = true /\
  numberOfDigits (numberToString n) = n /\
  numberToString n <> "".
Proof.
  intros Hn. unfold numberToString, pretty, pretty_Z.
  destruct n as [|p|p]; [repeat split; done | | lia].
  change (pretty p) with (pretty (N.pos p)).
  destruct (pretty_N_digits (N.pos p)) as (H1 & H2 & H3).
  repeat split; done.
Qed.

End Digits.

Section ParseArgs.

Lemma parseArgs_trim s : parseArgs (trim s) = parseArgs s.
Proof. unfold parseArgs. by rewrite trim_idem. Qed.

Lemma matchPr_digits args digits :
  matchPr args = Some digits -> allDigits digits = true.
Proof.
  unfold matchPr.
  set (body := match args with
               | "" => args
               | String c r => if Ascii.eqb c "#" then r else args
               end).
  pose proof (span_run isDigit body) as Hrun.
  destruct (span isDigit body) as [ds rest]. cbn in Hrun.
  destruct (negb (isEmpty ds) && isEmpty rest); [|done].
  by intros [= <-].
Qed.

End ParseArgs.

(** X2. Whatever the arguments, a parsed request for the commit picker
    has a limit between 10 and 200, a parsed PR number is not negative,
    and [parseArgs] never yields a commit range by itself. *)
Theorem parseArgs_well_formed args :
  match parseArgs args with
  | Some (recentPicker limit) => 10 <= limit <= 200
  | Some (Parsed (pr n)) => 0 <= n
  | Some (Parsed (recent _)) => False
  | _ => True
  end.
Proof.
  unfold parseArgs.
  destruct (isEmpty (trim args)); [done|].
  destruct (isWord "staged" (trim args) || isWord "stage" (trim args));
    [done|].
  destruct (isWord "worktree" (trim args) || isWord "wt" (trim args)
            || isWord "working-tree" (trim args)); [done|].
  destruct (matchRecent (trim args)) as [capture|].
  - apply (clampInt_bounds _ 10 200). lia.
  - destruct (matchPr (trim args)) as [digits|] eqn:E; [|done].
    apply numberOfDigits_nonneg. by apply matchPr_digits in E.
Qed.

Section IgnoreCase.

Lemma canonicalize_idem c : canonicalize (canonicalize c) = canonicalize c.
Proof. destruct c as [[] [] [] [] [] [] [] []]; reflexivity. Qed.

Lemma canonicalize_space c : isWhiteSpace (canonicalize c) = isWhiteSpace c.
Proof. destruct c as [[] [] [] [] [] [] [] []]; reflexivity. Qed.

Lemma canonicalize_digit c : isDigit (canonicalize c) = isDigit c.
Proof. destruct c as [[] [] [] [] [] [] [] []]; reflexivity. Qed.

Lemma canonicalize_of_digit c : isDigit c = true -> canonicalize c = c.
Proof. destruct c as [[] [] [] [] [] [] [] []]; done. Qed.

Lemma canonicalize_hash c : Ascii.eqb (canonicalize c) "#" = Ascii.eqb c "#".
Proof. destruct c as [[] [] [] [] [] [] [] []]; reflexivity. Qed.

Lemma canonical_idem s : canonical (canonical s) = canonical s.
Proof.
  induction s as [|c r IH]; [done|]. cbn. by rewrite canonicalize_idem, IH.
Qed.

Lemma canonical_isEmpty s : isEmpty (canonical s) = isEmpty s.
Proof. by destruct s. Qed.

Lemma canonical_trimStart s : trimStart (canonical s) = canonical (trimStart s).
Proof.
  induction s as [|c r IH]; [done|]. cbn. rewrite canonicalize_space.
  by destruct (isWhiteSpace c).
Qed.

Lemma canonical_trimEnd s : trimEnd (canonical s) = canonical (trimEnd s).
Proof.
  induction s as [|c r IH]; [done|].
  cbn [canonical]. rewrite !trimEnd_cons, IH, canonical_isEmpty,
    canonicalize_space.
  by destruct (isEmpty (trimEnd r) && isWhiteSpace c).
Qed.

Lemma canonical_trim s : trim (canonical s) = canonical (trim s).
Proof. unfold trim. by rewrite canonical_trimStart, canonical_trimEnd. Qed.

Lemma canonical_strDrop n s : strDrop n (canonical s) = canonical (strDrop n s).
Proof. revert s. induction n as [|n IH]; intros [|c r]; cbn; auto. Qed.

Lemma canonical_span f s :
  (forall c, f (canonicalize c) = f c) ->
  span f (canonical s) =
  (canonical (fst (span f s)), canonical (snd (span f s))).
Proof.
  intros Hf. induction s as [|c r IH]; [done|].
  cbn [canonical span]. rewrite Hf. destruct (f c); [|done].
  rewrite IH. by destruct (span f r).
Qed.

Lemma canonical_digits s : allDigits s = true -> canonical s = s.
Proof.
  unfold allDigits. induction s as [|c r IH]; [done|].
  cbn [list_ascii_of_string forallb canonical].
  intros [Hc Hr]%andb_true_iff. by rewrite canonicalize_of_digit, IH.
Qed.

Lemma isWord_canonical w s : isWord w (canonical s) = isWord w s.
Proof. unfold isWord. by rewrite canonical_idem. Qed.

Lemma startsWithWord_canonical w s :
  startsWithWord w (canonical s) = startsWithWord w s.
Proof. unfold startsWithWord. by rewrite canonical_idem. Qed.

Lemma matchRecent_canonical s : matchRecent (canonical s) = matchRecent s.
Proof.
  unfold matchRecent. rewrite startsWithWord_canonical.
  destruct (startsWithWord "recent" s); [|done].
  rewrite canonical_strDrop, canonical_isEmpty.
  destruct (isEmpty (strDrop 6 s)); [done|].
  rewrite (canonical_span isWhiteSpace) by apply canonicalize_space.
  destruct (span isWhiteSpace (strDrop 6 s)) as [spaces rest1].
  cbn [fst snd].
  rewrite (canonical_span isDigit) by apply canonicalize_digit.
  pose proof (span_run isDigit rest1) as Hrun.
  destruct (span isDigit rest1) as [digits rest2]. cbn [fst snd] in *.
  rewrite !canonical_isEmpty, (canonical_digits digits); done.
Qed.

Lemma matchPr_canonical s : matchPr (canonical s) = matchPr s.
Proof.
  unfold matchPr.
  assert (E : match canonical s with
              | "" => canonical s
              | String c r => if Ascii.eqb c "#" then r else canonical s
              end =
              canonical match s with
                        | "" => s
                        | String c r => if Ascii.eqb c "#" then r else s
                        end).
  { destruct s as [|c r]; [done|]. cbn [canonical].
    rewrite canonicalize_hash. by destruct (Ascii.eqb c "#"). }
  rewrite E. rewrite (canonical_span isDigit) by apply canonicalize_digit.
  match goal with |- context [span isDigit ?b] =>
    pose proof (span_run isDigit b) as Hrun;
    destruct (span isDigit b) as [digits rest] end.
  cbn [fst snd] in *.
  rewrite !canonical_isEmpty, (canonical_digits digits); done.
Qed.

End IgnoreCase.

(** X3. [parseArgs] does not look at white space around its argument nor
    at the case of its letters. *)
Theorem parseArgs_padding_and_case before args after :
  isBlank before = true -> isBlank after = true ->
  parseArgs (before +:+ args +:+ after) = parseArgs args /\
  parseArgs (canonical args) = parseArgs args.
Proof.
  intros Hb Ha. split.
  - rewrite <- parseArgs_trim, trim_pad by done. apply parseArgs_trim.
  - unfold parseArgs. rewrite canonical_trim, canonical_isEmpty,
      !isWord_canonical, matchRecent_canonical, matchPr_canonical. done.
Qed.

Lemma parseArgs_padding_and_case_witness :
  parseArgs ("  " +:+ "Recent 12" +:+ nl) = Some (recentPicker 12) /\
  parseArgs (canonical "Recent 12") = Some (recentPicker 12).
Proof.
  destruct (parseArgs_padding_and_case "  " "Recent 12" nl) as [H1 H2];
    [reflexivity | reflexivity |].
  rewrite H1, H2. split; vm_compute; reflexivity.
Defined.

(** X4. The decimal rendering of a PR number below [2^53], with or
    without a leading [#], is parsed back to that PR. *)
Theorem parseArgs_pr_round_trip n :
  0 <= n <= MAX_SAFE_INTEGER ->
  parseArgs (numberToString n) = Some (Parsed (pr n)) /\
  parseArgs ("#" +:+ numberToString n) = Some (Parsed (pr n)).
Proof.
  intros [Hn _].
  destruct (numberToString_digits n Hn) as (Hd & Hv & Hne).
  destruct (numberToString n) as [|c r] eqn:E; [done|].
  assert (Hc : isDigit c = true).
  { unfold allDigits in Hd. cbn in Hd. by apply andb_true_iff in Hd as [-> _]. }
  assert (Hws : forall x, isDigit x = true -> isWhiteSpace x = false).
  { intros x. destruct x as [[] [] [] [] [] [] [] []]; done. }
  assert (HtrimEnd : forall u, allDigits u = true -> trimEnd u = u).
  { intros u. unfold allDigits. induction u as [|x u IH]; [done|].
    cbn [list_ascii_of_string forallb]. intros [Hx Hu]%andb_true_iff.
    by rewrite trimEnd_cons, (Hws x Hx), andb_false_r, IH. }
  assert (Htrim : forall u, allDigits u = true -> trim u = u).
  { intros u Hu. pose proof (HtrimEnd u Hu) as He.
    destruct u as [|x u]; [done|].
    unfold allDigits in Hu. cbn [list_ascii_of_string forallb] in Hu.
    apply andb_true_iff in Hu as [Hx _].
    unfold trim. cbn [trimStart]. by rewrite (Hws x Hx). }
  assert (Hfirst : forall w x u,
            isDigit x = true -> w <> "" -> allDigits w = false ->
            (forall y, In y (list_ascii_of_string (canonical w)) ->
                       isDigit y = false) ->
            isWord w (String x u) = false /\
            startsWithWord w (String x u) = false).
  { intros w x u Hx Hw _ Hall. destruct w as [|a w]; [done|].
    unfold isWord, startsWithWord. cbn [canonical startsWith String.eqb].
    assert (Ha : Ascii.eqb (canonicalize a) (canonicalize x) = false).
    { apply Ascii.eqb_neq. intros Heq.
      specialize (Hall (canonicalize a) ltac:(by left)).
      rewrite Heq, canonicalize_digit in Hall. congruence. }
    rewrite Ha. done. }
  assert (Hnot : forall x u, isDigit x = true ->
            isWord "staged" (String x u) = false /\
            isWord "stage" (String x u) = false /\
            isWord "worktree" (String x u) = false /\
            isWord "wt" (String x u) = false /\
            isWord "working-tree" (String x u) = false /\
            startsWithWord "recent" (String x u) = false).
  { intros x u Hx.
    repeat split; apply (Hfirst _ x u Hx); try done;
      intros y Hy; cbn in Hy;
      repeat destruct Hy as [<- | Hy]; try done. }
  split.
  - unfold parseArgs. rewrite Htrim by done.
    destruct (Hnot c r Hc) as (-> & -> & -> & -> & -> & Hrec).
    cbn [isEmpty orb]. unfold matchRecent. rewrite Hrec.
    unfold matchPr.
    assert (Ehash : Ascii.eqb c "#" = false).
    { destruct c as [[] [] [] [] [] [] [] []]; done. }
    rewrite Ehash, span_all by done. cbn [isEmpty negb andb].
    by rewrite Hv.
  - unfold parseArgs.
    assert (Ht : trim ("#" +:+ String c r) = "#" +:+ String c r).
    { change ("#" +:+ String c r) with (String "#" (String c r)).
      rewrite trim_head by done. f_equal. by apply HtrimEnd. }
    rewrite Ht. change ("#" +:+ String c r) with (String "#" (String c r)).
    cbn [isEmpty]. unfold matchRecent, matchPr.
    replace (isWord "staged" (String "#" (String c r))) with false by done.
    replace (isWord "stage" (String "#" (String c r))) with false by done.
    replace (isWord "worktree" (String "#" (String c r))) with false by done.
    replace (isWord "wt" (String "#" (String c r))) with false by done.
    replace (isWord "working-tree" (String "#" (String c r))) with false by done.
    replace (startsWithWord "recent" (String "#" (String c r))) with false by done.
    cbn [orb]. change (Ascii.eqb "#" "#") with true. cbv iota.
    rewrite span_all by done. cbn [isEmpty negb andb]. by rewrite Hv.
Qed.

Lemma parseArgs_pr_round_trip_witness :
  parseArgs (numberToString 4711) = Some (Parsed (pr 4711)) /\
  parseArgs ("#" +:+ numberToString 4711) = Some (Parsed (pr 4711)).
Proof. apply parseArgs_pr_round_trip. vm_compute. split; discriminate. Defined.

Section CleanArgs.

Lemma canonical_length s : String.length (canonical s) = String.length s.
Proof. induction s as [|c r IH]; cbn; auto. Qed.

Lemma canonical_append a b : canonical (a +:+ b) = canonical a +:+ canonical b.
Proof.
  induction a as [|c r IH]; [done|]. rewrite append_cons. cbn [canonical].
  by rewrite IH, append_cons.
Qed.

Lemma isWord_length w s : isWord w s = true -> String.length s = String.length w.
Proof.
  unfold isWord. intros H%String.eqb_eq.
  by rewrite <- (canonical_length s), <- H, canonical_length.
Qed.

Lemma isWord_startsWith w s rest :
  isWord w s = true -> startsWithWord w (s +:+ rest) = true.
Proof.
  unfold isWord, startsWithWord. intros H%String.eqb_eq.
  rewrite canonical_append, <- H. apply startsWith_append.
Qed.

Lemma space_not_word c : isWhiteSpace c = true -> isWordChar c = false.
Proof. destruct c as [[] [] [] [] [] [] [] []]; done. Qed.

Lemma word_not_space c : isWordChar c = true -> isWhiteSpace c = false.
Proof. destruct c as [[] [] [] [] [] [] [] []]; done. Qed.

(** A word of five letters taken in any case: its code units are word
    characters, so it has no white space at either end. *)
Lemma keyword_trim w k x :
  isWord k w = true -> String.length k = 5%nat ->
  forallb isWordChar (list_ascii_of_string (canonical k)) = true ->
  trim (w +:+ x) = w +:+ trimEnd x.
Proof.
  intros Hw Hk Hchars.
  assert (Hlen := isWord_length _ _ Hw). rewrite Hk in Hlen.
  assert (Hall : forallb isWordChar (list_ascii_of_string w) = true).
  { unfold isWord in Hw. apply String.eqb_eq in Hw. rewrite Hw in Hchars.
    clear -Hchars. induction w as [|c r IH]; [done|].
    cbn [canonical list_ascii_of_string forallb] in *.
    apply andb_true_iff in Hchars as [Hc Hr]. rewrite (IH Hr), andb_true_r.
    revert Hc. clear. destruct c as [[] [] [] [] [] [] [] []]; done. }
  destruct w as [|c1 [|c2 [|c3 [|c4 [|c5 [|c6 w]]]]]]; try done.
  cbn [list_ascii_of_string forallb] in Hall.
  repeat (apply andb_true_iff in Hall as [?%word_not_space Hall]).
  rewrite !append_cons, append_nil_l.
  rewrite trim_head by done. f_equal.
  repeat (rewrite trimEnd_cons;
          match goal with H : isWhiteSpace ?c = false |- context [isWhiteSpace ?c] =>
            rewrite H, andb_false_r end; f_equal).
Qed.

End CleanArgs.

(** X5. The word [suite] or [multi] in front of the arguments, in any
    case and followed by white space, is ignored: the command parses what
    comes after it. *)
Theorem cleanArgs_drops_suite_word word c args :
  isWord "suite" word = true \/ isWord "multi" word = true ->
  isWhiteSpace c = true ->
  parseArgs (cleanArgs (word +:+ String c args)) = parseArgs args.
Proof.
  intros Hword Hc. unfold cleanArgs.
  assert (Htrim : trim (word +:+ String c args) = word +:+ trimEnd (String c args)).
  { destruct Hword as [H | H];
      [apply (keyword_trim _ "suite") | apply (keyword_trim _ "multi")]; done. }
  assert (Hlen : String.length word = 5%nat).
  { destruct Hword as [H | H]; by apply isWord_length in H. }
  assert (Hstarts : startsWithWord "suite" (word +:+ trimEnd (String c args))
                    || startsWithWord "multi" (word +:+ trimEnd (String c args))
                    = true).
  { destruct Hword as [H | H];
      rewrite (isWord_startsWith _ _ _ H); [done | apply orb_true_r]. }
  rewrite Htrim, Hstarts.
  rewrite <- Hlen, strDrop_append.
  assert (Hend : atWordEnd (trimEnd (String c args)) = true).
  { rewrite trimEnd_cons.
    destruct (isEmpty (trimEnd args) && isWhiteSpace c); [done|].
    cbn [atWordEnd]. by rewrite space_not_word. }
  rewrite Hend, trimStart_trimEnd.
  change (trimEnd (trimStart (String c args))) with (trim (String c args)).
  rewrite parseArgs_trim.
  rewrite <- (parseArgs_trim (String c args)), <- (parseArgs_trim args).
  f_equal. unfold trim. cbn [trimStart]. by rewrite Hc.
Qed.

Lemma cleanArgs_drops_suite_word_witness :
  parseArgs (cleanArgs ("Suite" +:+ String " " "  staged")) =
  Some (Parsed staged).
Proof.
  rewrite (cleanArgs_drops_suite_word "Suite" " " "  staged");
    [| left |]; vm_compute; reflexivity.
Defined.

(** X6. In a session without a UI the command never waits for a picker
    and never gives up for want of a target: whatever the arguments, the
    target is the one they name, or the working tree, and with the agent
    idle, inside a repository and no run under way the command starts a
    run on it. *)
Theorem headless_review_always_starts fs args pick menu s :
  suiteActive s = false ->
  exists target,
    (forall pick' menu',
       resolveTarget false (cleanArgs args) pick' menu' = Some target) /\
    target =
      match parseArgs (cleanArgs args) with
      | Some (Parsed t) => t
      | _ => worktree
      end /\
    reviewHandler fs true 0 false args pick menu s =
      (tt,
       stateOf (sendCurrentStagePrompt fs (armedSuite target)),
       Notify "Review started" Info ::
       traceOf (sendCurrentStagePrompt fs (armedSuite target))).
Proof.
  intros Ha.
  exists (match parseArgs (cleanArgs args) with
          | Some (Parsed t) => t
          | _ => worktree
          end).
  assert (Hres : forall pick' menu',
            resolveTarget false (cleanArgs args) pick' menu' =
            Some match parseArgs (cleanArgs args) with
                 | Some (Parsed t) => t
                 | _ => worktree
                 end).
  { intros. unfold resolveTarget.
    by destruct (parseArgs (cleanArgs args)) as [[t|limit]|]. }
  split; [exact Hres|]. split; [done|].
  unfold reviewHandler. rewrite reviewCommand_run.
  cbn [isIdle gitExitCode resolvedTarget negb Z.eqb].
  by rewrite Hres, Ha.
Qed.

Lemma headless_review_always_starts_witness :
  stateOf (reviewHandler packagedFs true 0 false "suite recent 30"
             (fun _ => None) None initialSuite) =
  armedSuite worktree.
Proof.
  destruct (headless_review_always_starts packagedFs "suite recent 30"
              (fun _ => None) None initialSuite eq_refl)
    as (target & _ & Ht & Hrun).
  rewrite Hrun, Ht. vm_compute. reflexivity.
Defined.

(* ===================================================================== *)
(** * Front matter *)
(* ===================================================================== *)

Section FrontMatter.

Import Frontmatter.

Lemma startsWith_within p u t :
  (String.length p <= String.length u)%nat ->
  startsWith p (u +:+ t) = startsWith p u.
Proof.
  revert u. induction p as [|a p IH]; intros u Hlen; [done|].
  destruct u as [|b u]; [cbn in Hlen; lia|].
  rewrite append_cons. cbn [startsWith]. rewrite IH; [done|].
  cbn in Hlen. lia.
Qed.

Lemma includes_cons p c r :
  includes p (String c r) = startsWith p (String c r) || includes p r.
Proof. reflexivity. Qed.

Lemma includes_suffix p a x :
  includes p (a +:+ x) = false -> includes p x = false.
Proof.
  induction a as [|c r IH]; [done|].
  rewrite append_cons, includes_cons. intros [_ H]%orb_false_iff. auto.
Qed.

Lemma startsWith_append_l a b x :
  startsWith (a +:+ b) x =
  startsWith a x && startsWith b (strDrop (String.length a) x).
Proof.
  revert x. induction a as [|c a IH]; intros x; [done|].
  rewrite append_cons. destruct x as [|d x]; [done|].
  cbn [startsWith String.length strDrop]. by rewrite IH, andb_assoc.
Qed.

Lemma lit_lit {A} a b (k : string -> option A) x :
  lit a (lit b k) x = lit (a +:+ b) k x.
Proof.
  unfold lit. rewrite startsWith_append_l, length_append, strDrop_add.
  by destruct (startsWith a x).
Qed.

Lemma lit_fence {A} (k : string -> option A) x :
  lit nl (lit "---" k) x =
  if startsWith closingFence x then k (strDrop 4 x) else None.
Proof. by rewrite lit_lit. Qed.

(** The capture is the tail, less a line end at its start. *)
Lemma optNewline_capture tail :
  exists pad capture,
    optNewline captureRest tail = Some capture /\
    tail = pad +:+ capture /\ isBlank pad = true.
Proof.
  unfold optNewline, optCR, lit, captureRest.
  destruct tail as [|c r]; [by exists "", ""|].
  destruct (Ascii.eqb c CR) eqn:Hc.
  - apply Ascii.eqb_eq in Hc. subst c.
    destruct r as [|d r']; [by exists "", (String CR "")|].
    cbn [startsWith nl]. destruct (Ascii.eqb LF d) eqn:Hd.
    + apply Ascii.eqb_eq in Hd. subst d.
      exists (String CR nl), r'. done.
    + cbn. exists "", (String CR (String d r')). done.
  - cbn [startsWith nl]. destruct (Ascii.eqb LF c) eqn:Hd.
    + apply Ascii.eqb_eq in Hd. subst c. exists nl, r. done.
    + cbn. exists "", (String c r). done.
Qed.

Lemma afterMeta_fence tail :
  afterMeta (closingFence +:+ tail) = optNewline captureRest tail.
Proof.
  unfold afterMeta, optCR.
  change (closingFence +:+ tail) with
    (String LF (String "-" (String "-" (String "-" tail)))).
  change (Ascii.eqb LF CR) with false. cbv iota.
  rewrite lit_fence. reflexivity.
Qed.

Lemma afterMeta_cr_fence tail :
  afterMeta (String CR (closingFence +:+ tail)) =
  optNewline captureRest tail.
Proof.
  unfold afterMeta, optCR. rewrite Ascii.eqb_refl.
  fold afterMeta. rewrite lit_fence, startsWith_append.
  change (strDrop 4 (closingFence +:+ tail)) with tail.
  destruct (optNewline_capture tail) as (pad & capture & -> & _). done.
Qed.

(** Away from a closing fence the continuation fails. *)
Lemma afterMeta_none c x :
  startsWith closingFence (String c x) = false ->
  startsWith closingFence x = false ->
  afterMeta (String c x) = None.
Proof.
  intros H1 H2. unfold afterMeta, optCR.
  destruct (Ascii.eqb c CR); rewrite !lit_fence, ?H1, ?H2; done.
Qed.

(** The lazy run stops at the first closing fence. *)
Lemma lazyAny_meta meta tail :
  includes closingFence (meta +:+ nl +:+ "--") = false ->
  lazyAny afterMeta (meta +:+ closingFence +:+ tail) =
  optNewline captureRest tail.
Proof.
  assert (Hsplit : forall u, u +:+ closingFence +:+ tail =
                             (u +:+ nl +:+ "--") +:+ "-" +:+ tail).
  { intros u. by rewrite !append_assoc. }
  induction meta as [|c r IH]; intros Hno.
  - rewrite append_nil_l.
    destruct (optNewline_capture tail) as (pad & capture & E & _).
    change (closingFence +:+ tail) with
      (String LF (String "-" (String "-" (String "-" tail)))).
    cbn [lazyAny].
    change (String LF (String "-" (String "-" (String "-" tail))))
      with (closingFence +:+ tail).
    by rewrite afterMeta_fence, E.
  - rewrite !append_cons in Hno. rewrite includes_cons in Hno.
    apply orb_false_iff in Hno as [Hhere Hrest].
    specialize (IH Hrest). rewrite append_cons. cbn [lazyAny].
    fold (lazyAny afterMeta). rewrite IH.
    assert (Hc : startsWith closingFence
                   (String c (r +:+ closingFence +:+ tail)) = false).
    { rewrite <- append_cons, Hsplit, startsWith_within; [done|].
      cbn [String.length]. rewrite !length_append.
      change (String.length closingFence) with 4%nat. cbn. lia. }
    destruct r as [|d r'].
    + (* the block ends here: a carriage return belongs to the fence *)
      rewrite append_nil_l in *.
      destruct (Ascii.eqb c CR) eqn:Ecr.
      * apply Ascii.eqb_eq in Ecr. subst c.
        rewrite afterMeta_cr_fence.
        by destruct (optNewline_capture tail) as (? & ? & -> & _).
      * unfold afterMeta, optCR. rewrite Ecr. fold afterMeta.
        rewrite lit_fence, Hc.
        by destruct (optNewline_capture tail) as (? & ? & -> & _).
    + rewrite afterMeta_none; [| exact Hc |].
      * by destruct (optNewline_capture tail) as (? & ? & -> & _).
      * rewrite Hsplit, startsWith_within.
        -- rewrite !append_cons, includes_cons in Hrest.
           apply orb_false_iff in Hrest as [Hd _].
           by rewrite !append_cons.
        -- cbn [String.length]. rewrite !length_append.
      change (String.length closingFence) with 4%nat. cbn. lia.
Qed.

(** Without a closing fence the lazy run finds nothing. *)
Lemma lazyAny_no_fence x :
  includes closingFence x = false -> lazyAny afterMeta x = None.
Proof.
  induction x as [|c r IH]; intros Hno.
  - reflexivity.
  - rewrite includes_cons in Hno.
    apply orb_false_iff in Hno as [Hhere Hrest].
    cbn [lazyAny]. fold (lazyAny afterMeta). rewrite (IH Hrest).
    rewrite afterMeta_none; [done | done |].
    destruct r as [|d r']; [done|].
    rewrite includes_cons in Hrest.
    by apply orb_false_iff in Hrest as [-> _].
Qed.

Lemma matchFrontmatter_unfold content :
  matchFrontmatter content =
  lit "---" (optCR (lit nl (lazyAny afterMeta))) content.
Proof. reflexivity. Qed.

End FrontMatter.

(** X7. A text that opens with three dashes and a line end, goes on with
    a block that holds no line starting with three dashes, and closes
    that block with a line of three dashes, is stripped of all that:
    what is left is the rest of the text, trimmed. *)
Theorem stripFrontmatter_strips eol meta tail :
  isLineEnd eol = true ->
  includes closingFence (meta +:+ nl +:+ "--") = false ->
  stripFrontmatter ("---" +:+ eol +:+ meta +:+ closingFence +:+ tail) =
  trim tail.
Proof.
  intros Heol Hmeta. unfold stripFrontmatter.
  assert (E : Frontmatter.matchFrontmatter
                ("---" +:+ eol +:+ meta +:+ closingFence +:+ tail) =
              Frontmatter.optNewline Frontmatter.captureRest tail).
  { rewrite matchFrontmatter_unfold. unfold Frontmatter.lit at 1.
    rewrite startsWith_append, strDrop_append.
    unfold isLineEnd in Heol. apply orb_true_iff in Heol as [H | H];
      apply String.eqb_eq in H; subst eol.
    - change (nl +:+ meta +:+ closingFence +:+ tail)
        with (String LF (meta +:+ closingFence +:+ tail)).
      unfold Frontmatter.optCR. change (Ascii.eqb LF CR) with false.
      cbv iota. unfold Frontmatter.lit at 1.
      change (startsWith nl (String LF (meta +:+ closingFence +:+ tail)))
        with true. cbv iota.
      change (strDrop (String.length nl)
                (String LF (meta +:+ closingFence +:+ tail)))
        with (meta +:+ closingFence +:+ tail).
      by apply lazyAny_meta.
    - change (String CR nl +:+ meta +:+ closingFence +:+ tail)
        with (String CR (String LF (meta +:+ closingFence +:+ tail))).
      unfold Frontmatter.optCR. rewrite Ascii.eqb_refl.
      unfold Frontmatter.lit at 1.
      change (startsWith nl (String LF (meta +:+ closingFence +:+ tail)))
        with true. cbv iota.
      change (strDrop (String.length nl)
                (String LF (meta +:+ closingFence +:+ tail)))
        with (meta +:+ closingFence +:+ tail).
      rewrite lazyAny_meta by done.
      by destruct (optNewline_capture tail) as (? & ? & -> & _). }
  rewrite E.
  destruct (optNewline_capture tail) as (pad & capture & -> & Htail & Hpad).
  rewrite Htail. unfold trim. by rewrite trimStart_pad.
Qed.

Lemma stripFrontmatter_strips_witness :
  stripFrontmatter packagedSynthesize =
  trim (strDrop 74 packagedSynthesize).
Proof.
  assert (E : packagedSynthesize =
              "---" +:+ nl +:+
              "description: Synthesize multiple review passes into a final report"
              +:+ closingFence +:+ strDrop 74 packagedSynthesize)
    by (vm_compute; reflexivity).
  rewrite E at 1.
  apply stripFrontmatter_strips; vm_compute; reflexivity.
Defined.

(** X8. A text in which no line feed is followed by three dashes has no
    front matter to lose: it is only trimmed, whatever it starts with. *)
Theorem stripFrontmatter_without_fence content :
  includes closingFence content = false ->
  stripFrontmatter content = trim content.
Proof.
  intros Hno. unfold stripFrontmatter.
  assert (E : Frontmatter.matchFrontmatter content = None);
    [|by rewrite E].
  rewrite matchFrontmatter_unfold. unfold Frontmatter.lit at 1.
  destruct (startsWith "---" content) eqn:Hs; [|done].
  apply startsWith_spec in Hs as [rest ->].
  rewrite strDrop_append. apply includes_suffix in Hno.
  assert (Hlit : forall x, includes closingFence x = false ->
            Frontmatter.lit nl (Frontmatter.lazyAny afterMeta) x = None).
  { intros x Hx. unfold Frontmatter.lit.
    destruct (startsWith nl x) eqn:Hn; [|done].
    apply startsWith_spec in Hn as [x' ->]. rewrite strDrop_append.
    apply lazyAny_no_fence. by apply includes_suffix in Hx. }
  unfold Frontmatter.optCR. destruct rest as [|c r]; [by apply Hlit|].
  destruct (Ascii.eqb c CR).
  - rewrite (Hlit r); [by apply Hlit|].
    by apply (includes_suffix _ (String c "")) in Hno.
  - by apply Hlit.
Qed.

Lemma stripFrontmatter_without_fence_witness :
  stripFrontmatter ("--- draft ---" +:+ nl +:+ "{{SCOPE}}" +:+ nl) =
  "--- draft ---" +:+ nl +:+ "{{SCOPE}}".
Proof.
  rewrite stripFrontmatter_without_fence; vm_compute; reflexivity.
Defined.

(* ===================================================================== *)
(** * Placeholders *)
(* ===================================================================== *)

Section Placeholders.

Variables search repl : string.
Hypothesis search_nonempty : isEmpty search = false.

(** A text without the pattern is left as it is, whatever the
    replacement. *)
Lemma replaceAllFrom_absent before s :
  includes search s = false ->
  replaceAllFrom search repl before O s = s.
Proof.
  revert before. induction s as [|c r IH]; intros before.
  - intros _. by apply replaceAllFrom_nil.
  - rewrite includes_cons. intros [Hs Hr]%orb_false_iff.
    rewrite replaceAllFrom_cons, Hs, IH; done.
Qed.

(** The scan up to the first occurrence of the pattern. *)
Lemma replaceAllFrom_first before pre post :
  (forall i, (i < String.length pre)%nat ->
             occursAt search (pre +:+ search +:+ post) i = false) ->
  replaceAllFrom search repl before O (pre +:+ search +:+ post) =
  pre +:+ getSubstitution search (before +:+ pre) post repl +:+
  replaceAllFrom search repl (before +:+ pre +:+ search) O post.
Proof.
  revert before. induction pre as [|c pre IH]; intros before Hfirst.
  - rewrite !append_nil_l, append_nil_r.
    destruct search as [|a p] eqn:E; [done|]. rewrite <- E in *.
    assert (Hs : exists d r, search +:+ post = String d r)
      by (rewrite E, append_cons; eauto).
    destruct Hs as (d & r & Hs). rewrite Hs, replaceAllFrom_cons by done.
    rewrite <- Hs, startsWith_append, strDrop_append.
    replace (strTake (String.length search) (search +:+ post)) with search;
      [done|].
    clear. induction search as [|x s IHs]; [done|].
    rewrite append_cons. cbn [String.length strTake]. by rewrite <- IHs.
  - rewrite !append_cons, replaceAllFrom_cons by done.
    assert (H0 := Hfirst 0%nat ltac:(cbn; lia)).
    unfold occursAt in H0. cbn [strDrop] in H0.
    rewrite append_cons in H0. rewrite H0, IH.
    + by rewrite !append_assoc, append_cons, append_nil_l.
    + intros i Hi. apply (Hfirst (S i)). cbn. lia.
Qed.

(** The pattern [$&] puts every match back. *)
Lemma replaceAllFrom_matched before s :
  replaceAllFrom search "$&" before O s = s.
Proof.
  remember (String.length s) as n eqn:Hn. revert s Hn before.
  induction n as [n IH] using lt_wf_ind. intros s Hn before.
  destruct s as [|c r]; [by apply replaceAllFrom_nil|].
  rewrite replaceAllFrom_cons by done.
  destruct (startsWith search (String c r)) eqn:Hs.
  - apply startsWith_spec in Hs as [rest Hs]. rewrite Hs, strDrop_append.
    rewrite (IH (String.length rest)); [| |done].
    + cbn [getSubstitution]. change (Ascii.eqb "$" "$") with true.
      change (Ascii.eqb "&" "$") with false.
      change (Ascii.eqb "&" "&") with true. cbv iota.
      by rewrite append_nil_r.
    + subst n. rewrite Hs, length_append.
      destruct search; [done | cbn; lia].
  - rewrite (IH (String.length r)); [done | subst n; cbn; lia | done].
Qed.

End Placeholders.

Lemma placeholder_nonempty key : isEmpty ("{{" +:+ key +:+ "}}") = false.
Proof. reflexivity. Qed.

(** X9. A template that holds the placeholder of none of the variables
    is rendered as it is, whatever the values are. *)
Theorem renderVars_without_placeholder template vars :
  (forall kv, In kv vars ->
              includes ("{{" +:+ fst kv +:+ "}}") template = false) ->
  renderVars template vars = template.
Proof.
  unfold renderVars. induction vars as [|[k v] vars IH]; intros Hno; [done|].
  cbn [fold_left fst snd]. unfold replaceAll.
  rewrite replaceAllFrom_absent.
  - apply IH. intros kv Hin. apply Hno. by right.
  - apply placeholder_nonempty.
  - apply (Hno (k, v)). by left.
Qed.

Lemma renderVars_without_placeholder_witness :
  renderVars "Merge the three reviews above into one."
    [("REPORTS", "## Overall"); ("SCOPE", "$&")] =
  "Merge the three reviews above into one.".
Proof.
  apply renderVars_without_placeholder.
  intros kv [<- | [<- | []]]; vm_compute; reflexivity.
Defined.

Lemma renderVars_fills_placeholder_core key value pre post :
  (forall i, (i < String.length pre)%nat ->
             occursAt ("{{" +:+ key +:+ "}}")
               (pre +:+ ("{{" +:+ key +:+ "}}") +:+ post) i = false) ->
  includes ("{{" +:+ key +:+ "}}") post = false ->
  renderVars (pre +:+ ("{{" +:+ key +:+ "}}") +:+ post) [(key, value)] =
    pre +:+ getSubstitution ("{{" +:+ key +:+ "}}") pre post value +:+ post /\
  (noDollar value = true ->
   renderVars (pre +:+ ("{{" +:+ key +:+ "}}") +:+ post) [(key, value)] =
     pre +:+ value +:+ post).
Proof.
  intros Hfirst Hpost.
  assert (E : renderVars (pre +:+ ("{{" +:+ key +:+ "}}") +:+ post)
                [(key, value)] =
              pre +:+ getSubstitution ("{{" +:+ key +:+ "}}") pre post value
                  +:+ post).
  { rewrite renderVars_one. unfold replaceAll.
    rewrite replaceAllFrom_first by (done || apply placeholder_nonempty).
    rewrite replaceAllFrom_absent by (done || apply placeholder_nonempty).
    by rewrite append_nil_l. }
  split; [exact E|]. intros Hplain. rewrite E.
  rewrite <- (append_nil_r value) at 1.
  rewrite getSubstitution_literal by done. cbn [getSubstitution].
  by rewrite append_nil_r.
Qed.

(** X10. A template with the placeholder at one place only, namely
    between [pre] and [post], is rendered as [pre], the substitution of
    the value and [post]. The substitution is the value itself when the
    value holds no dollar sign; otherwise the dollar patterns of
    [String.prototype.replaceAll] are expanded in it. *)
Theorem renderVars_fills_placeholder key value pre post :
  let placeholder := "{{" +:+ key +:+ "}}" in
  (forall i, (i < String.length pre)%nat ->
             occursAt placeholder (pre +:+ placeholder +:+ post) i = false) ->
  includes placeholder post = false ->
  renderVars (pre +:+ placeholder +:+ post) [(key, value)] =
    pre +:+ getSubstitution placeholder pre post value +:+ post /\
  (noDollar value = true ->
   renderVars (pre +:+ placeholder +:+ post) [(key, value)] =
     pre +:+ value +:+ post).
Proof. intros placeholder. apply renderVars_fills_placeholder_core. Qed.

Lemma renderVars_fills_placeholder_witness :
  renderVars ("Scope: {{SCOPE}}" +:+ nl +:+ "Be brief.")
    [("SCOPE", "staged changes")] =
  "Scope: staged changes" +:+ nl +:+ "Be brief.".
Proof.
  apply (renderVars_fills_placeholder "SCOPE" "staged changes" "Scope: "
           (nl +:+ "Be brief.")).
  - intros i Hi. do 7 (destruct i as [|i]; [vm_compute; reflexivity|]).
    cbn in Hi. lia.
  - vm_compute. reflexivity.
  - vm_compute. reflexivity.
Defined.

(** X11. The value is a replacement pattern, not a plain text: with the
    value [$&] every placeholder is replaced by itself, so the template
    comes back unchanged, whatever it is. *)
Theorem renderVars_matched_pattern template key :
  renderVars template [(key, "$&")] = template.
Proof.
  rewrite renderVars_one. apply replaceAllFrom_matched, placeholder_nonempty.
Qed.

(* ===================================================================== *)
(** * The text of a turn and the scope of a review *)
(* ===================================================================== *)

Section LastAssistant.

Lemma filter_no_assistant post :
  Forall (fun x => role x <> "assistant") post ->
  List.filter (fun x => String.eqb (role x) "assistant") post = [].
Proof.
  induction 1 as [|x post Hx _ IH]; [done|].
  cbn [List.filter]. apply String.eqb_neq in Hx. by rewrite Hx.
Qed.

End LastAssistant.

(** X12. The text of a turn is the text of its last message of role
    [assistant], whatever comes before that message and whatever
    messages of other roles come after it; without any message of that
    role the text is empty. *)
Theorem getLastAssistantText_last_message pre m post :
  role m = "assistant" ->
  Forall (fun x => role x <> "assistant") post ->
  getLastAssistantText (pre ++ m :: post) = trim (rawTextOf m) /\
  getLastAssistantText post = "".
Proof.
  intros Hm Hpost. rewrite !getLastAssistantText_split. unfold lastAssistant.
  rewrite List.filter_app. cbn [List.filter].
  rewrite (filter_no_assistant post Hpost).
  assert (E : String.eqb (role m) "assistant" = true)
    by (by apply String.eqb_eq).
  rewrite E. split; [|done]. by rewrite last_snoc.
Qed.

Lemma getLastAssistantText_last_message_witness :
  getLastAssistantText
    [ assistantTurn "Looking at the diff." 1;
      mkMessage "assistant" (ContentParts [PObj "toolCall" None]) 2;
      mkMessage "toolResult" (ContentOther "ok") 3 ] = "".
Proof.
  apply (getLastAssistantText_last_message
           [assistantTurn "Looking at the diff." 1]
           (mkMessage "assistant" (ContentParts [PObj "toolCall" None]) 2)
           [mkMessage "toolResult" (ContentOther "ok") 3]).
  - reflexivity.
  - repeat constructor. cbn. discriminate.
Defined.

Section NoDollar.

Lemma noDollar_cons c r : noDollar (String c r) = negb (isDollar c) && noDollar r.
Proof. reflexivity. Qed.

Lemma noDollar_append a b : noDollar (a +:+ b) = noDollar a && noDollar b.
Proof.
  induction a as [|c r IH]; [done|].
  rewrite append_cons, !noDollar_cons, IH. by rewrite andb_assoc.
Qed.

Lemma noDollar_trimStart s : noDollar s = true -> noDollar (trimStart s) = true.
Proof.
  induction s as [|c r IH]; [done|]. cbn [trimStart].
  destruct (isWhiteSpace c); [|done].
  rewrite noDollar_cons. intros [_ Hr]%andb_true_iff. auto.
Qed.

Lemma noDollar_trimEnd s : noDollar s = true -> noDollar (trimEnd s) = true.
Proof.
  induction s as [|c r IH]; [done|].
  rewrite noDollar_cons, trimEnd_cons. intros [Hc Hr]%andb_true_iff.
  destruct (isEmpty (trimEnd r) && isWhiteSpace c); [done|].
  rewrite noDollar_cons, Hc. auto.
Qed.

Lemma noDollar_trim s : noDollar s = true -> noDollar (trim s) = true.
Proof. intros H. by apply noDollar_trimEnd, noDollar_trimStart. Qed.

Lemma noDollar_digits s : allDigits s = true -> noDollar s = true.
Proof.
  unfold allDigits, noDollar. induction s as [|c r IH]; [done|].
  cbn [list_ascii_of_string forallb].
  intros [Hc Hr]%andb_true_iff. rewrite (IH Hr), andb_true_r.
  unfold isDollar. destruct (Ascii.eqb_spec c "$") as [-> |]; done.
Qed.

Lemma noDollar_number n : noDollar (numberToString n) = true.
Proof.
  unfold numberToString, pretty, pretty_Z. destruct n as [|p|p]; [done | |].
  - change (pretty p) with (pretty (N.pos p)).
    by apply noDollar_digits, pretty_N_digits.
  - change (pretty p) with (pretty (N.pos p)).
    rewrite noDollar_append. cbn [andb noDollar].
    by apply noDollar_digits, pretty_N_digits.
Qed.

Lemma noDollar_scope target :
  (forall sha, target = recent sha -> noDollar sha = true) ->
  noDollar (buildScopePrompt target) = true.
Proof.
  intros Hsha. assert (Hc : noDollar scopeCommon = true)
    by (vm_compute; reflexivity).
  destruct target as [| | n | sha]; unfold buildScopePrompt, ln.
  - rewrite noDollar_append, Hc. vm_compute. reflexivity.
  - rewrite noDollar_append, Hc. vm_compute. reflexivity.
  - cbv zeta. rewrite !noDollar_append, Hc, !noDollar_number. reflexivity.
  - rewrite !noDollar_append, Hc, (Hsha sha eq_refl). reflexivity.
Qed.

End NoDollar.

(** X13. The prompt of a review stage whose template holds the
    placeholder [{{SCOPE}}] at one place is the template with the trimmed
    scope text put there as it is, as long as the base commit of a
    [recent] target holds no dollar sign. Compiling the prompt changes
    no suite variable and makes no host call. *)
Theorem review_prompt_inserts_scope fs target stage pre post s :
  kind stage = review ->
  (forall sha, target = recent sha -> noDollar sha = true) ->
  loadPromptText fs (promptName stage) = pre +:+ "{{SCOPE}}" +:+ post ->
  (forall i, (i < String.length pre)%nat ->
             occursAt "{{SCOPE}}" (pre +:+ "{{SCOPE}}" +:+ post) i = false) ->
  includes "{{SCOPE}}" post = false ->
  buildStagePrompt fs target stage s =
    (pre +:+ trim (buildScopePrompt target) +:+ post, s, []).
Proof.
  intros Hkind Hsha Htmpl Hfirst Hpost.
  rewrite buildStagePrompt_run, stagePromptOf_compiled.
  unfold compiledPrompt. rewrite Hkind, Htmpl.
  destruct (renderVars_fills_placeholder_core "SCOPE"
              (trim (buildScopePrompt target)) pre post Hfirst Hpost)
    as [_ H].
  rewrite <- H; [done|]. by apply noDollar_trim, noDollar_scope.
Qed.

Lemma review_prompt_inserts_scope_witness :
  buildStagePrompt packagedFs staged
    (mkStage review "overall" "review-overall" "Overall") startedSuite =
  ("" +:+ trim (buildScopePrompt staged) +:+
   strDrop 9 (loadPromptText packagedFs "review-overall"),
   startedSuite, []).
Proof.
  apply review_prompt_inserts_scope.
  - reflexivity.
  - intros sha H. discriminate H.
  - vm_compute. reflexivity.
  - intros i Hi. cbn in Hi. lia.
  - vm_compute. reflexivity.
Defined.

(* ===================================================================== *)
(** * The context filter *)
(* ===================================================================== *)

Section ContextFilter.

Lemma scanLastUser_spec messages n :
  match scanLastUser messages n with
  | Some i =>
      (i < n)%nat /\ isUserMessage (messages !! i) = true /\
      forall j, (i < j < n)%nat -> isUserMessage (messages !! j) = false
  | None => forall j, (j < n)%nat -> isUserMessage (messages !! j) = false
  end.
Proof.
  induction n as [|n IH]; cbn [scanLastUser]; [intros j Hj; lia|].
  destruct (isUserMessage (messages !! n)) eqn:Hn.
  - repeat split; [lia | done | intros j Hj; lia].
  - destruct (scanLastUser messages n) as [i|].
    + destruct IH as (Hi & Hu & Hlater). repeat split; [lia | done |].
      intros j Hj. destruct (decide (j = n)) as [-> | Hne]; [done|].
      apply Hlater. lia.
    + intros j Hj. destruct (decide (j = n)) as [-> | Hne]; [done|].
      apply IH. lia.
Qed.

Lemma isUserMessage_false_role messages :
  (forall j, (j < length messages)%nat ->
             isUserMessage (messages !! j) = false) ->
  Forall (fun x => role x <> "user") messages.
Proof.
  intros H. apply Forall_lookup. intros j x Hx.
  specialize (H j (lookup_lt_Some _ _ _ Hx)). rewrite Hx in H.
  cbn in H. by apply String.eqb_neq in H.
Qed.

Lemma slice_prefix {A} (l : list A) (b : nat) :
  (b <= length l)%nat -> slice l 0 (Some (Z.of_nat b)) = take b l.
Proof.
  intros Hb. unfold slice, relativeIndex.
  change (default (Z.of_nat (length l)) (Some (Z.of_nat b)))
    with (Z.of_nat b).
  destruct (Z.ltb_spec 0 0) as [|_]; [lia|].
  destruct (Z.ltb_spec (Z.of_nat b) 0) as [|_]; [lia|].
  rewrite Z.min_l by lia. rewrite Z.min_l by lia.
  cbn [Z.to_nat skipn]. by rewrite Z.sub_0_r, Nat2Z.id.
Qed.

Lemma slice_suffix {A} (l : list A) (u : nat) :
  (u <= length l)%nat -> slice l (Z.of_nat u) None = drop u l.
Proof.
  intros Hu. unfold slice, relativeIndex.
  change (default (Z.of_nat (length l)) None) with (Z.of_nat (length l)).
  destruct (Z.ltb_spec (Z.of_nat u) 0) as [|_]; [lia|].
  destruct (Z.ltb_spec (Z.of_nat (length l)) 0) as [|_]; [lia|].
  rewrite Z.min_id, Z.min_l by lia.
  rewrite Nat2Z.id, <- Nat2Z.inj_sub, Nat2Z.id by lia.
  apply take_ge. rewrite length_drop. lia.
Qed.

(** The handler in terms of its two halves. *)
Lemma onContext_run now eventMessages s :
  onContext now eventMessages s =
  if negb (suiteActive s) || negb (suiteFreshContext s) then (None, s, [])
  else
    match currentStageOf s with
    | None => (None, s, [])
    | Some stage =>
        match kind stage with
        | synthesize => (None, s, [])
        | review =>
            if suiteStageIndex s =? 0 then (None, s, [])
            else
              match eventMessages with
              | None | Some [] => (None, s, [])
              | Some messages =>
                  (filteredView now stage messages
                     (suiteBoundaryCount (capturedSuite messages s)),
                   capturedSuite messages s, [])
              end
        end
    end.
Proof.
  unfold onContext. unfold_monad.
  destruct (negb (suiteActive s) || negb (suiteFreshContext s)); [done|].
  unfold currentStage. unfold_monad. cbn [fst snd].
  destruct (currentStageOf s) as [stage|]; [|done].
  destruct (kind stage); [|done].
  destruct (suiteStageIndex s =? 0); [done|].
  destruct eventMessages as [[|m ms]|]; [done | | done].
  unfold capturedSuite, filteredView.
  destruct (boundaryNeedsCapture s).
  - destruct (scanLastUser (m :: ms) (length (m :: ms))) as [k|];
      cbn -[scanLastUser slice Z.of_nat "<?" ">=?" length];
      repeat match goal with
             | |- context [if ?c then _ else _] => destruct c
             end; reflexivity.
  - cbn -[scanLastUser slice Z.of_nat "<?" ">=?" length].
    repeat match goal with
           | |- context [if ?c then _ else _] => destruct c
           end; reflexivity.
Qed.

Lemma filteredView_shape now stage messages boundary out :
  filteredView now stage messages boundary = Some out ->
  exists b u,
    boundary = Z.of_nat b /\
    scanLastUser messages (length messages) = Some u /\
    (b < u < length messages)%nat /\
    out = take b messages ++ freshEyesNotice stage now :: drop u messages.
Proof.
  unfold filteredView.
  destruct (Z.ltb_spec boundary 0) as [|Hb]; [done|].
  pose proof (scanLastUser_spec messages (length messages)) as Hscan.
  destruct (scanLastUser messages (length messages)) as [u|]; [|done].
  destruct Hscan as (Hu & _).
  destruct (Z.ltb_spec (Z.of_nat u) 0) as [|_]; [lia|].
  rewrite Z.geb_leb. destruct (Z.leb_spec (Z.of_nat u) boundary) as [|Hlt];
    [done|].
  intros [= <-]. exists (Z.to_nat boundary), u.
  rewrite Z2Nat.id by lia. repeat split; try lia.
  rewrite <- (Z2Nat.id boundary) at 1 by lia.
  rewrite slice_prefix, slice_suffix by lia. done.
Qed.

End ContextFilter.

(** X14. The scan for the last user message finds the greatest index of
    a message of role [user]: no later message has that role; and it
    finds nothing only when no message has it. *)
Theorem scanLastUser_greatest messages :
  match scanLastUser messages (length messages) with
  | Some i =>
      (exists m, messages !! i = Some m /\ role m = "user") /\
      Forall (fun x => role x <> "user") (drop (S i) messages)
  | None => Forall (fun x => role x <> "user") messages
  end.
Proof.
  pose proof (scanLastUser_spec messages (length messages)) as H.
  destruct (scanLastUser messages (length messages)) as [i|].
  - destruct H as (Hi & Hu & Hlater). split.
    + destruct (messages !! i) as [m|] eqn:Hm; [|done].
      exists m. split; [done|]. cbn in Hu. by apply String.eqb_eq.
    + apply isUserMessage_false_role. intros j Hj.
      rewrite length_drop in Hj. rewrite lookup_drop. apply Hlater. lia.
  - by apply isUserMessage_false_role.
Qed.

(** X15. When the context handler returns a view, the suite is active
    at its second or third stage, the boundary it holds afterwards lies
    before the last user message, and the view is made of the messages
    before the boundary, the notice of the stage, and the last user
    message with all that follows it. Nothing else is ever returned, and
    no host call is made. *)
Theorem context_view_shape now eventMessages s out :
  valueOf (onContext now eventMessages s) = Some out ->
  suiteActive s = true /\
  (suiteStageIndex s = 1 \/ suiteStageIndex s = 2) /\
  traceOf (onContext now eventMessages s) = [] /\
  exists messages stage b u,
    eventMessages = Some messages /\
    currentStageOf s = Some stage /\
    suiteBoundaryCount (stateOf (onContext now eventMessages s)) =
      Z.of_nat b /\
    scanLastUser messages (length messages) = Some u /\
    (b < u < length messages)%nat /\
    out = take b messages ++ freshEyesNotice stage now :: drop u messages.
Proof.
  rewrite onContext_run.
  destruct (suiteActive s); [|done].
  destruct (suiteFreshContext s); [|done]. cbn [negb orb].
  destruct (currentStageOf s) as [stage|] eqn:Hstage; [|done].
  destruct (kind stage) eqn:Hkind; [|done].
  destruct (Z.eqb_spec (suiteStageIndex s) 0) as [|Hx]; [done|].
  destruct eventMessages as [[|m ms]|]; [done | | done].
  unfold valueOf, stateOf, traceOf. cbn [fst snd]. intros Hview.
  apply filteredView_shape in Hview as (b & u & Hb & Hscan & Hlt & ->).
  split; [done|]. split.
  - pose proof (review_stage_index s stage Hstage Hkind). lia.
  - split; [done|]. by exists (m :: ms), stage, b, u.
Qed.

Lemma context_view_shape_witness :
  valueOf
    (onContext 3000 (Some [U0; A0; U1; A1; U2; A2; U3])
       (mkSuite true (Some staged) 2 [] true 2 false)) =
    Some [U0; A0; freshEyesNotice staffStage 3000; U3] /\
  suiteActive (mkSuite true (Some staged) 2 [] true 2 false) = true.
Proof.
  split; [reflexivity|].
  destruct (context_view_shape 3000 (Some [U0; A0; U1; A1; U2; A2; U3])
              (mkSuite true (Some staged) 2 [] true 2 false)
              [U0; A0; freshEyesNotice staffStage 3000; U3] eq_refl)
    as (Hactive & _).
  exact Hactive.
Defined.

(* ===================================================================== *)
(** * The boundary of a run *)
(* ===================================================================== *)

Section Boundary.

Lemma BoundaryInv_ended s : BoundaryInv (endedSuite s).
Proof. split; cbn; intros; (lia || done). Qed.

Lemma BoundaryInv_armed target : BoundaryInv (armedSuite target).
Proof. split; cbn; intros; (lia || done). Qed.

Lemma BoundaryInv_send fs s :
  BoundaryInv s -> BoundaryInv (stateOf (sendCurrentStagePrompt fs s)).
Proof.
  intros H. destruct (sendCurrentStagePrompt_state fs s) as [-> | ->];
    [apply BoundaryInv_ended | done].
Qed.

Lemma BoundaryInv_advanced s stage txt :
  BoundaryInv s -> 0 <= suiteStageIndex s ->
  BoundaryInv (advanced s stage txt).
Proof.
  intros [H1 H2 H3] Hx. destruct s as [a t i r f b p].
  unfold advanced. destruct (kind stage); split; cbn in *; try done.
  all: intros Hb; destruct (H3 Hb); split; [done | lia].
Qed.

Lemma BoundaryInv_captured messages s :
  BoundaryInv s -> 1 <= suiteStageIndex s -> suiteActive s = true ->
  BoundaryInv (capturedSuite messages s).
Proof.
  intros [H1 H2 H3] Hx Ha. destruct s as [a t i r f b p].
  unfold capturedSuite. cbn in *. destruct p; [|done].
  destruct (H2 eq_refl) as [_ ->].
  destruct (scanLastUser messages (length messages)) as [k|];
    split; cbn; intros; try done; lia.
Qed.

Lemma currentStageOf_index s stage :
  currentStageOf s = Some stage -> 0 <= suiteStageIndex s.
Proof.
  unfold currentStageOf, at_index.
  destruct (Z.ltb_spec (suiteStageIndex s) 0); [done | lia].
Qed.

Lemma BoundaryInv_step e s : BoundaryInv s -> BoundaryInv (fst (step e s)).
Proof.
  intros H. destruct e as [now ms | fs ms | hasUI source | fs host];
    cbn [step fst].
  - rewrite onContext_run.
    destruct (suiteActive s) eqn:Ha; [|done].
    destruct (negb true || negb (suiteFreshContext s)); [done|].
    destruct (currentStageOf s) as [stage|] eqn:Hs; [|done].
    destruct (kind stage) eqn:Hk; [|done].
    destruct (Z.eqb_spec (suiteStageIndex s) 0) as [|Hx]; [done|].
    destruct ms as [[|m ms]|]; [done | | done].
    apply BoundaryInv_captured; [done | | done].
    pose proof (review_stage_index s stage Hs Hk). lia.
  - rewrite onAgentEnd_run.
    destruct (negb (suiteActive s)); [done|].
    destruct (currentStageOf s) as [stage|] eqn:Hs;
      [|apply BoundaryInv_ended].
    cbv zeta.
    destruct (isEmpty _); [apply BoundaryInv_ended|].
    destruct (_ >=? 4); [apply BoundaryInv_ended|].
    apply BoundaryInv_send, BoundaryInv_advanced; [done|].
    by apply (currentStageOf_index s stage).
  - rewrite onInput_run.
    destruct (hasUI && suiteActive s && String.eqb source "interactive");
      [apply BoundaryInv_ended | done].
  - rewrite reviewCommand_run.
    destruct (negb (isIdle host)); [done|].
    destruct (negb (gitExitCode host =? 0)); [done|].
    destruct (resolvedTarget host) as [target|]; [|done].
    destruct (suiteActive s); [done|].
    cbv zeta. apply BoundaryInv_send, BoundaryInv_armed.
Qed.

Lemma reachable_boundary s : reachable s -> BoundaryInv s.
Proof.
  induction 1 as [|e s _ IH]; [|by apply BoundaryInv_step].
  split; cbn; intros; (lia || done).
Qed.

(** A boundary that is recorded stays as it is while the run lasts. *)
Lemma boundary_kept e s :
  BoundaryInv s -> 0 <= suiteBoundaryCount s ->
  suiteActive (fst (step e s)) = true ->
  suiteBoundaryCount (fst (step e s)) = suiteBoundaryCount s.
Proof.
  intros [H1 H2 H3] Hb. destruct (H3 Hb) as [Ha Hx].
  assert (Hp : boundaryNeedsCapture s = false).
  { destruct (boundaryNeedsCapture s); [|done].
    destruct (H2 eq_refl) as [_ E]. lia. }
  destruct e as [now ms | fs ms | hasUI source | fs host];
    cbn [step fst].
  - rewrite onContext_run, Ha.
    destruct (negb true || negb (suiteFreshContext s)); [done|].
    destruct (currentStageOf s) as [stage|]; [|done].
    destruct (kind stage); [|done].
    destruct (suiteStageIndex s =? 0); [done|].
    destruct ms as [[|m ms]|]; [done | | done].
    unfold capturedSuite. by rewrite Hp.
  - rewrite onAgentEnd_run, Ha. cbn [negb].
    destruct (currentStageOf s) as [stage|]; [|done].
    cbv zeta. destruct (isEmpty _); [done|].
    destruct (_ >=? 4); [done|].
    destruct (sendCurrentStagePrompt_state fs
                (advanced s stage
                   (getLastAssistantText (default [] ms)))) as [-> | ->];
      [done|].
    intros _. destruct s. unfold advanced. by destruct (kind stage).
  - rewrite onInput_run.
    by destruct (hasUI && suiteActive s && String.eqb source "interactive").
  - rewrite reviewCommand_run.
    destruct (negb (isIdle host)); [done|].
    destruct (negb (gitExitCode host =? 0)); [done|].
    destruct (resolvedTarget host) as [target|]; [|done].
    by rewrite Ha.
Qed.

End Boundary.

(** X16. Between two handlers the boundary is -1 or the index of a
    message. While its capture is pending the run is active and the
    boundary is still -1. A boundary that is recorded was recorded after
    the first stage, in a run that is still active, and no event changes
    it as long as that run lasts. *)
Theorem boundary_captured_once s e :
  reachable s ->
  -1 <= suiteBoundaryCount s /\
  (boundaryNeedsCapture s = true ->
   suiteActive s = true /\ suiteBoundaryCount s = -1) /\
  (0 <= suiteBoundaryCount s ->
   suiteActive s = true /\ 1 <= suiteStageIndex s /\
   (suiteActive (fst (step e s)) = true ->
    suiteBoundaryCount (fst (step e s)) = suiteBoundaryCount s)).
Proof.
  intros Hs. pose proof (reachable_boundary s Hs) as H.
  destruct H as [H1 H2 H3] eqn:E. clear E.
  split; [done|]. split; [done|]. intros Hb.
  destruct (H3 Hb) as [Ha Hx]. repeat split; try done.
  apply boundary_kept; [by apply reachable_boundary | done].
Qed.

Lemma boundary_captured_once_witness :
  let s := fst (run redactionRun initialSuite) in
  suiteBoundaryCount s = 4 /\
  suiteBoundaryCount
    (fst (step (EvContext 3000 (Some [U0; A0; U1; A1; U2; A2; U3])) s)) = 4.
Proof.
  intros s.
  destruct (boundary_captured_once s
              (EvContext 3000 (Some [U0; A0; U1; A1; U2; A2; U3]))
              (reachable_run redactionRun initialSuite reachable_initial))
    as (_ & _ & H).
  destruct H as (_ & _ & Hkept); [vm_compute; discriminate|].
  split; [reflexivity|]. rewrite Hkept; reflexivity.
Defined.

(* ===================================================================== *)
(** * The status line *)
(* ===================================================================== *)

Section StatusLine.

Lemma statusCallOf_shown s :
  statusCallOf s = [SetStatus "pi-review" (shownStatus s)].
Proof.
  unfold shownStatus. fold (statusCallOf s).
  unfold statusCallOf, updateSuiteStatus. unfold_monad.
  destruct (suiteActive s); cbn [negb].
  - unfold currentStage, setStatus. unfold_monad.
    cbn [traceOf fst snd app statusAfter fold_left applyStatus].
    by rewrite lookup_insert_eq.
  - unfold setStatus. unfold_monad.
    cbn [traceOf fst snd app statusAfter fold_left applyStatus].
    by rewrite lookup_delete_eq.
Qed.

Lemma shownStatus_inactive s : suiteActive s = false -> shownStatus s = None.
Proof.
  intros Ha. unfold shownStatus, updateSuiteStatus. unfold_monad.
  rewrite Ha. cbn [negb]. unfold setStatus. unfold_monad.
  cbn [traceOf fst snd app statusAfter fold_left applyStatus].
  apply lookup_delete_eq.
Qed.

Lemma shownStatus_active s : suiteActive s = true -> is_Some (shownStatus s).
Proof.
  intros Ha. unfold shownStatus, updateSuiteStatus. unfold_monad.
  rewrite Ha. cbn [negb]. unfold currentStage, setStatus. unfold_monad.
  cbn [traceOf fst snd app statusAfter fold_left applyStatus].
  rewrite lookup_insert_eq. eauto.
Qed.

Lemma applyStatus_own surface v :
  applyStatus surface (SetStatus "pi-review" v) !! "pi-review" = v.
Proof.
  destruct v; cbn; [apply lookup_insert_eq | apply lookup_delete_eq].
Qed.

Lemma applyStatus_other surface v key :
  key <> "pi-review" ->
  applyStatus surface (SetStatus "pi-review" v) !! key = surface !! key.
Proof.
  intros Hk. destruct v; cbn;
    [by apply lookup_insert_ne | by apply lookup_delete_ne].
Qed.

(** The status text is a function of three of the suite variables. *)
Lemma shownStatus_ext s s' :
  suiteActive s' = suiteActive s ->
  suiteStageIndex s' = suiteStageIndex s ->
  suiteFreshContext s' = suiteFreshContext s ->
  shownStatus s' = shownStatus s.
Proof.
  intros Ha Hx Hf.
  assert (E : statusCallOf s' = statusCallOf s);
    [|rewrite !statusCallOf_shown in E; by injection E].
  unfold statusCallOf, updateSuiteStatus. unfold_monad.
  unfold currentStage. unfold_monad. unfold currentStageOf, setStatus.
  unfold_monad. rewrite Ha. destruct (suiteActive s); [|reflexivity].
  cbn [negb traceOf fst snd app]. by rewrite Hx, Hf.
Qed.

Lemma shownStatus_captured messages s :
  shownStatus (capturedSuite messages s) = shownStatus s.
Proof.
  apply shownStatus_ext; unfold capturedSuite;
    destruct (boundaryNeedsCapture s); try done;
    by destruct (scanLastUser messages (length messages)).
Qed.

Lemma statusAfter_ended surface reason s :
  statusAfter surface (endTrace reason) =
  applyStatus surface (SetStatus "pi-review" (shownStatus (endedSuite s))).
Proof. by rewrite shownStatus_inactive. Qed.

Lemma statusAfter_send fs s surface :
  statusAfter surface (traceOf (sendCurrentStagePrompt fs s)) =
  applyStatus surface
    (SetStatus "pi-review"
       (shownStatus (stateOf (sendCurrentStagePrompt fs s)))).
Proof.
  rewrite sendCurrentStagePrompt_run.
  destruct (suiteTarget s); [|apply statusAfter_ended].
  destruct (currentStageOf s); [|apply statusAfter_ended].
  cbv zeta. destruct (isEmpty _); [apply statusAfter_ended|].
  unfold traceOf, stateOf. cbn [fst snd].
  by rewrite statusAfter_app, statusCallOf_shown.
Qed.

(** A handler leaves the status surface alone and the status text of
    the suite as it was, or it puts the status text of the suite it
    leaves behind. *)
Lemma statusAfter_step e s surface :
  (statusAfter surface (snd (step e s)) = surface /\
   shownStatus (fst (step e s)) = shownStatus s) \/
  statusAfter surface (snd (step e s)) =
    applyStatus surface
      (SetStatus "pi-review" (shownStatus (fst (step e s)))).
Proof.
  destruct e as [now ms | fs ms | hasUI source | fs host];
    cbn [step fst snd].
  - left. rewrite onContext_run.
    destruct (negb (suiteActive s) || negb (suiteFreshContext s)); [done|].
    destruct (currentStageOf s) as [stage|]; [|done].
    destruct (kind stage); [|done].
    destruct (suiteStageIndex s =? 0); [done|].
    destruct ms as [[|m ms]|]; [done | | done].
    split; [done|]. apply shownStatus_captured.
  - rewrite onAgentEnd_run.
    destruct (negb (suiteActive s)); [by left|]. right.
    destruct (currentStageOf s) as [stage|]; [|apply statusAfter_ended].
    cbv zeta. destruct (isEmpty _); [apply statusAfter_ended|].
    destruct (_ >=? 4); [apply statusAfter_ended|].
    apply statusAfter_send.
  - rewrite onInput_run.
    destruct (hasUI && suiteActive s && String.eqb source "interactive");
      [right; apply statusAfter_ended | by left].
  - rewrite reviewCommand_run.
    destruct (negb (isIdle host)); [by left|].
    destruct (negb (gitExitCode host =? 0)); [by left|].
    destruct (resolvedTarget host) as [target|]; [|by left].
    destruct (suiteActive s); [by left|]. right.
    cbv zeta. unfold traceOf at 1, stateOf at 1. cbn [fst snd].
    change (statusAfter surface (Notify "Review started" Info :: ?t))
      with (statusAfter surface t).
    apply statusAfter_send.
Qed.

Lemma status_follows_run events s surface :
  surface !! "pi-review" = shownStatus s ->
  statusAfter surface (snd (run events s)) !! "pi-review" =
    shownStatus (fst (run events s)) /\
  forall key, key <> "pi-review" ->
    statusAfter surface (snd (run events s)) !! key = surface !! key.
Proof.
  revert s surface. induction events as [|e events IH];
    intros s surface Hsync; [done|].
  rewrite run_cons_fst, run_cons_snd, statusAfter_app.
  destruct (statusAfter_step e s surface) as [[E1 E2] | E].
  - rewrite E1. apply IH. by rewrite E2.
  - destruct (IH (fst (step e s)) (statusAfter surface (snd (step e s))))
      as [H1 H2].
    + rewrite E. apply applyStatus_own.
    + split; [done|]. intros key Hk. rewrite (H2 key Hk), E.
      by apply applyStatus_other.
Qed.

End StatusLine.

(** X17. The status line follows the suite: after any events, from any
    suite whose status text is on the surface, the text under the key
    [pi-review] is the one [updateSuiteStatus] would put for the suite
    variables as they are then: a text while a run is active and none
    otherwise. The other keys of the surface are never touched. *)
Theorem status_follows_suite events s surface :
  surface !! "pi-review" = shownStatus s ->
  let r := run events s in
  statusAfter surface (snd r) !! "pi-review" = shownStatus (fst r) /\
  (suiteActive (fst r) = false ->
   statusAfter surface (snd r) !! "pi-review" = None) /\
  (suiteActive (fst r) = true ->
   is_Some (statusAfter surface (snd r) !! "pi-review")) /\
  (forall key, key <> "pi-review" ->
     statusAfter surface (snd r) !! key = surface !! key).
Proof.
  intros Hsync r.
  destruct (status_follows_run events s surface Hsync) as [H1 H2].
  fold r in H1, H2. rewrite H1. repeat split; try done.
  - apply shownStatus_inactive.
  - apply shownStatus_active.
Qed.

Lemma status_follows_suite_witness :
  statusAfter ∅ (snd (run (threeTurns packagedFs) initialSuite))
    !! "pi-review" =
  Some "Review suite: Synthesis (4/4) | fresh".
Proof.
  destruct (status_follows_suite (threeTurns packagedFs) initialSuite ∅
              eq_refl) as (H & _).
  cbv zeta in H. refine (eq_trans H _). vm_compute. reflexivity.
Defined.

(* ===================================================================== *)
(** * Events and the run *)
(* ===================================================================== *)

(** X18. An event that leaves an active run active keeps its target and
    either leaves the stage index and the reports as they are or is a
    completed turn that moves the index on by one and appends one
    report. The index never goes back and no report is ever dropped while
    the run lasts. *)
Theorem run_only_moves_forward e s :
  suiteActive s = true ->
  suiteActive (fst (step e s)) = true ->
  suiteTarget (fst (step e s)) = suiteTarget s /\
  ((suiteStageIndex (fst (step e s)) = suiteStageIndex s /\
    suiteReports (fst (step e s)) = suiteReports s) \/
   ((exists fs messages, e = EvAgentEnd fs messages) /\
    suiteStageIndex (fst (step e s)) = suiteStageIndex s + 1 /\
    exists report,
      suiteReports (fst (step e s)) = suiteReports s ++ [report])).
Proof.
  intros Ha. destruct e as [now ms | fs ms | hasUI source | fs host];
    cbn [step fst].
  - destruct (onContext_frame now ms s) as (b & p & -> & _).
    intros _. destruct s. cbn. auto.
  - rewrite onAgentEnd_run, Ha. cbn [negb].
    destruct (currentStageOf s) as [stage|] eqn:Hs; [|done].
    cbv zeta. destruct (isEmpty _); [done|].
    rewrite Z.geb_leb.
    destruct (Z.leb_spec 4 (suiteStageIndex s + 1)) as [|Hlt]; [done|].
    destruct (sendCurrentStagePrompt_state fs
                (advanced s stage (getLastAssistantText (default [] ms))))
      as [-> | ->]; [done|].
    intros _.
    assert (Hk : kind stage = review).
    { unfold currentStageOf, at_index in Hs.
      destruct (Z.ltb_spec (suiteStageIndex s) 0) as [|Hge]; [done|].
      assert (Z.to_nat (suiteStageIndex s) = 0 \/
              Z.to_nat (suiteStageIndex s) = 1 \/
              Z.to_nat (suiteStageIndex s) = 2)%nat as [E | [E | E]] by lia;
        rewrite E in Hs; injection Hs as <-; reflexivity. }
    rewrite advanced_review by done. destruct s. cbn.
    split; [done|]. right. split; [by exists fs, ms|]. split; [done|].
    by eexists.
  - rewrite onInput_run.
    destruct (hasUI && suiteActive s && String.eqb source "interactive");
      [done | auto].
  - rewrite reviewCommand_run.
    destruct (negb (isIdle host)); [auto|].
    destruct (negb (gitExitCode host =? 0)); [auto|].
    destruct (resolvedTarget host) as [target|]; [|auto].
    rewrite Ha. auto.
Qed.

Lemma run_only_moves_forward_witness :
  let e := EvAgentEnd packagedFs (Some [assistantTurn "The diff is fine." 11]) in
  suiteTarget (fst (step e startedSuite)) = suiteTarget startedSuite.
Proof.
  intros e.
  destruct (run_only_moves_forward e startedSuite) as [H _];
    [reflexivity | vm_compute; reflexivity | exact H].
Defined.

(** X19. While no run is active, an event other than the command leaves
    the suite variables as they are and makes no host call; and a run
    becomes active only through the command, given while the agent is
    idle, inside a git repository and with a resolved target, and then
    with all its variables set for the first stage of that target. *)
Theorem idle_suite_is_inert e s :
  suiteActive s = false ->
  (isReviewEvent e = false -> step e s = (s, [])) /\
  (suiteActive (fst (step e s)) = true ->
   exists fs host target,
     e = EvReview fs host /\ isIdle host = true /\ gitExitCode host = 0 /\
     resolvedTarget host = Some target /\
     fst (step e s) = armedSuite target).
Proof.
  intros Ha. destruct e as [now ms | fs ms | hasUI source | fs host];
    cbn [step fst isReviewEvent].
  - destruct (onContext_frame now ms s) as (_ & _ & _ & _ & H).
    rewrite (H Ha). split; [done|]. cbn. by rewrite Ha.
  - rewrite onAgentEnd_run, Ha. split; [done|]. cbn. by rewrite Ha.
  - rewrite onInput_run, Ha, andb_false_r. split; [done|]. cbn.
    by rewrite Ha.
  - split; [done|]. rewrite reviewCommand_run.
    destruct (isIdle host) eqn:Hidle; [|by cbn; rewrite Ha].
    destruct (Z.eqb_spec (gitExitCode host) 0) as [Hgit|];
      [|by cbn; rewrite Ha].
    destruct (resolvedTarget host) as [target|] eqn:Ht;
      [|by cbn; rewrite Ha].
    rewrite Ha. cbv zeta. cbn [negb stateOf fst snd].
    destruct (sendCurrentStagePrompt_state fs (armedSuite target))
      as [E | E]; rewrite E; [done|].
    intros _. by exists fs, host, target.
Qed.

Lemma idle_suite_is_inert_witness :
  step (EvAgentEnd packagedFs (Some [assistantTurn "Done." 5])) initialSuite =
  (initialSuite, []).
Proof.
  destruct (idle_suite_is_inert
              (EvAgentEnd packagedFs (Some [assistantTurn "Done." 5]))
              initialSuite eq_refl) as [H _].
  exact (H eq_refl).
Defined.

(* ===================================================================== *)
(** * The prompts of a run *)
(* ===================================================================== *)

Section Prompts.

Lemma sentPrompts_endTrace reason : sentPrompts (endTrace reason) = [].
Proof. reflexivity. Qed.

Lemma sentPrompts_send fs s :
  sentPrompts (traceOf (sendCurrentStagePrompt fs s)) = [] \/
  exists p,
    sentPrompts (traceOf (sendCurrentStagePrompt fs s)) = [p] /\
    isEmpty (trim p) = false.
Proof.
  rewrite sendCurrentStagePrompt_run.
  destruct (suiteTarget s) as [target|]; [|by left].
  destruct (currentStageOf s) as [stage|]; [|by left].
  cbv zeta. destruct (isEmpty _) eqn:E; [by left|]. right.
  eexists. unfold traceOf. cbn [snd].
  rewrite sentPrompts_app, sentPrompts_status. by split.
Qed.

Lemma sentPrompts_step e s :
  sentPrompts (snd (step e s)) = [] \/
  exists p,
    sentPrompts (snd (step e s)) = [p] /\ isEmpty (trim p) = false.
Proof.
  destruct e as [now ms | fs ms | hasUI source | fs host];
    cbn [step snd].
  - destruct (onContext_frame now ms s) as (_ & _ & _ & -> & _). by left.
  - rewrite onAgentEnd_run.
    destruct (negb (suiteActive s)); [by left|].
    destruct (currentStageOf s) as [stage|]; [|by left].
    cbv zeta. destruct (isEmpty _); [by left|].
    destruct (_ >=? 4); [by left|]. apply sentPrompts_send.
  - rewrite onInput_run.
    destruct (hasUI && suiteActive s && String.eqb source "interactive");
      by left.
  - rewrite reviewCommand_run.
    destruct (negb (isIdle host)); [by left|].
    destruct (negb (gitExitCode host =? 0)); [by left|].
    destruct (resolvedTarget host) as [target|]; [|by left].
    destruct (suiteActive s); [by left|].
    cbv zeta. unfold traceOf at 1. cbn [snd].
    rewrite sentPrompts_notify. apply sentPrompts_send.
Qed.

End Prompts.

(** X20. No handler ever sends a blank prompt, and none sends more than
    one: over any events, from any suite, every prompt sent has text
    left after trimming, and there are at most as many prompts as
    events. *)
Theorem prompts_are_never_blank events s :
  Forall (fun p => isEmpty (trim p) = false)
    (sentPrompts (snd (run events s))) /\
  (length (sentPrompts (snd (run events s))) <= length events)%nat.
Proof.
  revert s. induction events as [|e events IH]; intros s.
  - split; [constructor | done].
  - rewrite run_cons_snd, sentPrompts_app, length_app.
    destruct (IH (fst (step e s))) as [H1 H2].
    destruct (sentPrompts_step e s) as [-> | (p & -> & Hp)].
    + split; [done | cbn; lia].
    + split; [by constructor | cbn; lia].
Qed.

(** X21. A suite that meets no obstacle ends by itself: the command,
    then four completed turns with some text each, with context events
    anywhere in between, on a deployment with all four templates, send
    four prompts and leave the suite as it was before the command, the
    last calls being those of the teardown with the reason [complete]. *)
Theorem full_suite_completes
    fs host target m1 m2 m3 m4 c0 c1 c2 c3 :
  isIdle host = true -> gitExitCode host = 0 ->
  resolvedTarget host = Some target ->
  (forall stage, In stage DEFAULT_SUITE_STAGES ->
                 loadPromptText fs (promptName stage) <> "") ->
  forallb isContextEvent (c0 ++ c1 ++ c2 ++ c3) = true ->
  getLastAssistantText (default [] m1) <> "" ->
  getLastAssistantText (default [] m2) <> "" ->
  getLastAssistantText (default [] m3) <> "" ->
  getLastAssistantText (default [] m4) <> "" ->
  let r :=
    run (EvReview fs host :: c0 ++
         EvAgentEnd fs m1 :: c1 ++
         EvAgentEnd fs m2 :: c2 ++
         EvAgentEnd fs m3 :: c3 ++
         [EvAgentEnd fs m4]) initialSuite in
  fst r = initialSuite /\
  length (sentPrompts (snd r)) = 4%nat /\
  exists before,
    snd r = before ++
      [ SetStatus "pi-review" None;
        Notify "Review suite ended: complete" Info ].
Proof.
  intros Hidle Hgit Htarget Htmpl Hctx Ht1 Ht2 Ht3 Ht4 r.
  rewrite !forallb_app in Hctx.
  apply andb_true_iff in Hctx as [Hc0 Hctx].
  apply andb_true_iff in Hctx as [Hc1 Hctx].
  apply andb_true_iff in Hctx as [Hc2 Hc3].
  assert (Hin : forall n stage, DEFAULT_SUITE_STAGES !! n = Some stage ->
                                loadPromptText fs (promptName stage) <> "").
  { intros n stage H. apply Htmpl. apply list_elem_of_In.
    by apply list_elem_of_lookup_2 in H. }
  destruct (start_atStage fs host target initialSuite eq_refl Hidle Hgit
              Htarget (Hin 0%nat _ eq_refl)) as [A0 P0].
  destruct (atStage_contexts _ _ _ c0 _ A0 Hc0) as [A0' Q0].
  destruct (agentEnd_atStage fs m1 target 0 [] _ _ _ A0' ltac:(lia)
              eq_refl eq_refl eq_refl Ht1 (Hin 1%nat _ eq_refl)) as [A1 P1].
  destruct (atStage_contexts _ _ _ c1 _ A1 Hc1) as [A1' Q1].
  destruct (agentEnd_atStage fs m2 target 1 _ _ _ _ A1' ltac:(lia)
              eq_refl eq_refl eq_refl Ht2 (Hin 2%nat _ eq_refl)) as [A2 P2].
  destruct (atStage_contexts _ _ _ c2 _ A2 Hc2) as [A2' Q2].
  destruct (agentEnd_atStage fs m3 target 2 _ _ _ _ A2' ltac:(lia)
              eq_refl eq_refl eq_refl Ht3 (Hin 3%nat _ eq_refl)) as [A3 P3].
  destruct (atStage_contexts _ _ _ c3 _ A3 Hc3) as [A3' Q3].
  set (s3 := fst (run c3 (fst (step (EvAgentEnd fs m3)
      (fst (run c2 (fst (step (EvAgentEnd fs m2)
      (fst (run c1 (fst (step (EvAgentEnd fs m1)
      (fst (run c0 (fst (step (EvReview fs host) initialSuite)))))))))))))))) in *.
  assert (Hlast : step (EvAgentEnd fs m4) s3 =
                  (initialSuite, endTrace "complete")).
  { destruct A3' as (Ha & _ & Hx & _ & Hf). cbn [step].
    rewrite onAgentEnd_run, Ha. cbn [negb].
    unfold currentStageOf. rewrite Hx. cbn [at_index Z.ltb Z.compare].
    cbv zeta. apply isEmpty_false in Ht4. rewrite Ht4.
    unfold stateOf, traceOf. cbn [fst snd Z.add Z.geb Z.compare Pos.add
                                   Pos.compare Pos.compare_cont Pos.succ].
    by rewrite endedSuite_initial. }
  assert (Hfst : fst r = fst (step (EvAgentEnd fs m4) s3)).
  { unfold r, s3.
    rewrite run_cons_fst, run_app_fst, run_cons_fst, run_app_fst,
      run_cons_fst, run_app_fst, run_cons_fst, run_app_fst, run_cons_fst.
    done. }
  assert (Hsnd : exists before,
            snd r = before ++ snd (step (EvAgentEnd fs m4) s3) /\
            length (sentPrompts before) = 4%nat).
  { unfold r.
    rewrite run_cons_snd, run_app_snd, run_cons_snd, run_app_snd,
      run_cons_snd, run_app_snd, run_cons_snd, run_app_snd, run_cons_snd.
    fold s3. cbn [run snd]. rewrite app_nil_r.
    eexists. rewrite !app_assoc. split; [reflexivity|].
    rewrite !sentPrompts_app, P0, Q0, P1, Q1, P2, Q2, P3, Q3. done. }
  destruct Hsnd as (before & Hsnd & Hlen).
  rewrite Hfst, Hsnd, Hlast. cbn [fst snd].
  split; [done|]. split; [|by exists before].
  by rewrite sentPrompts_app, length_app, Hlen.
Qed.

Lemma full_suite_completes_witness :
  fst (run (threeTurns packagedFs ++
            [EvAgentEnd packagedFs (Some [assistantTurn "Final report." 14])])
         initialSuite) = initialSuite.
Proof.
  assert (Htmpl : forall stage, In stage DEFAULT_SUITE_STAGES ->
                    loadPromptText packagedFs (promptName stage) <> "").
  { intros stage Hin. cbn in Hin.
    destruct Hin as [<- | [<- | [<- | [<- | []]]]]; vm_compute; discriminate. }
  exact (proj1 (full_suite_completes packagedFs stagedHost staged
                  (Some [assistantTurn "The diff is fine." 11])
                  (Some [assistantTurn "Too clever by half." 12])
                  (Some [assistantTurn "Add a rollout plan." 13])
                  (Some [assistantTurn "Final report." 14])
                  [] [] [] [] eq_refl eq_refl eq_refl Htmpl eq_refl
                  ltac:(vm_compute; discriminate)
                  ltac:(vm_compute; discriminate)
                  ltac:(vm_compute; discriminate)
                  ltac:(vm_compute; discriminate))).
Defined.

(* ===================================================================== *)
(** * The commit picker *)
(* ===================================================================== *)

Section Picker.

Let notSpace (c : ascii) : bool := negb (isWhiteSpace c).

(** The first piece of a split at white space is the run of other code
    units the text starts with. *)
Lemma splitWhiteSpaceFrom_head piece s :
  exists rest,
    splitWhiteSpaceFrom piece false s =
    (piece +:+ fst (span notSpace s)) :: rest.
Proof.
  revert piece. induction s as [|c r IH]; intros piece.
  - exists []. cbn. by rewrite append_nil_r.
  - cbn [splitWhiteSpaceFrom span]. unfold notSpace at 1.
    destruct (isWhiteSpace c); cbn [negb].
    + eexists. by rewrite append_nil_r.
    + destruct (IH (piece +:+ String c "")) as [rest ->]. exists rest.
      destruct (span notSpace r) as [run after]. cbn [fst].
      by rewrite append_assoc, append_cons, append_nil_l.
Qed.

Lemma commitLines_trimmed out line :
  In line (commitLines out) ->
  exists c r, line = String c r /\ isWhiteSpace c = false /\
              trim line = line.
Proof.
  unfold commitLines. rewrite filter_In, in_map_iff.
  intros [(raw & <- & _) Hne].
  destruct (trim_shape raw) as [E | (c & r & E & Hc)].
  - by rewrite E in Hne.
  - exists c, r. rewrite trim_idem. done.
Qed.

Lemma splitLines_blank s :
  isBlank s = true -> Forall (fun l => isBlank l = true) (splitLines s).
Proof.
  induction s as [|c r IH]; [by repeat constructor|].
  rewrite isBlank_cons. intros [Hc Hr]%andb_true_iff.
  specialize (IH Hr). cbn [splitLines].
  destruct (Ascii.eqb c LF); [by constructor|].
  destruct (splitLines r) as [|piece pieces];
    [constructor; [by rewrite isBlank_cons, Hc | constructor]|].
  apply Forall_cons in IH as [Hp Hps]. constructor; [|done].
  by rewrite isBlank_cons, Hc.
Qed.

Lemma commitLines_blank out : isBlank out = true -> commitLines out = [].
Proof.
  intros H. unfold commitLines.
  induction (splitLines_blank out H) as [|l ls Hl _ IH]; [done|].
  cbn [map List.filter]. by rewrite (trim_blank l Hl).
Qed.

(** What follows a run is empty or starts outside the class. *)
Lemma span_rest f s :
  snd (span f s) = "" \/
  exists c r, snd (span f s) = String c r /\ f c = false.
Proof.
  induction s as [|c r IH]; [by left|]. cbn [span].
  destruct (f c) eqn:Hc; [|right; by exists c, r].
  destruct (span f r) as [run rest]. exact IH.
Qed.

Lemma noWhiteSpace_cons c r :
  noWhiteSpace (String c r) = negb (isWhiteSpace c) && noWhiteSpace r.
Proof. reflexivity. Qed.

(** A word followed by white space is the first piece of the split. *)
Lemma splitWhiteSpaceFrom_word piece v c r :
  noWhiteSpace v = true -> isWhiteSpace c = true ->
  splitWhiteSpaceFrom piece false (v +:+ String c r) =
  (piece +:+ v) :: splitWhiteSpaceFrom "" true r.
Proof.
  revert piece. induction v as [|a v IH]; intros piece Hv Hc.
  - rewrite append_nil_l, append_nil_r. cbn [splitWhiteSpaceFrom].
    by rewrite Hc.
  - rewrite noWhiteSpace_cons in Hv. apply andb_true_iff in Hv as [Ha Hv].
    apply negb_true_iff in Ha. rewrite append_cons.
    cbn [splitWhiteSpaceFrom]. rewrite Ha, (IH _ Hv Hc).
    by rewrite append_assoc, append_cons, append_nil_l.
Qed.

(** A word alone is the only piece. *)
Lemma splitWhiteSpaceFrom_single piece v :
  noWhiteSpace v = true ->
  splitWhiteSpaceFrom piece false v = [piece +:+ v].
Proof.
  revert piece. induction v as [|a v IH]; intros piece Hv.
  - by rewrite append_nil_r.
  - rewrite noWhiteSpace_cons in Hv. apply andb_true_iff in Hv as [Ha Hv].
    apply negb_true_iff in Ha. cbn [splitWhiteSpaceFrom].
    rewrite Ha, (IH _ Hv).
    by rewrite append_assoc, append_cons, append_nil_l.
Qed.

(** After a gap, a text that is not blank gives a piece that is not
    empty. *)
Lemma splitWhiteSpaceFrom_gap r :
  isBlank r = false ->
  exists c t more, splitWhiteSpaceFrom "" true r = String c t :: more.
Proof.
  induction r as [|c r IH]; [done|].
  rewrite isBlank_cons. cbn [splitWhiteSpaceFrom].
  destruct (isWhiteSpace c) eqn:Hc; cbn [andb]; [exact IH|]. intros _.
  destruct (splitWhiteSpaceFrom_head ("" +:+ String c "") r) as [more ->].
  rewrite append_nil_l, append_cons. eauto.
Qed.

Lemma join_head sep c t more :
  exists d, join sep (String c t :: more) = String c d.
Proof.
  unfold join. cbn [String.concat]. destruct more; [eauto|].
  rewrite append_cons. eauto.
Qed.

Lemma trimEnd_noWhiteSpace v : noWhiteSpace v = true -> trimEnd v = v.
Proof.
  induction v as [|a v IH]; [done|].
  rewrite noWhiteSpace_cons. intros [Ha Hv]%andb_true_iff.
  apply negb_true_iff in Ha.
  by rewrite trimEnd_cons, Ha, andb_false_r, (IH Hv).
Qed.

(** The item of a trimmed line that is not empty. *)
Lemma commitItem_spec c r :
  isWhiteSpace c = false -> trim (String c r) = String c r ->
  let item := commitItem (String c r) in
  itemLabel item = String c r /\
  itemValue item = fst (span notSpace (String c r)) /\
  (itemDescription item = None <-> itemLabel item = itemValue item) /\
  itemDescription item <> Some "".
Proof.
  intros Hc Htrim item. subst item.
  assert (HtrimEnd : trimEnd (String c r) = String c r).
  { rewrite trim_head in Htrim by done.
    by rewrite trimEnd_cons, Hc, andb_false_r. }
  pose proof (span_split notSpace (String c r)) as Hsplit.
  pose proof (span_run notSpace (String c r)) as Hrun.
  fold (noWhiteSpace (fst (span notSpace (String c r)))) in Hrun.
  destruct (span_rest notSpace (String c r)) as [E | (d & r' & E & Hd)];
    rewrite E in Hsplit.
  - (* one word *)
    rewrite append_nil_r in Hsplit. rewrite Hsplit in Hrun.
    unfold commitItem, splitWhiteSpace.
    rewrite (splitWhiteSpaceFrom_single "" _ Hrun), append_nil_l, Hsplit.
    cbn [itemLabel itemValue itemDescription join String.concat isEmpty].
    repeat split; done.
  - (* a word, white space, and more *)
    unfold notSpace in Hd. apply negb_false_iff in Hd.
    set (v := fst (span notSpace (String c r))) in *.
    assert (Hmore : isBlank r' = false).
    { destruct (isBlank r') eqn:Hb; [|done]. exfalso.
      rewrite <- Hsplit in HtrimEnd.
      rewrite trimEnd_pad in HtrimEnd
        by (by rewrite isBlank_cons, Hd, Hb).
      rewrite (trimEnd_noWhiteSpace v Hrun) in HtrimEnd.
      apply (f_equal String.length) in HtrimEnd.
      rewrite length_append in HtrimEnd. cbn in HtrimEnd. lia. }
    destruct (splitWhiteSpaceFrom_gap r' Hmore) as (c' & t & more & Hgap).
    destruct (join_head " " c' t more) as [desc Hjoin].
    assert (Hsw : splitWhiteSpaceFrom "" false (String c r) =
                  v :: String c' t :: more).
    { rewrite <- Hsplit.
      by rewrite (splitWhiteSpaceFrom_word "" v d r' Hrun Hd), Hgap,
        append_nil_l. }
    unfold commitItem, splitWhiteSpace. rewrite Hsw.
    cbn [itemLabel itemValue itemDescription]. rewrite Hjoin.
    cbn [isEmpty]. repeat split; try done.
    intros Heq. rewrite <- Hsplit in Heq.
    apply (f_equal String.length) in Heq.
    rewrite length_append in Heq. cbn in Heq. lia.
Qed.

End Picker.

Lemma commit_items_carry_hashes_core out item :
  In item (map commitItem (commitLines out)) ->
  In (itemLabel item) (commitLines out) /\
  trim (itemLabel item) = itemLabel item /\
  itemValue item <> "" /\
  noWhiteSpace (itemValue item) = true /\
  startsWith (itemValue item) (itemLabel item) = true /\
  itemValue item =
    fst (span (fun c => negb (isWhiteSpace c)) (itemLabel item)) /\
  (exists rest,
     itemLabel item = itemValue item +:+ rest /\
     (rest = "" \/
      exists c r, rest = String c r /\ isWhiteSpace c = true)) /\
  (itemDescription item = None <-> itemLabel item = itemValue item) /\
  itemDescription item <> Some "".
Proof.
  rewrite in_map_iff. intros (line & <- & Hline).
  pose proof Hline as Hin.
  apply commitLines_trimmed in Hline as (c & r & -> & Hc & Htrim).
  destruct (commitItem_spec c r Hc Htrim) as (Hl & Hv & Hd & Hd').
  rewrite Hl, Hv in *.
  split; [done|]. split; [done|]. split.
  { cbn [span]. rewrite Hc. cbn [negb]. by destruct (span _ r). }
  split; [apply span_run|]. split.
  { apply startsWith_spec. eexists. symmetry. apply span_split. }
  split; [done|]. split; [|by split].
  exists (snd (span (fun c => negb (isWhiteSpace c)) (String c r))).
  split; [symmetry; apply span_split|].
  destruct (span_rest (fun c => negb (isWhiteSpace c)) (String c r))
    as [E | (d & r' & E & Hd0)]; [by left|].
  right. exists d, r'. split; [done|]. by apply negb_false_iff in Hd0.
Qed.

(** X22. Every item the picker offers stands for one line of the log
    that is not blank: its label is that line, trimmed, and its value is
    the first word of the label, that is the longest run of code units
    other than white space the label starts with, so the value is not
    empty, holds no white space, and is followed in the label by white
    space or by nothing. The item has no description exactly when the
    label is that one word, and a description is never empty. *)
Theorem commit_items_carry_hashes out item :
  In item (map commitItem (commitLines out)) ->
  In (itemLabel item) (commitLines out) /\
  trim (itemLabel item) = itemLabel item /\
  itemValue item <> "" /\
  noWhiteSpace (itemValue item) = true /\
  startsWith (itemValue item) (itemLabel item) = true /\
  itemValue item =
    fst (span (fun c => negb (isWhiteSpace c)) (itemLabel item)) /\
  (exists rest,
     itemLabel item = itemValue item +:+ rest /\
     (rest = "" \/
      exists c r, rest = String c r /\ isWhiteSpace c = true)) /\
  (itemDescription item = None <-> itemLabel item = itemValue item) /\
  itemDescription item <> Some "".
Proof. apply commit_items_carry_hashes_core. Qed.

Lemma commit_items_carry_hashes_witness :
  let item :=
    mkSelectItem "3f2a1bc" "3f2a1bc (HEAD -> main) Fix the parser"
      (Some "(HEAD -> main) Fix the parser") in
  In item
    (map commitItem
       (commitLines
          ("3f2a1bc (HEAD -> main) Fix the parser" +:+ nl +:+
           "  9c0d111 Initial commit" +:+ nl))) /\
  itemValue item =
    fst (span (fun c => negb (isWhiteSpace c)) (itemLabel item)) /\
  itemValue item = "3f2a1bc".
Proof.
  intros item.
  assert (Hin : In item
                  (map commitItem
                     (commitLines
                        ("3f2a1bc (HEAD -> main) Fix the parser" +:+ nl +:+
                         "  9c0d111 Initial commit" +:+ nl))))
    by (vm_compute; left; reflexivity).
  destruct (commit_items_carry_hashes _ item Hin)
    as (_ & _ & _ & _ & _ & Hvalue & _).
  split; [exact Hin|]. split; [exact Hvalue | reflexivity].
Defined.

(** X23. [pickBaseCommit] changes no suite variable. When [git log]
    fails it gives nothing and notifies one error, whose text is trimmed;
    when the log has no line that is not blank it gives nothing and
    warns that no commits were found; and when the overlay resolves to
    the value of one of the items, the commit it gives is not empty and
    no call is made, so that [resolveTarget], asked for recent commits
    in a session with a UI, brings back the [recent] target of that
    commit. *)
Theorem pickBaseCommit_outcomes gitLog custom limit s :
  (forall items sha, custom items = Some sha ->
     exists item, In item items /\ sha = itemValue item) ->
  let r := pickBaseCommit gitLog custom limit s in
  stateOf r = s /\
  (code (gitLog limit) <> 0 ->
   valueOf r = None /\
   exists msg, traceOf r = [Notify msg Error] /\ trim msg = msg /\
               msg <> "") /\
  (code (gitLog limit) = 0 -> isBlank (stdout (gitLog limit)) = true ->
   valueOf r = None /\ traceOf r = [Notify "No commits found." Warning]) /\
  (forall sha, valueOf r = Some sha ->
     sha <> "" /\ traceOf r = [] /\ code (gitLog limit) = 0 /\
     forall args menu,
       parseArgs args = Some (recentPicker limit) ->
       resolveTarget true args
         (fun n => valueOf (pickBaseCommit gitLog custom n s)) menu =
       Some (recent sha)).
Proof.
  intros Hcustom r. subst r. unfold pickBaseCommit. unfold_monad.
  unfold notify. unfold_monad. unfold stateOf, valueOf, traceOf.
  destruct (Z.eqb_spec (code (gitLog limit)) 0) as [Hcode | Hcode];
    cbn [negb fst snd app].
  - destruct (commitLines (stdout (gitLog limit))) as [|l ls] eqn:Hlines;
      cbn [length Nat.eqb fst snd app].
    + repeat split; try done.
    + split; [done|]. split; [done|]. split.
      * intros _ Hblank. by rewrite (commitLines_blank _ Hblank) in Hlines.
      * intros sha Hsha.
        destruct (Hcustom _ _ Hsha) as (item & Hin & ->).
        rewrite <- Hlines in Hin.
        destruct (commit_items_carry_hashes_core _ _ Hin) as (_ & _ & Hne & _).
        repeat split; try done.
        intros args menu Hargs. unfold resolveTarget. rewrite Hargs.
        cbn [negb]. unfold pickBaseCommit. unfold_monad.
        destruct (Z.eqb_spec (code (gitLog limit)) 0) as [_|]; [|done].
        cbn [negb]. rewrite Hlines. cbn [length Nat.eqb fst snd].
        rewrite Hsha. by apply isEmpty_false in Hne as ->.
  - split; [done|]. split; [|split; [done|done]].
    intros _. split; [done|]. eexists. split; [reflexivity|].
    split; [apply trim_idem|].
    apply isEmpty_false. rewrite append_cons. by apply trim_head_nonempty.
Qed.

Lemma pickBaseCommit_outcomes_witness :
  resolveTarget true "recent 20"
    (fun n =>
       valueOf
         (pickBaseCommit
            (fun _ => mkExecResult 0
               ("3f2a1bc (HEAD -> main) Fix the parser" +:+ nl +:+
                "9c0d111 Initial commit" +:+ nl) "")
            (fun items => option_map itemValue (last items)) n initialSuite))
    None =
  Some (recent "9c0d111").
Proof.
  destruct (pickBaseCommit_outcomes
              (fun _ => mkExecResult 0
                 ("3f2a1bc (HEAD -> main) Fix the parser" +:+ nl +:+
                  "9c0d111 Initial commit" +:+ nl) "")
              (fun items => option_map itemValue (last items)) 20
              initialSuite) as (_ & _ & _ & H).
  - intros items sha Hsha. destruct (last items) as [item|] eqn:E; [|done].
    exists item. split; [|by injection Hsha].
    apply list_elem_of_In. by apply last_Some_elem_of.
  - destruct (H "9c0d111" eq_refl) as (_ & _ & _ & Hres).
    apply Hres. vm_compute. reflexivity.
Defined.
